(** * Rovers: the Universal Motor Controller and its motor back ends

    A shallow embedding of [motor/umc.py] and of the three hardware
    abstraction classes [motor/hal/motozero.py], [motor/hal/l298.py] and
    [motor/hal/camjam.py], followed by the command side of the operator's
    window [controller/controller.py] and by the controller factory and the
    interactive mode of [motor/test_motor.py].

    - Python integers are [Z]; Python floats are IEEE-754 binary64 values,
      computed with the Standard Library's [SpecFloat] (prec 53, emax 1024).
    - Text is ASCII [string]: [upper], [lower], [strip], [split] and [int]
      are Python's on text whose characters are all below 128
      ([PyStr.is_ascii]); what Python does with other characters (case
      mappings such as U+017F to [S], Unicode whitespace and digits) is not
      modelled, and a property that depends on it is stated for ASCII
      text.  The interpreter's limit on the digits of an integer literal
      (4300 by default where the interpreter has one) is not part of [int];
      a property about a command that carries a value is stated for values
      within the limit ([PyStr.digit_count]).  The direction strings
      ["STOPPED"], ["FORWARD"], ... are the constructors of [direction].
    - Calls into gpiozero, RPi.GPIO and paho-mqtt are recorded in a trace of
      events; console output ([print]) is not modelled.
    - Methods are written in two small monads: [Hal] (state of one motor
      controller plus the hardware calls it issues) and [Py] (the controller
      object, the event trace, the clock, exceptions and early [return]). *)

From Stdlib Require Import ZArith QArith Bool List String Ascii Lia.
From Stdlib Require Import Floats.SpecFloat.
From Stdlib Require Import DecimalString DecimalPos.
From ExtLib Require Import Structures.Monad.
Import ListNotations.
Import MonadNotation.

Local Open Scope string_scope.
Local Open Scope list_scope.
Local Open Scope Z_scope.
Local Open Scope monad_scope.

(** ** Python floats *)

Module PyFloat.

Definition float := spec_float.

Definition prec : Z := 53.
Definition emax : Z := 1024.

(** The binary64 value nearest to the integer [z]; an infinity where [z]
    is beyond the range of binary64. *)
Definition of_Z (z : Z) : float := binary_normalize prec emax z 0 false.

(** The conversion of an integer operand of float arithmetic, as in
    [z / 100.0]: [None] where Python raises [OverflowError] (int too large
    to convert to float). *)
Definition of_int (z : Z) : option float :=
  match of_Z z with
  | S754_infinity _ => None
  | f => Some f
  end.

Definition div (x y : float) : float := SFdiv prec emax x y.
Definition mul (x y : float) : float := SFmul prec emax x y.
Definition neg (x : float) : float := SFopp x.

(** [int(x)]: truncation towards zero; [None] where Python raises
    (infinities and NaN). *)
Definition to_int (x : float) : option Z :=
  match x with
  | S754_zero _ => Some 0
  | S754_finite s m e =>
      let a := match e with
               | Zneg p => Z.shiftr (Zpos m) (Zpos p)
               | _ => Z.shiftl (Zpos m) e
               end in
      Some (if s then - a else a)
  | S754_infinity _ | S754_nan => None
  end.

(** The literals [0.0], [0.5] and [100.0]. *)
Definition zero : float := S754_zero false.
Definition half : float := Eval vm_compute in div (of_Z 1) (of_Z 2).
Definition hundred : float := Eval vm_compute in of_Z 100.

End PyFloat.

#[global] Arguments PyFloat.of_Z : simpl never.
#[global] Arguments PyFloat.div : simpl never.
#[global] Arguments PyFloat.mul : simpl never.
#[global] Arguments PyFloat.to_int : simpl never.

(** ** Python strings (ASCII) *)

Module PyStr.

(** Text all of whose characters are below 128.  On such text the functions
    of this module are Python's. *)
Fixpoint is_ascii (s : string) : bool :=
  match s with
  | EmptyString => true
  | String c r => (nat_of_ascii c <? 128)%nat && is_ascii r
  end.

Definition is_lower (c : ascii) : bool :=
  let n := nat_of_ascii c in (97 <=? n)%nat && (n <=? 122)%nat.

Definition upper_char (c : ascii) : ascii :=
  if is_lower c then ascii_of_nat (nat_of_ascii c - 32) else c.

(** [s.upper()] *)
Fixpoint upper (s : string) : string :=
  match s with
  | EmptyString => EmptyString
  | String c r => String (upper_char c) (upper r)
  end.

Definition is_upper (c : ascii) : bool :=
  let n := nat_of_ascii c in (65 <=? n)%nat && (n <=? 90)%nat.

Definition lower_char (c : ascii) : ascii :=
  if is_upper c then ascii_of_nat (nat_of_ascii c + 32) else c.

(** [s.lower()] *)
Fixpoint lower (s : string) : string :=
  match s with
  | EmptyString => EmptyString
  | String c r => String (lower_char c) (lower r)
  end.

(** Whitespace as [str.strip] and [str.split] see it: TAB, LF, VT, FF, CR,
    FS, GS, RS, US and space. *)
Definition is_space (c : ascii) : bool :=
  let n := nat_of_ascii c in
  ((9 <=? n)%nat && (n <=? 13)%nat) || ((28 <=? n)%nat && (n <=? 32)%nat).

Fixpoint lstrip (s : string) : string :=
  match s with
  | EmptyString => EmptyString
  | String c r => if is_space c then lstrip r else s
  end.

Fixpoint rstrip (s : string) : string :=
  match s with
  | EmptyString => EmptyString
  | String c r =>
      match rstrip r with
      | EmptyString => if is_space c then EmptyString else String c EmptyString
      | r' => String c r'
      end
  end.

(** [s.strip()] *)
Definition strip (s : string) : string := rstrip (lstrip s).

Definition colon : ascii := ":"%char.

(** [":" in s] together with [s.split(":", 1)]: [None] when [s] holds no
    colon, otherwise the text before and after the first one. *)
Fixpoint split_colon (s : string) : option (string * string) :=
  match s with
  | EmptyString => None
  | String c r =>
      if Ascii.eqb c colon then Some (EmptyString, r)
      else match split_colon r with
           | Some (a, b) => Some (String c a, b)
           | None => None
           end
  end.

Definition digit_of (c : ascii) : option Z :=
  let n := nat_of_ascii c in
  if (48 <=? n)%nat && (n <=? 57)%nat then Some (Z.of_nat (n - 48)) else None.

(** The digits of an integer literal: decimal digits, where single
    underscores may separate digits.  [prev] tells whether the previous
    character was a digit. *)
Fixpoint digits (s : string) (acc : Z) (prev : bool) : option Z :=
  match s with
  | EmptyString => if prev then Some acc else None
  | String c r =>
      match digit_of c with
      | Some d => digits r (10 * acc + d) true
      | None =>
          if Ascii.eqb c "_"%char && prev then digits r acc false else None
      end
  end.

(** Whitespace as [int] sees it: TAB, LF, VT, FF, CR and space.  FS, GS,
    RS and US, which [str.strip] drops, are no whitespace to [int]. *)
Definition is_int_space (c : ascii) : bool :=
  let n := nat_of_ascii c in
  ((9 <=? n)%nat && (n <=? 13)%nat) || (n =? 32)%nat.

Fixpoint int_lstrip (s : string) : string :=
  match s with
  | EmptyString => EmptyString
  | String c r => if is_int_space c then int_lstrip r else s
  end.

Fixpoint int_rstrip (s : string) : string :=
  match s with
  | EmptyString => EmptyString
  | String c r =>
      match int_rstrip r with
      | EmptyString => if is_int_space c then EmptyString else String c EmptyString
      | r' => String c r'
      end
  end.

Definition int_strip (s : string) : string := int_rstrip (int_lstrip s).

(** [int(s)] for a string: the whitespace [int] knows is dropped on both
    sides, one sign is allowed; [None] where Python raises [ValueError]. *)
Definition int (s : string) : option Z :=
  match int_strip s with
  | EmptyString => None
  | String c r =>
      if Ascii.eqb c "+"%char then digits r 0 false
      else if Ascii.eqb c "-"%char then option_map Z.opp (digits r 0 false)
      else digits (String c r) 0 false
  end.

(** The number of decimal digits in a text, which the interpreter holds
    against its limit before it converts. *)
Fixpoint digit_count (s : string) : nat :=
  match s with
  | EmptyString => O
  | String c r =>
      match digit_of c with
      | Some _ => S (digit_count r)
      | None => digit_count r
      end
  end.

(** The default limit. *)
Definition max_str_digits : nat := 4300.

End PyStr.

(** ** The motor abstraction: shared vocabulary *)

(** [current_direction] *)
Inductive direction := STOPPED | FORWARD | BACKWARD | LEFT | RIGHT.

Definition direction_eqb (a b : direction) : bool :=
  match a, b with
  | STOPPED, STOPPED | FORWARD, FORWARD | BACKWARD, BACKWARD
  | LEFT, LEFT | RIGHT, RIGHT => true
  | _, _ => false
  end.

(** The four gpiozero [Motor] objects of the MotoZero board. *)
Inductive wheel := motorRR | motorFR | motorFL | motorRL.

(** Calls into the hardware libraries. *)
Inductive hw_event :=
  (* gpiozero, MotoZero *)
  | MotorNew (w : wheel) (fwd bwd : Z)
  | OutputDeviceNew (pin : Z) (initial_value : Z)
  | MotorForward (w : wheel) (speed : PyFloat.float)
  | MotorBackward (w : wheel) (speed : PyFloat.float)
  | MotorStop (w : wheel)
  (* RPi.GPIO, L298 *)
  | GpioSetmodeBCM
  | GpioSetupOut (pin : Z)
  | GpioOutput (pin : Z) (high : bool)
  | PwmNew (pin : Z) (freq : Z)
  | PwmStart (pin : Z) (dc : Z)
  | PwmChangeDutyCycle (pin : Z) (dc : Z)
  | PwmStop (pin : Z)
  | GpioCleanup
  (* gpiozero, CamJam: [robot.value = (l, r)]; an integer [0] in the pair is
     written as the float [0.0] *)
  | RobotNew
  | RobotStop
  | RobotValue (l r : PyFloat.float).

(** The dictionary returned by [get_status]. *)
Record status := mkStatus {
  speed_percent : Z;
  st_direction : direction;
  st_is_moving : bool;
  st_extra : list (string * PyFloat.float)
}.

(** A method of a motor controller: it reads and updates the object and
    issues hardware calls. *)
Definition Hal (S A : Type) : Type := S -> A * S * list hw_event.

#[global] Instance Monad_Hal (S : Type) : Monad (Hal S) := {|
  ret := fun _ a s => (a, s, []);
  bind := fun _ _ m f s =>
    let '(a, s1, l1) := m s in
    let '(b, s2, l2) := f a s1 in
    (b, s2, l1 ++ l2)
|}.

Definition hw {S} (e : hw_event) : Hal S unit := fun s => (tt, s, [e]).
Definition gets {S A} (f : S -> A) : Hal S A := fun s => (f s, s, []).
Definition modify {S} (f : S -> S) : Hal S unit := fun s => (tt, f s, []).

(** A parameter with the default value [d]. *)
Definition default_arg (d : Z) (a : option Z) : Z :=
  match a with Some v => v | None => d end.

(** The guard that opens every [set_speed]. *)
Definition clamp (speed_percent : Z) : Z :=
  if speed_percent <? 0 then 0
  else if speed_percent >? 100 then 100
  else speed_percent.

(** ** motor/hal/motozero.py *)

Module MotoZeroController.

Record t := mk {
  current_speed : PyFloat.float;          (* 0.0 to 1.0 *)
  current_direction : direction;
  is_moving : bool
}.

Definition with_speed (v : PyFloat.float) (s : t) : t :=
  mk v (current_direction s) (is_moving s).
Definition with_direction (d : direction) (s : t) : t :=
  mk (current_speed s) d (is_moving s).
Definition with_moving (b : bool) (s : t) : t :=
  mk (current_speed s) (current_direction s) b.

Definition __init__ : t * list hw_event :=
  (mk PyFloat.zero STOPPED false,
   [ MotorNew motorRR 24 27; OutputDeviceNew 5 1;
     MotorNew motorFR 6 22;  OutputDeviceNew 17 1;
     MotorNew motorFL 23 16; OutputDeviceNew 12 1;
     MotorNew motorRL 13 18; OutputDeviceNew 25 1 ]).

Definition _apply_current_movement : Hal t unit :=
  d <- gets current_direction ;;
  v <- gets current_speed ;;
  match d with
  | FORWARD =>
      hw (MotorForward motorFR v) ;; hw (MotorForward motorFL v) ;;
      hw (MotorForward motorRL v) ;; hw (MotorForward motorRR v)
  | BACKWARD =>
      hw (MotorBackward motorFR v) ;; hw (MotorBackward motorFL v) ;;
      hw (MotorBackward motorRL v) ;; hw (MotorBackward motorRR v)
  | LEFT =>
      hw (MotorBackward motorFR v) ;; hw (MotorForward motorFL v) ;;
      hw (MotorForward motorRL v) ;; hw (MotorBackward motorRR v)
  | RIGHT =>
      hw (MotorForward motorFR v) ;; hw (MotorBackward motorFL v) ;;
      hw (MotorBackward motorRL v) ;; hw (MotorForward motorRR v)
  | STOPPED => ret tt
  end.

Definition set_speed (speed_percent : Z) : Hal t unit :=
  let speed_percent := clamp speed_percent in
  modify (with_speed (PyFloat.div (PyFloat.of_Z speed_percent) PyFloat.hundred)) ;;
  moving <- gets is_moving ;;
  if moving : bool then _apply_current_movement else ret tt.

Definition start (d : direction) (speed_percent : option Z) : Hal t unit :=
  set_speed (default_arg 50 speed_percent) ;;
  modify (with_direction d) ;;
  modify (with_moving true) ;;
  _apply_current_movement.

Definition start_forward := start FORWARD.
Definition start_backward := start BACKWARD.
Definition start_left := start LEFT.
Definition start_right := start RIGHT.

Definition stop : Hal t unit :=
  hw (MotorStop motorFR) ;; hw (MotorStop motorFL) ;;
  hw (MotorStop motorRL) ;; hw (MotorStop motorRR) ;;
  modify (with_direction STOPPED) ;;
  modify (with_moving false).

(** [int(self.current_speed * 100)] raises for an infinite or NaN speed. *)
Definition get_status (s : t) : option status :=
  match PyFloat.to_int (PyFloat.mul (current_speed s) (PyFloat.of_Z 100)) with
  | Some p => Some (mkStatus p (current_direction s) (is_moving s) [])
  | None => None
  end.

Definition cleanup : Hal t unit := stop.

End MotoZeroController.

(** ** motor/hal/l298.py *)

Module L298Controller.

(** Pin configuration. *)
Definition in1 : Z := 21.
Definition in2 : Z := 20.
Definition ena : Z := 16.
Definition in3 : Z := 19.
Definition in4 : Z := 26.
Definition enb : Z := 13.

Record t := mk {
  current_speed : Z;              (* 0-100 percent *)
  current_direction : direction;
  is_moving : bool
}.

Definition with_speed (v : Z) (s : t) : t :=
  mk v (current_direction s) (is_moving s).
Definition with_direction (d : direction) (s : t) : t :=
  mk (current_speed s) d (is_moving s).
Definition with_moving (b : bool) (s : t) : t :=
  mk (current_speed s) (current_direction s) b.

Definition HIGH := true.
Definition LOW := false.

Definition __init__ : t * list hw_event :=
  (mk 50 STOPPED false,
   [ GpioSetmodeBCM;
     GpioSetupOut in1; GpioSetupOut in2; GpioSetupOut in3; GpioSetupOut in4;
     GpioSetupOut ena; GpioSetupOut enb;
     GpioOutput in1 LOW; GpioOutput in2 LOW;
     GpioOutput in3 LOW; GpioOutput in4 LOW;
     PwmNew ena 1000; PwmNew enb 1000; PwmStart ena 0; PwmStart enb 0 ]).

(** [self.pwm_a.ChangeDutyCycle(dc)] followed by
    [self.pwm_b.ChangeDutyCycle(dc)]. *)
Definition change_duty_cycles (dc : Z) : Hal t unit :=
  hw (PwmChangeDutyCycle ena dc) ;; hw (PwmChangeDutyCycle enb dc).

Definition set_speed (speed_percent : Z) : Hal t unit :=
  let speed_percent := clamp speed_percent in
  modify (with_speed speed_percent) ;;
  moving <- gets is_moving ;;
  if moving : bool then
    v <- gets current_speed ;; change_duty_cycles v
  else ret tt.

(** The four [GPIO.output] calls of a start method, then the duty cycles. *)
Definition drive (l1 l2 l3 l4 : bool) : Hal t unit :=
  hw (GpioOutput in1 l1) ;; hw (GpioOutput in2 l2) ;;
  hw (GpioOutput in3 l3) ;; hw (GpioOutput in4 l4) ;;
  v <- gets current_speed ;; change_duty_cycles v.

Definition start_forward (speed_percent : option Z) : Hal t unit :=
  set_speed (default_arg 50 speed_percent) ;;
  modify (with_direction FORWARD) ;;
  modify (with_moving true) ;;
  drive HIGH LOW HIGH LOW.

Definition start_backward (speed_percent : option Z) : Hal t unit :=
  set_speed (default_arg 50 speed_percent) ;;
  modify (with_direction BACKWARD) ;;
  modify (with_moving true) ;;
  drive LOW HIGH LOW HIGH.

Definition start_left (speed_percent : option Z) : Hal t unit :=
  set_speed (default_arg 50 speed_percent) ;;
  modify (with_direction LEFT) ;;
  modify (with_moving true) ;;
  drive LOW HIGH HIGH LOW.

Definition start_right (speed_percent : option Z) : Hal t unit :=
  set_speed (default_arg 50 speed_percent) ;;
  modify (with_direction RIGHT) ;;
  modify (with_moving true) ;;
  drive HIGH LOW LOW HIGH.

Definition stop : Hal t unit :=
  hw (GpioOutput in1 LOW) ;; hw (GpioOutput in2 LOW) ;;
  hw (GpioOutput in3 LOW) ;; hw (GpioOutput in4 LOW) ;;
  change_duty_cycles 0 ;;
  modify (with_direction STOPPED) ;;
  modify (with_moving false).

Definition get_status (s : t) : option status :=
  Some (mkStatus (current_speed s) (current_direction s) (is_moving s) []).

Definition cleanup : Hal t unit :=
  stop ;; hw (PwmStop ena) ;; hw (PwmStop enb) ;; hw GpioCleanup.

(** Speed presets. *)
Definition low : Hal t unit := set_speed 25.
Definition medium : Hal t unit := set_speed 50.
Definition high : Hal t unit := set_speed 75.

End L298Controller.

(** ** motor/hal/camjam.py *)

Module CamJamController.

Record t := mk {
  current_speed : PyFloat.float;       (* 0.0 to 1.0 *)
  current_direction : direction;
  is_moving : bool;
  left_motor_speed : PyFloat.float;
  right_motor_speed : PyFloat.float
}.

Definition with_speed (v : PyFloat.float) (s : t) : t :=
  mk v (current_direction s) (is_moving s)
     (left_motor_speed s) (right_motor_speed s).
Definition with_left (v : PyFloat.float) (s : t) : t :=
  mk (current_speed s) (current_direction s) (is_moving s)
     v (right_motor_speed s).
Definition with_right (v : PyFloat.float) (s : t) : t :=
  mk (current_speed s) (current_direction s) (is_moving s)
     (left_motor_speed s) v.
Definition with_direction (d : direction) (s : t) : t :=
  mk (current_speed s) d (is_moving s)
     (left_motor_speed s) (right_motor_speed s).
Definition with_moving (b : bool) (s : t) : t :=
  mk (current_speed s) (current_direction s) b
     (left_motor_speed s) (right_motor_speed s).

Definition __init__ : t * list hw_event :=
  (mk PyFloat.half STOPPED false PyFloat.half PyFloat.half, [ RobotNew ]).

Definition _apply_current_movement : Hal t unit :=
  d <- gets current_direction ;;
  l <- gets left_motor_speed ;;
  r <- gets right_motor_speed ;;
  match d with
  | FORWARD => hw (RobotValue l r)
  | BACKWARD => hw (RobotValue (PyFloat.neg l) (PyFloat.neg r))
  | LEFT => hw (RobotValue l PyFloat.zero)
  | RIGHT => hw (RobotValue PyFloat.zero r)
  | STOPPED => ret tt
  end.

Definition set_speed (speed_percent : Z) : Hal t unit :=
  let speed_percent := clamp speed_percent in
  modify (with_speed (PyFloat.div (PyFloat.of_Z speed_percent) PyFloat.hundred)) ;;
  v <- gets current_speed ;;
  modify (with_left v) ;;
  modify (with_right v) ;;
  moving <- gets is_moving ;;
  if moving : bool then _apply_current_movement else ret tt.

Definition start (d : direction) (speed_percent : option Z) : Hal t unit :=
  set_speed (default_arg 50 speed_percent) ;;
  modify (with_direction d) ;;
  modify (with_moving true) ;;
  _apply_current_movement.

Definition start_forward := start FORWARD.
Definition start_backward := start BACKWARD.
Definition start_left := start LEFT.
Definition start_right := start RIGHT.

Definition stop : Hal t unit :=
  hw RobotStop ;;
  modify (with_direction STOPPED) ;;
  modify (with_moving false).

Definition get_status (s : t) : option status :=
  match PyFloat.to_int (PyFloat.mul (current_speed s) (PyFloat.of_Z 100)) with
  | Some p =>
      Some (mkStatus p (current_direction s) (is_moving s)
              [ ("left_motor_speed", left_motor_speed s);
                ("right_motor_speed", right_motor_speed s) ])
  | None => None
  end.

Definition cleanup : Hal t unit := stop.

(** How [set_motor_speeds] ends. *)
Inductive calibration :=
  | Calibrated
  | OverflowError.

(** Motor calibration.  The arguments are not clamped: [z / 100.0] converts
    [z] to a float first and raises [OverflowError] where it is too large,
    for the right motor after the left one has been assigned. *)
Definition set_motor_speeds (left_speed_percent right_speed_percent : Z)
  : Hal t calibration :=
  match PyFloat.of_int left_speed_percent with
  | None => ret OverflowError
  | Some l =>
      modify (with_left (PyFloat.div l PyFloat.hundred)) ;;
      match PyFloat.of_int right_speed_percent with
      | None => ret OverflowError
      | Some r =>
          modify (with_right (PyFloat.div r PyFloat.hundred)) ;;
          moving <- gets is_moving ;;
          (if moving : bool then _apply_current_movement else ret tt) ;;
          ret Calibrated
      end
  end.

End CamJamController.

(** ** The controller object behind [self.motor_hal]

    [_create_motor_controller] picks one of the three classes by name; the
    calls [self.motor_hal.m(...)] dispatch on the class of the object. *)

Inductive controller :=
  | MotoZero (s : MotoZeroController.t)
  | L298 (s : L298Controller.t)
  | CamJam (s : CamJamController.t).

(** The methods the Universal Motor Controller calls. *)
Inductive hal_method :=
  | m_set_speed (speed_percent : Z)
  | m_start_forward (speed_percent : option Z)
  | m_start_backward (speed_percent : option Z)
  | m_start_left (speed_percent : option Z)
  | m_start_right (speed_percent : option Z)
  | m_stop
  | m_cleanup.

Definition lift_hal {S} (inj : S -> controller) (r : unit * S * list hw_event)
  : controller * list hw_event :=
  let '(_, s, l) := r in (inj s, l).

Definition hal_call (m : hal_method) (h : controller)
  : controller * list hw_event :=
  match h with
  | MotoZero s =>
      lift_hal MotoZero
        (match m with
         | m_set_speed v => MotoZeroController.set_speed v
         | m_start_forward v => MotoZeroController.start_forward v
         | m_start_backward v => MotoZeroController.start_backward v
         | m_start_left v => MotoZeroController.start_left v
         | m_start_right v => MotoZeroController.start_right v
         | m_stop => MotoZeroController.stop
         | m_cleanup => MotoZeroController.cleanup
         end s)
  | L298 s =>
      lift_hal L298
        (match m with
         | m_set_speed v => L298Controller.set_speed v
         | m_start_forward v => L298Controller.start_forward v
         | m_start_backward v => L298Controller.start_backward v
         | m_start_left v => L298Controller.start_left v
         | m_start_right v => L298Controller.start_right v
         | m_stop => L298Controller.stop
         | m_cleanup => L298Controller.cleanup
         end s)
  | CamJam s =>
      lift_hal CamJam
        (match m with
         | m_set_speed v => CamJamController.set_speed v
         | m_start_forward v => CamJamController.start_forward v
         | m_start_backward v => CamJamController.start_backward v
         | m_start_left v => CamJamController.start_left v
         | m_start_right v => CamJamController.start_right v
         | m_stop => CamJamController.stop
         | m_cleanup => CamJamController.cleanup
         end s)
  end.

Definition hal_get_status (h : controller) : option status :=
  match h with
  | MotoZero s => MotoZeroController.get_status s
  | L298 s => L298Controller.get_status s
  | CamJam s => CamJamController.get_status s
  end.

(** The three attributes every controller class keeps. *)
Definition hal_direction (h : controller) : direction :=
  match h with
  | MotoZero s => MotoZeroController.current_direction s
  | L298 s => L298Controller.current_direction s
  | CamJam s => CamJamController.current_direction s
  end.

Definition hal_is_moving (h : controller) : bool :=
  match h with
  | MotoZero s => MotoZeroController.is_moving s
  | L298 s => L298Controller.is_moving s
  | CamJam s => CamJamController.is_moving s
  end.

(** [self.current_speed] is a fraction (a float) in two classes and a
    percentage (an integer) in the third. *)
Inductive speed_value :=
  | Fraction (f : PyFloat.float)
  | Percent (p : Z).

Definition hal_current_speed (h : controller) : speed_value :=
  match h with
  | MotoZero s => Fraction (MotoZeroController.current_speed s)
  | L298 s => Percent (L298Controller.current_speed s)
  | CamJam s => Fraction (CamJamController.current_speed s)
  end.

(** ** motor/umc.py: data *)

(** The configuration dictionary.  Entries carry the types they have in
    [get_default_config]; [None] is a key that is absent, and reading it
    raises [KeyError]. *)
Record Config := mkConfig {
  motor_controller_type : option string;    (* ["motor_controller"]["type"] *)
  mqtt_broker : option string;              (* ["mqtt"]["broker"] *)
  mqtt_port : option Z;                     (* ["mqtt"]["port"] *)
  topic_command : option string;            (* ["mqtt"]["topics"]["command"] *)
  topic_status : option string;             (* ["mqtt"]["topics"]["status"] *)
  heartbeat_timeout_seconds : option Z;     (* ["mqtt"]["heartbeat_timeout_seconds"] *)
  default_speed_percent : option Z;         (* ["motor_settings"]["default_speed_percent"] *)
  max_speed_percent : option Z;             (* ["motor_settings"]["max_speed_percent"] *)
  emergency_stop_enabled : option bool;     (* ["safety"]["emergency_stop_enabled"] *)
  safety_heartbeat_monitoring : option bool;(* ["safety"]["heartbeat_monitoring"] *)
  auto_stop_on_disconnect : option bool     (* ["safety"]["auto_stop_on_disconnect"] *)
}.

Inductive exn :=
  | AttributeError (name : string)
  | KeyError (key : string)
  | ValueError
  | FloatToIntError        (* [int] of a NaN (ValueError) or an infinity (OverflowError) *)
  | ImportError
  | FileNotFoundError
  | JSONDecodeError
  | UnicodeDecodeError
  | KeyboardInterrupt.

(** [except Exception] catches everything but [KeyboardInterrupt]. *)
Definition is_Exception (e : exn) : bool :=
  match e with KeyboardInterrupt => false | _ => true end.

(** The paho-mqtt client object: which callbacks have been assigned. *)
Record MqttClient := mkClient {
  has_on_connect : bool;
  has_on_message : bool;
  has_on_disconnect : bool
}.

(** The attributes of a [UniversalMotorController]; [None] is an attribute
    the object does not have, and reading it raises [AttributeError].  For
    [motor_hal], [None] also stands for the value [None]. *)
Record UniversalMotorController := mkUmc {
  config : option Config;
  motor_hal : option controller;
  mqtt_client : option MqttClient;
  last_heartbeat : option Q;
  heartbeat_timeout : option Z;
  heartbeat_monitoring : option bool;
  status_thread : option (option string);
  running : option bool
}.

(** The status dictionary as [publish_status] completes it. *)
Record status_message := mkMessage {
  msg_status : status;
  timestamp : Q;
  controller_type : string
}.

Inductive event :=
  | Hw (e : hw_event)
  | MqttClientNew
  | MqttConnect (broker : string) (port : Z) (keepalive : Z)
  | MqttSubscribe (topic : string)
  | MqttPublish (topic : string) (payload : status_message)
  | MqttDisconnect
  | ThreadStart (target : string)
  | Sleep (seconds : Z).

(** What [open] and [json.load] find under a file name. *)
Inductive file :=
  | NoFile
  | BadJson
  | Json (c : Config).

(** The payload of an inbound message: bytes that [decode('utf-8')] turns
    into text, or bytes it rejects. *)
Inductive payload :=
  | Text (s : string)
  | NotUtf8.

(** The object, the calls made so far, and the environment: the clock read
    by [time.time()], the file system, the modules that can be imported
    and the messages the broker will deliver. *)
Record world := mkWorld {
  self : UniversalMotorController;
  trace : list event;
  clock : nat -> Q;
  reads : nat;
  files : string -> file;
  importable : string -> bool;
  inbox : list payload
}.

(** ** motor/umc.py: statements *)

Inductive flow (R A : Type) :=
  | Next (a : A)        (* the statement completed *)
  | Return (r : R)      (* [return r] is leaving the function *)
  | Raise (e : exn).    (* an exception is propagating *)
Arguments Next {R A} a.
Arguments Return {R A} r.
Arguments Raise {R A} e.

Definition Py (R A : Type) : Type := world -> flow R A * world.

#[global] Instance Monad_Py (R : Type) : Monad (Py R) := {|
  ret := fun _ a w => (Next a, w);
  bind := fun _ _ m f w =>
    match m w with
    | (Next a, w1) => f a w1
    | (Return r, w1) => (Return r, w1)
    | (Raise e, w1) => (Raise e, w1)
    end
|}.

Definition raise {R A} (e : exn) : Py R A := fun w => (Raise e, w).
Definition return_ {R A} (r : R) : Py R A := fun w => (Return r, w).

(** [try: body except ...: handler]; [handler e = None] when no clause
    matches [e]. *)
Definition try_except {R A} (body : Py R A) (handler : exn -> option (Py R A))
  : Py R A :=
  fun w =>
    match body w with
    | (Raise e, w1) =>
        match handler e with
        | Some h => h w1
        | None => (Raise e, w1)
        end
    | r => r
    end.

(** [try: body finally: fin] *)
Definition try_finally {R A} (body : Py R A) (fin : Py R unit) : Py R A :=
  fun w =>
    let '(r, w1) := body w in
    match fin w1 with
    | (Next _, w2) => (r, w2)
    | (Return v, w2) => (Return v, w2)
    | (Raise e, w2) => (Raise e, w2)
    end.

(** A function body seen from its caller: [return r] gives [r], and falling
    off the end gives [none]. *)
Definition def_ {R R'} (none : R) (body : Py R unit) : Py R' R :=
  fun w =>
    match body w with
    | (Next _, w1) => (Next none, w1)
    | (Return r, w1) => (Next r, w1)
    | (Raise e, w1) => (Raise e, w1)
    end.

Definition emit {R} (e : event) : Py R unit :=
  fun w => (Next tt, mkWorld (self w) (trace w ++ [e]) (clock w) (reads w)
                             (files w) (importable w) (inbox w)).

Definition emit_hw {R} (l : list hw_event) : Py R unit :=
  fun w => (Next tt, mkWorld (self w) (trace w ++ map Hw l) (clock w) (reads w)
                             (files w) (importable w) (inbox w)).

(** [time.time()] *)
Definition time_time {R} : Py R Q :=
  fun w => (Next (clock w (reads w)),
            mkWorld (self w) (trace w) (clock w) (S (reads w))
                    (files w) (importable w) (inbox w)).

(** [time.sleep(seconds)] *)
Definition time_sleep {R} (seconds : Z) : Py R unit := emit (Sleep seconds).

(** [self.name] *)
Definition attr {R A} (name : string) (get : UniversalMotorController -> option A)
  : Py R A :=
  fun w => match get (self w) with
           | Some a => (Next a, w)
           | None => (Raise (AttributeError name), w)
           end.

Definition update_self {R} (f : UniversalMotorController -> UniversalMotorController)
  : Py R unit :=
  fun w => (Next tt, mkWorld (f (self w)) (trace w) (clock w) (reads w)
                             (files w) (importable w) (inbox w)).

(** [self.name = v] *)
Definition set_config (v : Config) (o : UniversalMotorController) :=
  mkUmc (Some v) (motor_hal o) (mqtt_client o) (last_heartbeat o)
        (heartbeat_timeout o) (heartbeat_monitoring o) (status_thread o) (running o).
Definition set_motor_hal (v : option controller) (o : UniversalMotorController) :=
  mkUmc (config o) v (mqtt_client o) (last_heartbeat o)
        (heartbeat_timeout o) (heartbeat_monitoring o) (status_thread o) (running o).
Definition set_mqtt_client (v : MqttClient) (o : UniversalMotorController) :=
  mkUmc (config o) (motor_hal o) (Some v) (last_heartbeat o)
        (heartbeat_timeout o) (heartbeat_monitoring o) (status_thread o) (running o).
Definition set_last_heartbeat (v : Q) (o : UniversalMotorController) :=
  mkUmc (config o) (motor_hal o) (mqtt_client o) (Some v)
        (heartbeat_timeout o) (heartbeat_monitoring o) (status_thread o) (running o).
Definition set_heartbeat_timeout (v : Z) (o : UniversalMotorController) :=
  mkUmc (config o) (motor_hal o) (mqtt_client o) (last_heartbeat o)
        (Some v) (heartbeat_monitoring o) (status_thread o) (running o).
Definition set_heartbeat_monitoring (v : bool) (o : UniversalMotorController) :=
  mkUmc (config o) (motor_hal o) (mqtt_client o) (last_heartbeat o)
        (heartbeat_timeout o) (Some v) (status_thread o) (running o).
Definition set_status_thread (v : option string) (o : UniversalMotorController) :=
  mkUmc (config o) (motor_hal o) (mqtt_client o) (last_heartbeat o)
        (heartbeat_timeout o) (heartbeat_monitoring o) (Some v) (running o).
Definition set_running (v : bool) (o : UniversalMotorController) :=
  mkUmc (config o) (motor_hal o) (mqtt_client o) (last_heartbeat o)
        (heartbeat_timeout o) (heartbeat_monitoring o) (status_thread o) (Some v).

(** [self.config[...][key]] *)
Definition config_get {R A} (key : string) (get : Config -> option A) : Py R A :=
  c <- attr "config" config ;;
  match get c with
  | Some a => ret a
  | None => raise (KeyError key)
  end.

(** [self.motor_hal.m(...)]: the method runs on the controller object, which
    is updated in place, and its hardware calls join the trace. *)
Definition motor_hal_call {R} (m : hal_method) : Py R unit :=
  h <- attr "motor_hal" motor_hal ;;
  let '(h', l) := hal_call m h in
  update_self (set_motor_hal (Some h')) ;;
  emit_hw l.

(** [a > b] on clock differences. *)
Definition Qgtb (a b : Q) : bool := negb (Qle_bool a b).

(** ** motor/umc.py: methods of [UniversalMotorController] *)

Definition get_default_config : Config :=
  mkConfig (Some "motozero")
           (Some "localhost") (Some 1883)
           (Some "hov/motor/command") (Some "hov/motor/status")
           (Some 10)
           (Some 50) (Some 100)
           (Some true) (Some true) (Some true).

(** [with open(config_file, 'r') as f: return json.load(f)] *)
Definition open_and_load {R} (config_file : string) : Py R Config :=
  fun w => match files w config_file with
           | NoFile => (Raise FileNotFoundError, w)
           | BadJson => (Raise JSONDecodeError, w)
           | Json c => (Next c, w)
           end.

Definition load_config {R} (config_file : string) : Py R Config :=
  try_except (open_and_load config_file)
    (fun e => match e with
              | FileNotFoundError => Some (ret get_default_config)
              | _ => None
              end).

(** The three controller classes. *)
Inductive controller_class :=
  | MotoZeroController_class
  | L298Controller_class
  | CamJamController_class.

Definition controller_map : list (string * (string * controller_class)) :=
  [ ("motozero", ("motozero", MotoZeroController_class));
    ("l298", ("l298", L298Controller_class));
    ("camjam", ("camjam", CamJamController_class)) ].

Fixpoint lookup {A} (k : string) (m : list (string * A)) : option A :=
  match m with
  | [] => None
  | (k', v) :: r => if String.eqb k k' then Some v else lookup k r
  end.

(** [__import__(name, fromlist=[class_name])] *)
Definition import_ {R} (name : string) : Py R unit :=
  fun w => if importable w name then (Next tt, w) else (Raise ImportError, w).

(** [controller_class()] *)
Definition instantiate {R} (c : controller_class) : Py R controller :=
  match c with
  | MotoZeroController_class =>
      let '(s, l) := MotoZeroController.__init__ in emit_hw l ;; ret (MotoZero s)
  | L298Controller_class =>
      let '(s, l) := L298Controller.__init__ in emit_hw l ;; ret (L298 s)
  | CamJamController_class =>
      let '(s, l) := CamJamController.__init__ in emit_hw l ;; ret (CamJam s)
  end.

(** The statements after [return controller_class()] are part of the body,
    as they are in the source. *)
Definition _create_motor_controller {R} (controller_type : string)
  : Py R (option controller) :=
  def_ None
    (entry <- match lookup controller_type controller_map with
              | None => raise ValueError
              | Some e => ret e
              end ;;
     let '(module_name, class_name) := entry in
     try_except (import_ ("motor.hal." ++ module_name))
       (fun e => match e with
                 | ImportError =>
                     Some (try_except (import_ ("hal." ++ module_name))
                             (fun e' => match e' with
                                        | ImportError => Some (raise ImportError)
                                        | _ => None
                                        end))
                 | _ => None
                 end) ;;
     obj <- instantiate class_name ;;
     return_ (A := unit) (Some obj) ;;

     emit MqttClientNew ;;
     update_self (set_mqtt_client (mkClient false false false)) ;;
     c <- attr "mqtt_client" mqtt_client ;;
     update_self (set_mqtt_client (mkClient true (has_on_message c) (has_on_disconnect c))) ;;
     c <- attr "mqtt_client" mqtt_client ;;
     update_self (set_mqtt_client (mkClient (has_on_connect c) true (has_on_disconnect c))) ;;
     c <- attr "mqtt_client" mqtt_client ;;
     update_self (set_mqtt_client (mkClient (has_on_connect c) (has_on_message c) true)) ;;

     now <- time_time ;;
     update_self (set_last_heartbeat now) ;;
     t <- config_get "heartbeat_timeout_seconds" heartbeat_timeout_seconds ;;
     update_self (set_heartbeat_timeout t) ;;
     m <- config_get "heartbeat_monitoring" safety_heartbeat_monitoring ;;
     update_self (set_heartbeat_monitoring m) ;;

     update_self (set_status_thread None) ;;
     update_self (set_running false)).

Definition __init__ {R} (config_file : string) : Py R unit :=
  c <- load_config config_file ;;
  update_self (set_config c) ;;
  ty <- config_get "type" motor_controller_type ;;
  let controller_type := PyStr.lower ty in
  h <- _create_motor_controller controller_type ;;
  update_self (set_motor_hal h).

(** [client.subscribe] is called on the client the callback receives. *)
Definition on_connect {R} (rc : Z) : Py R unit :=
  if rc =? 0 then
    command_topic <- config_get "command" topic_command ;;
    emit (MqttSubscribe command_topic)
  else ret tt.

Definition on_disconnect {R} : Py R unit :=
  auto <- config_get "auto_stop_on_disconnect" auto_stop_on_disconnect ;;
  if auto : bool then motor_hal_call m_stop else ret tt.

Definition publish_status {R} : Py R unit :=
  try_except
    (h <- attr "motor_hal" motor_hal ;;
     status <- match hal_get_status h with
               | Some s => ret s
               | None => raise FloatToIntError
               end ;;
     now <- time_time ;;
     ty <- config_get "type" motor_controller_type ;;
     status_topic <- config_get "status" topic_status ;;
     _ <- attr "mqtt_client" mqtt_client ;;
     emit (MqttPublish status_topic (mkMessage status now ty)))
    (fun e => if is_Exception e then Some (ret tt) else None).

(** The [# Execute commands] part of [process_command]. *)
Definition execute_command {R} (cmd : string) (value : Z) : Py R unit :=
  try_except
    (if (cmd =? "START_FORWARD") || (cmd =? "FORWARD") then
       motor_hal_call (m_start_forward (Some value))
     else if (cmd =? "START_BACKWARD") || (cmd =? "BACKWARD") then
       motor_hal_call (m_start_backward (Some value))
     else if (cmd =? "START_LEFT") || (cmd =? "LEFT") then
       motor_hal_call (m_start_left (Some value))
     else if (cmd =? "START_RIGHT") || (cmd =? "RIGHT") then
       motor_hal_call (m_start_right (Some value))
     else if cmd =? "STOP" then
       motor_hal_call m_stop
     else if cmd =? "SPEED" then
       motor_hal_call (m_set_speed value)
     else if cmd =? "STATUS" then
       publish_status
     else if (cmd =? "EMERGENCY_STOP") || (cmd =? "E_STOP") then
       motor_hal_call m_stop
     (* Legacy single-character commands *)
     else if cmd =? "F" then
       motor_hal_call (m_start_forward None)
     else if cmd =? "B" then
       motor_hal_call (m_start_backward None)
     else if cmd =? "L" then
       motor_hal_call (m_start_left None)
     else if cmd =? "R" then
       motor_hal_call (m_start_right None)
     else if cmd =? "S" then
       motor_hal_call m_stop
     else ret tt)%string
    (fun e => if is_Exception e then Some (ret tt) else None).

(** The [# Parse command format] part of [process_command]: the command
    word and its value.  A value that is no integer ends [process_command]
    through [return]. *)
Definition parse_command (command : string) : Py unit (string * Z) :=
  match PyStr.split_colon command with
  | Some (cmd, value) =>
      value <- try_except
                 (match PyStr.int value with
                  | Some v => ret v
                  | None => raise ValueError
                  end)
                 (fun e => match e with
                           | ValueError => Some (return_ tt)
                           | _ => None
                           end) ;;
      ret (cmd, value)
  | None =>
      value <- config_get "default_speed_percent" default_speed_percent ;;
      ret (command, value)
  end.

Definition process_command {R} (command : string) : Py R unit :=
  def_ tt
    (let command := PyStr.upper command in
     cv <- parse_command command ;;
     let '(cmd, value) := cv in
     execute_command cmd value).

Definition on_message {R} (msg : payload) : Py R unit :=
  try_except
    (command <- match msg with
                | Text s => ret (PyStr.strip s)
                | NotUtf8 => raise UnicodeDecodeError
                end ;;
     now <- time_time ;;
     update_self (set_last_heartbeat now) ;;
     process_command command)
    (fun e => if is_Exception e then Some (ret tt) else None).

(** One pass through the body of [while self.running:] in
    [heartbeat_monitor]. *)
Definition heartbeat_monitor_body {R} : Py R unit :=
  monitoring <- attr "heartbeat_monitoring" heartbeat_monitoring ;;
  (if monitoring : bool then
     now <- time_time ;;
     last <- attr "last_heartbeat" last_heartbeat ;;
     let time_since_heartbeat := (now - last)%Q in
     timeout <- attr "heartbeat_timeout" heartbeat_timeout ;;
     if Qgtb time_since_heartbeat (inject_Z timeout) then
       motor_hal_call m_stop ;;
       now' <- time_time ;;
       update_self (set_last_heartbeat now')
     else ret tt
   else ret tt) ;;
  time_sleep 1.

(** [heartbeat_monitor], observed for at most [fuel] passes of its loop. *)
Fixpoint heartbeat_monitor {R} (fuel : nat) : Py R unit :=
  match fuel with
  | O => ret tt
  | S n =>
      r <- attr "running" running ;;
      if r : bool then heartbeat_monitor_body ;; heartbeat_monitor n
      else ret tt
  end.

(** The thread body of [start_status_publisher], observed for at most
    [fuel] passes of its loop. *)
Fixpoint status_publisher {R} (fuel : nat) : Py R unit :=
  match fuel with
  | O => ret tt
  | S n =>
      r <- attr "running" running ;;
      if r : bool then publish_status ;; time_sleep 2 ;; status_publisher n
      else ret tt
  end.

Definition start_status_publisher {R} : Py R unit :=
  update_self (set_status_thread (Some "status_publisher")) ;;
  emit (ThreadStart "status_publisher").

Definition start_heartbeat_monitor {R} : Py R unit :=
  monitoring <- attr "heartbeat_monitoring" heartbeat_monitoring ;;
  if monitoring : bool then emit (ThreadStart "heartbeat_monitor") else ret tt.

Definition cleanup {R} : Py R unit :=
  update_self (set_running false) ;;
  motor_hal_call m_stop ;;
  motor_hal_call m_cleanup ;;
  _ <- attr "mqtt_client" mqtt_client ;;
  emit MqttDisconnect.

Definition take_inbox {R} : Py R (list payload) :=
  fun w => (Next (inbox w),
            mkWorld (self w) (trace w) (clock w) (reads w)
                    (files w) (importable w) []).

Fixpoint deliver {R} (msgs : list payload) : Py R unit :=
  match msgs with
  | [] => ret tt
  | m :: r => on_message m ;; deliver r
  end.

(** How a call into the MQTT client ends, when it ends: it returns, or it
    raises.  A call that never ends has no value here. *)
Inductive call_end :=
  | Returns
  | Raises (e : exn).

Definition end_call {R} (how : call_end) : Py R unit :=
  match how with
  | Returns => ret tt
  | Raises e => raise e
  end.

(** [self.mqtt_client.loop_forever()]: the client hands the inbound messages
    to [on_message] one by one, for as long as the call lasts; [how] is the
    way the call ends after the messages of the inbox.  The threads started
    before run beside it and are observed on their own ([heartbeat_monitor],
    [status_publisher]). *)
Definition loop_forever_until {R} (how : call_end) : Py R unit :=
  _ <- attr "mqtt_client" mqtt_client ;;
  msgs <- take_inbox ;;
  deliver msgs ;;
  end_call how.

(** [loop_forever] in the run that Ctrl-C ends, which is
    [loop_forever_until (Raises KeyboardInterrupt)]. *)
Definition loop_forever {R} : Py R unit :=
  _ <- attr "mqtt_client" mqtt_client ;;
  msgs <- take_inbox ;;
  deliver msgs ;;
  raise KeyboardInterrupt.

Definition run {R} : Py R unit :=
  try_finally
    (try_except
       (broker <- config_get "broker" mqtt_broker ;;
        port <- config_get "port" mqtt_port ;;
        _ <- attr "mqtt_client" mqtt_client ;;
        emit (MqttConnect broker port 60) ;;
        update_self (set_running true) ;;
        start_status_publisher ;;
        start_heartbeat_monitor ;;
        loop_forever)
       (fun e => match e with
                 | KeyboardInterrupt => Some (ret tt)
                 | _ => Some (ret tt)
                 end))
    cleanup.

(** [run()] where [connect] ends as [connect] says and [loop_forever] as
    [loop] says. *)
Definition run_until {R} (connect loop : call_end) : Py R unit :=
  try_finally
    (try_except
       (broker <- config_get "broker" mqtt_broker ;;
        port <- config_get "port" mqtt_port ;;
        _ <- attr "mqtt_client" mqtt_client ;;
        emit (MqttConnect broker port 60) ;;
        end_call connect ;;
        update_self (set_running true) ;;
        start_status_publisher ;;
        start_heartbeat_monitor ;;
        loop_forever_until loop)
       (fun e => match e with
                 | KeyboardInterrupt => Some (ret tt)
                 | _ => Some (ret tt)
                 end))
    cleanup.

(** A new object has no attributes. *)
Definition new_object : UniversalMotorController :=
  mkUmc None None None None None None None None.

(** ** Vocabulary of the properties *)

(** The fraction [set_speed] stores for a percentage, and the percentage
    [get_status] reports for a stored fraction. *)
Definition fraction_of_percent (p : Z) : PyFloat.float :=
  PyFloat.div (PyFloat.of_Z p) PyFloat.hundred.

Definition percent_of_fraction (f : PyFloat.float) : option Z :=
  PyFloat.to_int (PyFloat.mul f (PyFloat.of_Z 100)).

(** [self.current_speed] as the class of [h] stores the percentage [p]. *)
Definition stored_speed (h : controller) (p : Z) : speed_value :=
  match h with
  | L298 _ => Percent p
  | MotoZero _ | CamJam _ => Fraction (fraction_of_percent p)
  end.

(** The hardware calls that put direction [d] on the motors of a controller
    of the class of [h] at [p] percent: four [Motor] calls on the MotoZero,
    the two duty cycles on the L298 (whose direction pins keep their
    levels), one [robot.value] assignment on the CamJam. *)
Definition drive_calls (h : controller) (d : direction) (p : Z)
  : list hw_event :=
  match h with
  | MotoZero _ =>
      let v := fraction_of_percent p in
      match d with
      | FORWARD => [ MotorForward motorFR v; MotorForward motorFL v;
                     MotorForward motorRL v; MotorForward motorRR v ]
      | BACKWARD => [ MotorBackward motorFR v; MotorBackward motorFL v;
                      MotorBackward motorRL v; MotorBackward motorRR v ]
      | LEFT => [ MotorBackward motorFR v; MotorForward motorFL v;
                  MotorForward motorRL v; MotorBackward motorRR v ]
      | RIGHT => [ MotorForward motorFR v; MotorBackward motorFL v;
                   MotorBackward motorRL v; MotorForward motorRR v ]
      | STOPPED => []
      end
  | L298 _ =>
      [ PwmChangeDutyCycle L298Controller.ena p;
        PwmChangeDutyCycle L298Controller.enb p ]
  | CamJam _ =>
      let v := fraction_of_percent p in
      match d with
      | FORWARD => [ RobotValue v v ]
      | BACKWARD => [ RobotValue (PyFloat.neg v) (PyFloat.neg v) ]
      | LEFT => [ RobotValue v PyFloat.zero ]
      | RIGHT => [ RobotValue PyFloat.zero v ]
      | STOPPED => []
      end
  end.

(** The MotionState invariant, read off the status record. *)
Definition motion_invariant (st : status) : Prop :=
  st_is_moving st = negb (direction_eqb (st_direction st) STOPPED) /\
  0 <= speed_percent st <= 100.

Definition invariant (h : controller) : Prop :=
  exists st, hal_get_status h = Some st /\ motion_invariant st.

(** The object a class constructor leaves behind. *)
Definition initial (c : controller_class) : controller :=
  match c with
  | MotoZeroController_class => MotoZero (fst MotoZeroController.__init__)
  | L298Controller_class => L298 (fst L298Controller.__init__)
  | CamJamController_class => CamJam (fst CamJamController.__init__)
  end.

(** The states a controller object can be in: a constructor made it, and
    methods were called on it. *)
Inductive reachable : controller -> Prop :=
  | reachable_initial (c : controller_class) : reachable (initial c)
  | reachable_call (m : hal_method) (h : controller) :
      reachable h -> reachable (fst (hal_call m h)).

(** The start method of a direction. *)
Definition m_start (d : direction) (speed_percent : option Z) : hal_method :=
  match d with
  | FORWARD => m_start_forward speed_percent
  | BACKWARD => m_start_backward speed_percent
  | LEFT => m_start_left speed_percent
  | RIGHT => m_start_right speed_percent
  | STOPPED => m_stop
  end.

Definition percents : list Z := map Z.of_nat (seq 0 101).

(** The MotionState a world shows: the status of its motor controller. *)
Definition motion_state (w : world) : option status :=
  match motor_hal (self w) with
  | Some h => hal_get_status h
  | None => None
  end.

(** The world after a successful [self.motor_hal.m(...)]. *)
Definition after_hal_call (m : hal_method) (h : controller) (w : world) : world :=
  mkWorld (set_motor_hal (Some (fst (hal_call m h))) (self w))
          (trace w ++ map Hw (snd (hal_call m h)))
          (clock w) (reads w) (files w) (importable w) (inbox w).

(** The same world, but for the object and the trace. *)
Definition same_environment (w w' : world) : Prop :=
  clock w' = clock w /\ reads w' = reads w /\ files w' = files w /\
  importable w' = importable w /\ inbox w' = inbox w.

(** An object as [__init__] leaves it: configured, with a motor controller,
    without an MQTT client. *)
Definition no_client (w : world) : Prop :=
  (exists c, config (self w) = Some c) /\
  (exists h, motor_hal (self w) = Some h) /\
  mqtt_client (self w) = None.

(** The world after [n] calls of [run()]. *)
Fixpoint run_times (n : nat) (w : world) : world :=
  match n with
  | O => w
  | S k => run_times k (snd (run (R := unit) w))
  end.

Definition interrupted {R A} (f : flow R A) : bool :=
  match f with
  | Raise KeyboardInterrupt => true
  | _ => false
  end.

(** A statement that leaves [self.last_heartbeat] alone and lets no
    [KeyboardInterrupt] out. *)
Definition keeps_heartbeat {R A} (m : Py R A) : Prop :=
  forall w, last_heartbeat (self (snd (m w))) = last_heartbeat (self w) /\
            interrupted (fst (m w)) = false.

(** The world [on_message] hands to [process_command]. *)
Definition heartbeat_refreshed (w : world) : world :=
  mkWorld (set_last_heartbeat (clock w (reads w)) (self w)) (trace w)
          (clock w) (S (reads w)) (files w) (importable w) (inbox w).

(** The world after a pass of the monitor that found the heartbeat late,
    and after one that found it in time. *)
Definition after_timeout (h : controller) (w : world) : world :=
  mkWorld (set_last_heartbeat (clock w (S (reads w)))
             (set_motor_hal (Some (fst (hal_call m_stop h))) (self w)))
          (trace w ++ map Hw (snd (hal_call m_stop h)) ++ [Sleep 1])
          (clock w) (S (S (reads w))) (files w) (importable w) (inbox w).

Definition after_quiet_pass (w : world) : world :=
  mkWorld (self w) (trace w ++ [Sleep 1])
          (clock w) (S (reads w)) (files w) (importable w) (inbox w).

(** The long-form movement commands and their directions. *)
Definition movement_commands : list (string * direction) :=
  [ ("START_FORWARD", FORWARD); ("FORWARD", FORWARD);
    ("START_BACKWARD", BACKWARD); ("BACKWARD", BACKWARD);
    ("START_LEFT", LEFT); ("LEFT", LEFT);
    ("START_RIGHT", RIGHT); ("RIGHT", RIGHT) ].

(** A command word with or without [:VALUE], and the value
    [process_command] works with. *)
Definition command_text (name : string) (arg : option string) : string :=
  match arg with
  | Some vt => name ++ ":" ++ vt
  | None => name
  end.

Definition command_value (w : world) (arg : option string) : option Z :=
  match arg with
  | Some vt => PyStr.int vt
  | None => match config (self w) with
            | Some c => default_speed_percent c
            | None => None
            end
  end.

(** The legacy one-character commands, each with the long form that does
    the same. *)
Definition legacy_commands : list (string * string) :=
  [ ("F", "START_FORWARD:50"); ("B", "START_BACKWARD:50");
    ("L", "START_LEFT:50"); ("R", "START_RIGHT:50"); ("S", "STOP") ].

(** *** Sample worlds *)

(** A clock that advances one second per reading, from [start]. *)
Definition ticking (start : Z) (n : nat) : Q := inject_Z (start + Z.of_nat n).

(** A clock read twice per pass of the heartbeat monitor, the passes one
    second apart. *)
Definition monitor_clock (start : Z) (n : nat) : Q :=
  inject_Z (start + Z.of_nat (Nat.div2 n)).

(** No config file on disk; every module can be imported. *)
Definition fresh_world : world :=
  mkWorld new_object [] (ticking 0) 0 (fun _ => NoFile) (fun _ => true) [].

(** The world [__init__] leaves from [fresh_world]. *)
Definition started_world : world :=
  snd (__init__ (R := unit) "motor_config.json" fresh_world).

(** A file that is no JSON. *)
Definition broken_config_world : world :=
  mkWorld new_object [] (ticking 0) 0 (fun _ => BadJson) (fun _ => true) [].

(** The default configuration with another default speed. *)
Definition config_with_default_speed (d : Z) : Config :=
  mkConfig (Some "l298") (Some "localhost") (Some 1883)
           (Some "hov/motor/command") (Some "hov/motor/status")
           (Some 10) (Some d) (Some 100) (Some true) (Some true) (Some true).

(** An L298 controller at rest with every attribute assigned: default
    speed [d], last heartbeat at 0, heartbeat timeout [timeout], read
    against [clock]. *)
Definition l298_world (d : Z) (timeout : Z) (clock : nat -> Q) : world :=
  mkWorld (mkUmc (Some (config_with_default_speed d))
                 (Some (initial L298Controller_class))
                 None (Some (inject_Z 0)) (Some timeout) (Some true)
                 None (Some true))
          [] clock 0 (fun _ => NoFile) (fun _ => true) [].

(** ** Further vocabulary: the motor controllers *)

(** The class of a controller object. *)
Definition hal_class (h : controller) : controller_class :=
  match h with
  | MotoZero _ => MotoZeroController_class
  | L298 _ => L298Controller_class
  | CamJam _ => CamJamController_class
  end.

(** The percentage [get_status] reports when [set_speed] was given [p]
    (already clamped): [p] itself on the L298; on the two classes that keep
    a fraction, [p] but for 29, 57 and 58, which come back one lower. *)
Definition reported_percent (c : controller_class) (p : Z) : Z :=
  match c with
  | L298Controller_class => p
  | MotoZeroController_class | CamJamController_class =>
      if (p =? 29) || (p =? 57) || (p =? 58) then p - 1 else p
  end.

(** The hardware calls a start method makes once [set_speed] is done: the
    drive calls of the new direction, on the L298 after the four direction
    pins. *)
Definition direction_pins (d : direction) : list hw_event :=
  let pins l1 l2 l3 l4 :=
    [ GpioOutput L298Controller.in1 l1; GpioOutput L298Controller.in2 l2;
      GpioOutput L298Controller.in3 l3; GpioOutput L298Controller.in4 l4 ] in
  match d with
  | FORWARD => pins true false true false
  | BACKWARD => pins false true false true
  | LEFT => pins false true true false
  | RIGHT => pins true false false true
  | STOPPED => []
  end.

Definition start_calls (h : controller) (d : direction) (p : Z)
  : list hw_event :=
  match h with
  | L298 _ => direction_pins d ++ drive_calls h d p
  | MotoZero _ | CamJam _ => drive_calls h d p
  end.

(** The legacy methods [forward], [backward], [left] and [right], which the
    three classes define alike: hardware calls and [time.sleep]. *)
Inductive hal_step :=
  | Call (e : hw_event)
  | Wait (duration : Q).

Module Legacy.

(** [def forward(self, duration=0)] and its three siblings, by direction. *)
Definition move (d : direction) (duration : option Q) (h : controller)
  : controller * list hal_step :=
  let duration := match duration with Some q => q | None => inject_Z 0 end in
  if Qgtb duration (inject_Z 0) then
    let '(h1, l1) := hal_call (m_start d None) h in
    let '(h2, l2) := hal_call m_stop h1 in
    (h2, map Call l1 ++ [Wait duration] ++ map Call l2)
  else
    let '(h1, l1) := hal_call (m_start d None) h in
    (h1, map Call l1).

Definition backward := move BACKWARD.
Definition left := move LEFT.
Definition right := move RIGHT.

End Legacy.

(** ** Further vocabulary: the Universal Motor Controller *)

(** A statement that leaves [view] of the object as it was and lets no
    [KeyboardInterrupt] out. *)
Definition stable {R A X} (view : UniversalMotorController -> X)
    (m : Py R A) : Prop :=
  forall w, view (self (snd (m w))) = view (self w) /\
            interrupted (fst (m w)) = false.

(** What the message handlers never touch: every attribute but
    [last_heartbeat], and the class of the motor controller. *)
Definition wiring (o : UniversalMotorController) :=
  (config o, mqtt_client o, heartbeat_timeout o, heartbeat_monitoring o,
   status_thread o, running o, option_map hal_class (motor_hal o)).

(** The command words [process_command] knows. *)
Definition known_words : list string :=
  [ "START_FORWARD"; "FORWARD"; "START_BACKWARD"; "BACKWARD";
    "START_LEFT"; "LEFT"; "START_RIGHT"; "RIGHT";
    "STOP"; "SPEED"; "STATUS"; "EMERGENCY_STOP"; "E_STOP";
    "F"; "B"; "L"; "R"; "S" ].

(** The words that stop the motors. *)
Definition stop_words : list string :=
  [ "STOP"; "EMERGENCY_STOP"; "E_STOP"; "S" ].

(** How [__init__] ends for a configuration: the error it raises, or the
    class it instantiates. *)
Definition construction (w : world) (c : Config) : exn + controller_class :=
  match motor_controller_type c with
  | None => inl (KeyError "type")
  | Some ty =>
      match lookup (PyStr.lower ty) controller_map with
      | None => inl ValueError
      | Some (module_name, class_name) =>
          if importable w ("motor.hal." ++ module_name)
             || importable w ("hal." ++ module_name)
          then inr class_name
          else inl ImportError
      end
  end.

(** The events of [n] passes of the status publisher that starts at clock
    reading [k]: one message and one sleep per pass. *)
Fixpoint published (topic : string) (st : status) (ty : string)
    (clock : nat -> Q) (k n : nat) : list event :=
  match n with
  | O => []
  | S n' => MqttPublish topic (mkMessage st (clock k) ty) :: Sleep 2
            :: published topic st ty clock (S k) n'
  end.

(** *** More sample worlds *)

(** An object as the unreachable statements of [_create_motor_controller]
    would have completed it, with an L298 controller that is moving
    forward, and messages waiting. *)
Definition ready_world (inbox : list payload) : world :=
  mkWorld (mkUmc (Some (config_with_default_speed 50))
                 (Some (fst (hal_call (m_start_forward (Some 60))
                               (initial L298Controller_class))))
                 (Some (mkClient true true true))
                 (Some (inject_Z 0)) (Some 10) (Some true)
                 (Some None) (Some false))
          [] (ticking 0) 0 (fun _ => NoFile) (fun _ => true) inbox.

(** The same object while [run] is in its loop: [running] is true and the
    publisher thread is started. *)
Definition reporting_world : world :=
  mkWorld (mkUmc (Some (config_with_default_speed 50))
                 (Some (fst (hal_call (m_start_forward (Some 60))
                               (initial L298Controller_class))))
                 (Some (mkClient true true true))
                 (Some (inject_Z 0)) (Some 10) (Some true)
                 (Some (Some "status_publisher")) (Some true))
          [] (ticking 0) 0 (fun _ => NoFile) (fun _ => true) [].

(** A configuration without [default_speed_percent], around a moving L298
    controller. *)
Definition no_default_world : world :=
  mkWorld (mkUmc (Some (mkConfig (Some "l298") (Some "localhost") (Some 1883)
                          (Some "hov/motor/command") (Some "hov/motor/status")
                          (Some 10) None (Some 100)
                          (Some true) (Some true) (Some true)))
                 (Some (fst (hal_call (m_start_forward (Some 60))
                               (initial L298Controller_class))))
                 None None None None None None)
          [] (ticking 0) 0 (fun _ => NoFile) (fun _ => true) [].

(** ** [controller/controller.py]: the operator's window

    The part of [MQTTRobotController] that turns buttons and keys into
    MQTT messages.  The Tk variables are the fields of the object; the
    messages published on the MQTT client, the log lines and the warning
    boxes are the trace.  Connecting and disconnecting, widget construction,
    the widget texts, the time stamp of a log line and the telemetry
    display are not modelled. *)

(** [str(z)] for an integer, as an f-string formats it: decimal digits, with
    ["-"] before a negative number. *)
Definition str_int (z : Z) : string := NilZero.string_of_int (Z.to_int z).

Inductive gui_event :=
  | GuiPublish (topic : string) (payload : string)
  | GuiLog (message : string)
  | GuiWarning (title : string) (message : string).

(** How a callback ends: it returns, or a local variable is read before it
    was assigned. *)
Inductive gui_result (A : Type) :=
  | Ok (a : A)
  | UnboundLocalError (name : string).
Arguments Ok {A} a.
Arguments UnboundLocalError {A} name.

Module MQTTRobotController.

Record t := mk {
  mqtt_client : bool;            (* a client object, or [None] *)
  connected : bool;
  broker_host : string;
  broker_port : Z;
  command_topic : string;        (* legacy topic *)
  enhanced_command_topic : string;
  status_topic : string;
  telemetry_topic : string;
  use_enhanced_commands : bool;
  current_speed : Z;
  custom_cmd : string
}.

Definition Gui (A : Type) : Type := t -> gui_result A * t * list gui_event.

#[global] Instance Monad_Gui : Monad Gui := {
  ret := fun A (a : A) self => (Ok a, self, []);
  bind := fun A B (m : Gui A) (k : A -> Gui B) self =>
    match m self with
    | (Ok a, self1, l1) =>
        let '(r, self2, l2) := k a self1 in (r, self2, l1 ++ l2)
    | (UnboundLocalError name, self1, l1) => (UnboundLocalError name, self1, l1)
    end
}.

Definition get {A} (field : t -> A) : Gui A := fun self => (Ok (field self), self, []).
Definition update (f : t -> t) : Gui unit := fun self => (Ok tt, f self, []).
Definition call (e : gui_event) : Gui unit := fun self => (Ok tt, self, [e]).
Definition unbound {A} (name : string) : Gui A :=
  fun self => (UnboundLocalError name, self, []).

Definition with_current_speed (v : Z) (self : t) : t :=
  mk (mqtt_client self) (connected self) (broker_host self) (broker_port self)
     (command_topic self) (enhanced_command_topic self) (status_topic self)
     (telemetry_topic self) (use_enhanced_commands self) v (custom_cmd self).

Definition with_custom_cmd (v : string) (self : t) : t :=
  mk (mqtt_client self) (connected self) (broker_host self) (broker_port self)
     (command_topic self) (enhanced_command_topic self) (status_topic self)
     (telemetry_topic self) (use_enhanced_commands self) (current_speed self) v.

(** The object as [__init__] and [create_widgets] leave it. *)
Definition __init__ : t :=
  mk false false "localhost" 1883
     "CommandChannel" "hov/motor/command" "hov/motor/status" "hov/telemetry"
     true 50 "".

Definition log_message (message : string) : Gui unit := call (GuiLog message).

Definition on_mode_change : Gui unit :=
  enhanced <- get use_enhanced_commands ;;
  let mode := if enhanced : bool then "Enhanced" else "Legacy" in
  log_message ("Switched to " ++ mode ++ " command mode").

Definition send_enhanced_command (command : string) : Gui unit :=
  client <- get mqtt_client ;;
  conn <- get connected ;;
  if (client : bool) && (conn : bool) then
    topic <- get enhanced_command_topic ;;
    call (GuiPublish topic command) ;;
    log_message ("Enhanced command sent: " ++ command)
  else ret tt.

Definition send_legacy_command (command : string) : Gui unit :=
  client <- get mqtt_client ;;
  conn <- get connected ;;
  if (client : bool) && (conn : bool) then
    topic <- get command_topic ;;
    call (GuiPublish topic command) ;;
    log_message ("Legacy command sent: " ++ command)
  else ret tt.

Definition set_speed_preset (speed : Z) : Gui unit :=
  update (with_current_speed speed) ;;
  enhanced <- get use_enhanced_commands ;;
  if enhanced : bool then send_enhanced_command ("SPEED:" ++ str_int speed)
  else ret tt.

Definition legacy_map : list (string * string) :=
  [ ("forward", "F"); ("backward", "B"); ("left", "L"); ("right", "R");
    ("stop", "S") ].

Definition send_movement_command (direction : string) : Gui unit :=
  conn <- get connected ;;
  if negb conn then
    call (GuiWarning "Not Connected" "Please connect to MQTT broker first")
  else
    enhanced <- get use_enhanced_commands ;;
    if enhanced : bool then
      speed <- get current_speed ;;
      command <-
        (if direction =? "forward" then ret ("START_FORWARD:" ++ str_int speed)
         else if direction =? "backward" then ret ("START_BACKWARD:" ++ str_int speed)
         else if direction =? "left" then ret ("START_LEFT:" ++ str_int speed)
         else if direction =? "right" then ret ("START_RIGHT:" ++ str_int speed)
         else if direction =? "stop" then ret "STOP"
         else unbound "command")%string ;;
      send_enhanced_command command
    else
      match lookup direction legacy_map with
      | Some c => send_legacy_command c
      | None => ret tt
      end.

Definition send_custom_command (command : string) : Gui unit :=
  enhanced <- get use_enhanced_commands ;;
  if enhanced : bool then send_enhanced_command command
  else send_legacy_command command.

Definition send_custom_command_from_entry : Gui unit :=
  text <- get custom_cmd ;;
  let cmd := PyStr.strip text in
  match cmd with
  | EmptyString => ret tt
  | _ => send_custom_command cmd ;; update (with_custom_cmd "")
  end.

Definition key_commands : list (string * string) :=
  [ ("w", "forward"); ("a", "left"); ("s", "stop"); ("d", "right");
    ("x", "backward"); (" ", "stop") ].

(** [char] is [event.char]. *)
Definition on_key_press (char : string) : Gui unit :=
  let key := PyStr.lower char in
  match lookup key key_commands with
  | Some direction => send_movement_command direction
  | None =>
      if (key =? "q")%string then send_custom_command "q"
      else if (key =? "e")%string then send_custom_command "e"
      else ret tt
  end.

End MQTTRobotController.

(** What the operator can do in the window: the buttons, the entry line
    and the keyboard. *)
Inductive gui_action :=
  | MoveButton (direction : string)
  | RotateButton (command : string)
  | EmergencyStopButton
  | RequestStatusButton
  | SpeedPresetButton (speed : Z)
  | ModeButton
  | SendEntry
  | KeyPress (char : string).

Definition gui_callback (a : gui_action) : MQTTRobotController.Gui unit :=
  match a with
  | MoveButton direction => MQTTRobotController.send_movement_command direction
  | RotateButton command => MQTTRobotController.send_custom_command command
  | EmergencyStopButton => MQTTRobotController.send_enhanced_command "EMERGENCY_STOP"
  | RequestStatusButton => MQTTRobotController.send_enhanced_command "STATUS"
  | SpeedPresetButton speed => MQTTRobotController.set_speed_preset speed
  | ModeButton => MQTTRobotController.on_mode_change
  | SendEntry => MQTTRobotController.send_custom_command_from_entry
  | KeyPress char => MQTTRobotController.on_key_press char
  end.

(** The messages a callback publishes, as (topic, payload). *)
Fixpoint published_messages (l : list gui_event) : list (string * string) :=
  match l with
  | [] => []
  | GuiPublish topic payload :: r => (topic, payload) :: published_messages r
  | _ :: r => published_messages r
  end.

(** The movement buttons: the name the button passes on, its key, its
    command word in the enhanced mode, its letter in the legacy mode and
    the direction it names. *)
Record gui_direction := mkGuiDirection {
  button : string;
  key : string;
  word : string;
  letter : string;
  heading : direction
}.

Definition gui_directions : list gui_direction :=
  [ mkGuiDirection "forward" "w" "START_FORWARD" "F" FORWARD;
    mkGuiDirection "backward" "x" "START_BACKWARD" "B" BACKWARD;
    mkGuiDirection "left" "a" "START_LEFT" "L" LEFT;
    mkGuiDirection "right" "d" "START_RIGHT" "R" RIGHT ].

(** The controls that are meant to stop the robot, and those meant to
    rotate it. *)
Definition stop_controls : list gui_action :=
  [ MoveButton "stop"; EmergencyStopButton;
    KeyPress "s"; KeyPress "S"; KeyPress " " ].

Definition rotate_controls : list gui_action :=
  [ RotateButton "q"; RotateButton "e";
    KeyPress "q"; KeyPress "Q"; KeyPress "e"; KeyPress "E" ].

(** The controls the window offers: the movement buttons name one of five
    directions, the rotate buttons send [q] or [e]. *)
Definition offered (a : gui_action) : Prop :=
  match a with
  | MoveButton direction =>
      In direction ["forward"; "backward"; "left"; "right"; "stop"]
  | RotateButton command => In command ["q"; "e"]
  | _ => True
  end.

(** The topic of the current mode. *)
Definition mode_topic (g : MQTTRobotController.t) : string :=
  if MQTTRobotController.use_enhanced_commands g
  then MQTTRobotController.enhanced_command_topic g
  else MQTTRobotController.command_topic g.

(** A configuration that names a default speed. *)
Definition has_default_speed (w : world) : Prop :=
  exists c v, config (self w) = Some c /\ default_speed_percent c = Some v.

(** A window that is connected, in the given mode and at the given speed. *)
Definition connected_window (enhanced : bool) (speed : Z) : MQTTRobotController.t :=
  MQTTRobotController.mk true true "localhost" 1883
    "CommandChannel" "hov/motor/command" "hov/motor/status" "hov/telemetry"
    enhanced speed "".

(** A text without whitespace, which [strip] leaves as it is. *)
Fixpoint no_space (s : string) : bool :=
  match s with
  | EmptyString => true
  | String c r => negb (PyStr.is_space c) && no_space r
  end.

(** The number a row of decimal digits denotes after the digits read so
    far. *)
Fixpoint uint_value (d : Decimal.uint) (acc : Z) : Z :=
  match d with
  | Decimal.Nil => acc
  | Decimal.D0 d => uint_value d (10 * acc + 0)
  | Decimal.D1 d => uint_value d (10 * acc + 1)
  | Decimal.D2 d => uint_value d (10 * acc + 2)
  | Decimal.D3 d => uint_value d (10 * acc + 3)
  | Decimal.D4 d => uint_value d (10 * acc + 4)
  | Decimal.D5 d => uint_value d (10 * acc + 5)
  | Decimal.D6 d => uint_value d (10 * acc + 6)
  | Decimal.D7 d => uint_value d (10 * acc + 7)
  | Decimal.D8 d => uint_value d (10 * acc + 8)
  | Decimal.D9 d => uint_value d (10 * acc + 9)
  end.

(** ** [motor/test_motor.py]: the test script

    The controller factory of the script and its interactive mode.  The
    console is the list of what [input] meets: a line, or Ctrl-C while it
    waits; when the list is used up, [input] meets the end of the input.
    Lines are ASCII text. *)

Module TestMotor.

(** What [create_motor_controller] leaves: a controller, or the exit of the
    script through [sys.exit(code)]. *)
Inductive created :=
  | Created (motor : controller)
  | SystemExit (code : Z).

(** The function has its own [controller_map], with the entries of the one
    in [umc.py]. *)
Definition create_motor_controller {R} (controller_type : string) : Py R created :=
  let controller_type := PyStr.lower controller_type in
  let controller_type :=
    match lookup controller_type controller_map with
    | None => "motozero"
    | Some _ => controller_type
    end in
  match lookup controller_type controller_map with
  | None => raise (KeyError controller_type)
  | Some (module_name, class_name) =>
      try_except
        (import_ ("hal." ++ module_name)%string ;;
         motor <- instantiate class_name ;;
         ret (Created motor))
        (fun e => match e with
                  | ImportError => Some (ret (SystemExit 1))
                  | _ => None
                  end)
  end.

Inductive console :=
  | Line (text : string)
  | CtrlC.

(** [s.split()]: the words between runs of whitespace; [word] is the word
    being read. *)
Fixpoint split_from (s : string) (word : option string) : list string :=
  match s with
  | EmptyString => match word with Some t => [t] | None => [] end
  | String c r =>
      if PyStr.is_space c then
        match word with
        | Some t => t :: split_from r None
        | None => split_from r None
        end
      else
        split_from r (Some (match word with
                            | Some t => (t ++ String c EmptyString)%string
                            | None => String c EmptyString
                            end))
  end.

Definition split (s : string) : list string := split_from s None.

(** How one pass of the loop ends: with the next pass, with [break], or with
    an exception no clause catches. *)
Inductive uncaught :=
  | EOFError
  | OverflowError.

Inductive pass :=
  | Continue (motor : controller) (calls : list hw_event)
  | Break
  | Escape (e : uncaught).

(** [int] of an infinity is an [OverflowError], of a NaN a [ValueError]. *)
Definition get_status_overflows (motor : controller) : bool :=
  match hal_current_speed motor with
  | Fraction f =>
      match PyFloat.mul f (PyFloat.of_Z 100) with
      | S754_infinity _ => true
      | _ => false
      end
  | Percent _ => false
  end.

Definition call (m : hal_method) (motor : controller) : pass :=
  let '(motor', calls) := hal_call m motor in Continue motor' calls.

(** The body of the loop after [input] has returned [cmd].  A [ValueError]
    or [IndexError] is caught and gives the next pass with the motor as it
    was. *)
Definition command (cmd : list string) (motor : controller) : pass :=
  match cmd with
  | [] => Continue motor []
  | c :: args =>
      let speed_or_50 := match args with
                         | a :: _ => PyStr.int a
                         | [] => Some 50
                         end in
      let start (m : option Z -> hal_method) :=
        match speed_or_50 with
        | Some speed => call (m (Some speed)) motor
        | None => Continue motor []
        end in
      if (c =? "q")%string then Break
      else if (c =? "f")%string then start m_start_forward
      else if (c =? "b")%string then start m_start_backward
      else if (c =? "l")%string then start m_start_left
      else if (c =? "r")%string then start m_start_right
      else if (c =? "s")%string then call m_stop motor
      else if (c =? "speed")%string then
        match args with
        | [] => Continue motor []
        | a :: _ =>
            match PyStr.int a with
            | Some speed => call (m_set_speed speed) motor
            | None => Continue motor []
            end
        end
      else if (c =? "status")%string then
        match hal_get_status motor with
        | Some _ => Continue motor []
        | None =>
            if get_status_overflows motor then Escape OverflowError
            else Continue motor []
        end
      else Continue motor []
  end.

(** How the function ends. *)
Inductive ending :=
  | Completed
  | Uncaught (e : uncaught).

(** The statements after the loop. *)
Definition after_loop (motor : controller)
  : ending * controller * list hw_event :=
  let '(motor', calls) := hal_call m_stop motor in (Completed, motor', calls).

Fixpoint interactive_test (inputs : list console) (motor : controller)
  : ending * controller * list hw_event :=
  match inputs with
  | [] => (Uncaught EOFError, motor, [])
  | CtrlC :: _ => after_loop motor
  | Line text :: rest =>
      match command (split (PyStr.lower (PyStr.strip text))) motor with
      | Continue motor' calls =>
          let '(e, motor'', calls') := interactive_test rest motor' in
          (e, motor'', calls ++ calls')
      | Break => after_loop motor
      | Escape e => (Uncaught e, motor, [])
      end
  end.

(** A line of ASCII text short enough to hold no number beyond the
    interpreter's limit: on such lines [strip], [lower], [split] and [int]
    are Python's. *)
Definition plain (i : console) : bool :=
  match i with
  | CtrlC => true
  | Line text =>
      PyStr.is_ascii text && (String.length text <=? PyStr.max_str_digits)%nat
  end.

(** Whether a line asks to quit. *)
Definition is_quit (i : console) : bool :=
  match i with
  | CtrlC => true
  | Line text =>
      match split (PyStr.lower (PyStr.strip text)) with
      | c :: _ => (c =? "q")%string
      | [] => false
      end
  end.

End TestMotor.

(** ** Helper lemmas *)

(** *** Percentages and fractions *)

Lemma clamp_range (v : Z) : 0 <= clamp v <= 100.
Proof.
  unfold clamp.
  destruct (Z.ltb_spec v 0); [lia|].
  rewrite Z.gtb_ltb.
  destruct (Z.ltb_spec 100 v); lia.
Qed.

Lemma clamp_id (v : Z) : 0 <= v <= 100 -> clamp v = v.
Proof.
  intros H. unfold clamp.
  destruct (Z.ltb_spec v 0); [lia|].
  rewrite Z.gtb_ltb.
  destruct (Z.ltb_spec 100 v); lia.
Qed.

(** The guard of [set_speed], in closed form: below 0 gives 0, above 100
    gives 100, a value in range is kept. *)
Lemma clamp_max_min (v : Z) : clamp v = Z.max 0 (Z.min 100 v).
Proof.
  unfold clamp. destruct (Z.ltb_spec v 0); [lia|].
  destruct (v >? 100) eqn:E; [apply Z.gtb_lt in E; lia|].
  assert (v <= 100) by (destruct (Z.gtb_spec v 100); [discriminate | lia]). lia.
Qed.

Lemma forall_percents (P : Z -> bool) :
  forallb P percents = true -> forall c, 0 <= c <= 100 -> P c = true.
Proof.
  intros H c Hc.
  rewrite forallb_forall in H. apply H.
  unfold percents. apply in_map_iff.
  exists (Z.to_nat c). split; [lia|].
  apply in_seq. lia.
Qed.

(** Every percentage survives the trip through the stored fraction as a
    percentage: the reported value is in range. *)
Lemma roundtrip_in_range (c : Z) :
  0 <= c <= 100 ->
  exists p, percent_of_fraction (fraction_of_percent c) = Some p /\ 0 <= p <= 100.
Proof.
  intros Hc.
  pose (P := fun c => match percent_of_fraction (fraction_of_percent c) with
                      | Some p => (0 <=? p) && (p <=? 100)
                      | None => false
                      end).
  assert (HP : P c = true)
    by (apply forall_percents; [vm_compute; reflexivity | exact Hc]).
  unfold P in HP.
  destruct (percent_of_fraction (fraction_of_percent c)) as [p|]; [|discriminate].
  exists p. split; [reflexivity|].
  apply andb_true_iff in HP. destruct HP as [H1 H2].
  apply Z.leb_le in H1. apply Z.leb_le in H2. lia.
Qed.

(** ... and it comes back unchanged, except for 29, 57 and 58, which come
    back one lower. *)
Lemma roundtrip_exact_except (c : Z) :
  0 <= c <= 100 ->
  percent_of_fraction (fraction_of_percent c)
  = Some (if (c =? 29) || (c =? 57) || (c =? 58) then c - 1 else c).
Proof.
  intros Hc.
  pose (P := fun c =>
     match percent_of_fraction (fraction_of_percent c) with
     | Some p => p =? (if (c =? 29) || (c =? 57) || (c =? 58) then c - 1 else c)
     | None => false
     end).
  assert (HP : P c = true)
    by (apply forall_percents; [vm_compute; reflexivity | exact Hc]).
  unfold P in HP.
  destruct (percent_of_fraction (fraction_of_percent c)) as [p|]; [|discriminate].
  apply Z.eqb_eq in HP. congruence.
Qed.

(** *** The status after a method call *)

Lemma status_attributes (h : controller) (st : status) :
  hal_get_status h = Some st ->
  st_direction st = hal_direction h /\ st_is_moving st = hal_is_moving h.
Proof.
  destruct h as [s|s|s]; cbn;
    unfold MotoZeroController.get_status, CamJamController.get_status,
           L298Controller.get_status;
    try destruct (PyFloat.to_int _); intros H; inversion H; split; reflexivity.
Qed.

Lemma set_speed_state (v : Z) (h : controller) :
  hal_get_status (fst (hal_call (m_set_speed v) h)) =
  match h with
  | L298 s => Some (mkStatus (clamp v) (hal_direction h) (hal_is_moving h) [])
  | MotoZero s =>
      match percent_of_fraction (fraction_of_percent (clamp v)) with
      | Some p => Some (mkStatus p (hal_direction h) (hal_is_moving h) [])
      | None => None
      end
  | CamJam s =>
      match percent_of_fraction (fraction_of_percent (clamp v)) with
      | Some p =>
          Some (mkStatus p (hal_direction h) (hal_is_moving h)
                  [ ("left_motor_speed", fraction_of_percent (clamp v));
                    ("right_motor_speed", fraction_of_percent (clamp v)) ])
      | None => None
      end
  end.
Proof.
  destruct h as [s|s|s]; destruct s as [x d [|]]; try destruct d; reflexivity.
Qed.

Lemma set_speed_status (v : Z) (h : controller) :
  exists st, hal_get_status (fst (hal_call (m_set_speed v) h)) = Some st /\
             0 <= speed_percent st <= 100 /\
             st_direction st = hal_direction h /\
             st_is_moving st = hal_is_moving h.
Proof.
  rewrite set_speed_state.
  destruct (roundtrip_in_range (clamp v) (clamp_range v)) as [p [Hp Hr]].
  destruct h; rewrite ?Hp; eexists; (split; [reflexivity|]); simpl;
    repeat split; try lia; apply clamp_range.
Qed.

Lemma start_state (d : direction) (v : option Z) (h : controller) :
  d <> STOPPED ->
  let c := clamp (default_arg 50 v) in
  hal_get_status (fst (hal_call (m_start d v) h)) =
  match h with
  | L298 s => Some (mkStatus c d true [])
  | MotoZero s =>
      match percent_of_fraction (fraction_of_percent c) with
      | Some p => Some (mkStatus p d true [])
      | None => None
      end
  | CamJam s =>
      match percent_of_fraction (fraction_of_percent c) with
      | Some p =>
          Some (mkStatus p d true
                  [ ("left_motor_speed", fraction_of_percent c);
                    ("right_motor_speed", fraction_of_percent c) ])
      | None => None
      end
  end.
Proof.
  intros Hd.
  destruct d; try congruence;
    destruct h as [s|s|s]; destruct s as [x d' [|]]; try destruct d'; reflexivity.
Qed.

Lemma start_status (d : direction) (v : option Z) (h : controller) :
  d <> STOPPED ->
  exists st, hal_get_status (fst (hal_call (m_start d v) h)) = Some st /\
             0 <= speed_percent st <= 100 /\
             st_direction st = d /\ st_is_moving st = true.
Proof.
  intros Hd. rewrite (start_state d v h Hd). cbv zeta.
  destruct (roundtrip_in_range (clamp (default_arg 50 v)) (clamp_range _))
    as [p [Hp Hr]].
  destruct h; rewrite ?Hp; eexists; (split; [reflexivity|]); simpl;
    repeat split; try lia; apply clamp_range.
Qed.

Lemma start_speed (d : direction) (v : option Z) (h : controller) :
  d <> STOPPED ->
  let h' := fst (hal_call (m_start d v) h) in
  hal_current_speed h' = stored_speed h (clamp (default_arg 50 v)) /\
  hal_direction h' = d /\ hal_is_moving h' = true.
Proof.
  intros Hd.
  destruct d; try congruence;
    destruct h as [s|s|s]; destruct s as [x d' [|]]; try destruct d';
    repeat split; reflexivity.
Qed.

Lemma stop_status (h : controller) (st : status) :
  hal_get_status h = Some st ->
  exists st', hal_get_status (fst (hal_call m_stop h)) = Some st' /\
              speed_percent st' = speed_percent st /\
              st_direction st' = STOPPED /\ st_is_moving st' = false.
Proof.
  destruct h as [s|s|s]; destruct s as [x d' b]; cbn;
    unfold MotoZeroController.get_status, CamJamController.get_status,
           L298Controller.get_status; cbn.
  - destruct (PyFloat.to_int _); [|discriminate].
    intros [= <-]. eexists; split; [reflexivity|]; auto.
  - intros [= <-]. eexists; split; [reflexivity|]; auto.
  - destruct (PyFloat.to_int _); [|discriminate].
    intros [= <-]. eexists; split; [reflexivity|]; auto.
Qed.

Lemma cleanup_status (h : controller) :
  hal_get_status (fst (hal_call m_cleanup h))
  = hal_get_status (fst (hal_call m_stop h)).
Proof. destruct h as [s|s|s]; destruct s; reflexivity. Qed.

Lemma invariant_initial (c : controller_class) : invariant (initial c).
Proof.
  destruct c; eexists; (split; [vm_compute; reflexivity|]);
    split; simpl; try reflexivity; lia.
Qed.

Lemma invariant_preserved (m : hal_method) (h : controller) :
  invariant h -> invariant (fst (hal_call m h)).
Proof.
  intros [st [Hst [Hm Hs]]].
  destruct (status_attributes h st Hst) as [Hd Hb].
  assert (Hstart : forall d v, d <> STOPPED ->
                               invariant (fst (hal_call (m_start d v) h))).
  { intros d v Hne.
    destruct (start_status d v h Hne) as [st' [H1 [H2 [H3 H4]]]].
    exists st'. split; [exact H1|]. split; [|exact H2].
    rewrite H3, H4. destruct d; try congruence; reflexivity. }
  assert (Hstop : invariant (fst (hal_call m_stop h))).
  { destruct (stop_status h st Hst) as [st' [H1 [H2 [H3 H4]]]].
    exists st'. split; [exact H1|]. split; [|lia].
    rewrite H3, H4. reflexivity. }
  destruct m as [v|v|v|v|v| |].
  - destruct (set_speed_status v h) as [st' [H1 [H2 [H3 H4]]]].
    exists st'. split; [exact H1|]. split; [|exact H2].
    rewrite H3, H4, <- Hd, <- Hb. exact Hm.
  - apply (Hstart FORWARD); discriminate.
  - apply (Hstart BACKWARD); discriminate.
  - apply (Hstart LEFT); discriminate.
  - apply (Hstart RIGHT); discriminate.
  - exact Hstop.
  - destruct Hstop as [st' [H1 H2]]. exists st'. rewrite cleanup_status. auto.
Qed.

(** On the L298, which stores the percentage itself, the status after a
    start reports the percentage it was given. *)
Lemma l298_status_exact (d : direction) (percent : Z) (s : L298Controller.t) :
  d <> STOPPED -> 0 <= percent <= 100 ->
  hal_get_status (fst (hal_call (m_start d (Some percent)) (L298 s)))
  = Some (mkStatus percent d true []).
Proof.
  intros Hd Hp. rewrite (start_state d (Some percent) (L298 s) Hd).
  cbn. rewrite (clamp_id percent Hp). reflexivity.
Qed.

(** *** Text *)

Lemma upper_char_space (c : ascii) :
  PyStr.is_space (PyStr.upper_char c) = PyStr.is_space c.
Proof. destruct c as [[] [] [] [] [] [] [] []]; reflexivity. Qed.

Lemma upper_char_int_space (c : ascii) :
  PyStr.is_int_space (PyStr.upper_char c) = PyStr.is_int_space c.
Proof. destruct c as [[] [] [] [] [] [] [] []]; reflexivity. Qed.

Lemma upper_char_digit (c : ascii) :
  PyStr.digit_of (PyStr.upper_char c) = PyStr.digit_of c.
Proof. destruct c as [[] [] [] [] [] [] [] []]; reflexivity. Qed.

Lemma upper_char_underscore (c : ascii) :
  Ascii.eqb (PyStr.upper_char c) "_" = Ascii.eqb c "_".
Proof. destruct c as [[] [] [] [] [] [] [] []]; reflexivity. Qed.

Lemma upper_char_plus (c : ascii) :
  Ascii.eqb (PyStr.upper_char c) "+" = Ascii.eqb c "+".
Proof. destruct c as [[] [] [] [] [] [] [] []]; reflexivity. Qed.

Lemma upper_char_minus (c : ascii) :
  Ascii.eqb (PyStr.upper_char c) "-" = Ascii.eqb c "-".
Proof. destruct c as [[] [] [] [] [] [] [] []]; reflexivity. Qed.

Lemma digits_upper (s : string) :
  forall acc prev,
    PyStr.digits (PyStr.upper s) acc prev = PyStr.digits s acc prev.
Proof.
  induction s as [|c r IH]; intros acc prev; [reflexivity|].
  cbn [PyStr.upper PyStr.digits].
  rewrite upper_char_digit, upper_char_underscore.
  destruct (PyStr.digit_of c); [apply IH|].
  destruct (Ascii.eqb c "_" && prev); [apply IH|reflexivity].
Qed.

Lemma lstrip_upper (s : string) :
  PyStr.lstrip (PyStr.upper s) = PyStr.upper (PyStr.lstrip s).
Proof.
  induction s as [|c r IH]; [reflexivity|].
  cbn [PyStr.upper PyStr.lstrip]. rewrite upper_char_space.
  destruct (PyStr.is_space c); [apply IH|reflexivity].
Qed.

Lemma rstrip_upper (s : string) :
  PyStr.rstrip (PyStr.upper s) = PyStr.upper (PyStr.rstrip s).
Proof.
  induction s as [|c r IH]; [reflexivity|].
  cbn [PyStr.upper PyStr.rstrip]. rewrite IH, upper_char_space.
  destruct (PyStr.rstrip r); cbn [PyStr.upper]; [|reflexivity].
  destruct (PyStr.is_space c); reflexivity.
Qed.

Lemma int_lstrip_upper (s : string) :
  PyStr.int_lstrip (PyStr.upper s) = PyStr.upper (PyStr.int_lstrip s).
Proof.
  induction s as [|c r IH]; [reflexivity|].
  cbn [PyStr.upper PyStr.int_lstrip]. rewrite upper_char_int_space.
  destruct (PyStr.is_int_space c); [apply IH|reflexivity].
Qed.

Lemma int_rstrip_upper (s : string) :
  PyStr.int_rstrip (PyStr.upper s) = PyStr.upper (PyStr.int_rstrip s).
Proof.
  induction s as [|c r IH]; [reflexivity|].
  cbn [PyStr.upper PyStr.int_rstrip]. rewrite IH, upper_char_int_space.
  destruct (PyStr.int_rstrip r); cbn [PyStr.upper]; [|reflexivity].
  destruct (PyStr.is_int_space c); reflexivity.
Qed.

(** Upper-casing a text does not change the integer it spells. *)
Lemma int_upper (s : string) : PyStr.int (PyStr.upper s) = PyStr.int s.
Proof.
  unfold PyStr.int, PyStr.int_strip. rewrite int_lstrip_upper, int_rstrip_upper.
  destruct (PyStr.int_rstrip (PyStr.int_lstrip s)) as [|c r]; [reflexivity|].
  cbn [PyStr.upper]. rewrite upper_char_plus, upper_char_minus, digits_upper.
  change (String (PyStr.upper_char c) (PyStr.upper r))
    with (PyStr.upper (String c r)).
  rewrite digits_upper. reflexivity.
Qed.

(** *** Statements of the controller *)

Lemma motor_hal_call_ok {R} (m : hal_method) (h : controller) (w : world) :
  motor_hal (self w) = Some h ->
  motor_hal_call (R := R) m w = (Next tt, after_hal_call m h w).
Proof.
  intros H. unfold motor_hal_call, after_hal_call. cbn. unfold attr. rewrite H.
  destruct (hal_call m h) as [h' l]. reflexivity.
Qed.

Lemma process_command_value {R} (command cmd vt : string) (v : Z) (w : world) :
  PyStr.split_colon (PyStr.upper command) = Some (cmd, vt) ->
  PyStr.int vt = Some v ->
  process_command (R := R) command w = def_ tt (execute_command cmd v) w.
Proof.
  intros Hs Hi. unfold process_command, def_, parse_command. cbn.
  rewrite Hs. unfold try_except. rewrite Hi. cbn. reflexivity.
Qed.

Lemma process_command_bad_value {R} (command cmd vt : string) (w : world) :
  PyStr.split_colon (PyStr.upper command) = Some (cmd, vt) ->
  PyStr.int vt = None ->
  process_command (R := R) command w = (Next tt, w).
Proof.
  intros Hs Hi. unfold process_command, def_, parse_command. cbn.
  rewrite Hs. unfold try_except. rewrite Hi. cbn. reflexivity.
Qed.

Lemma process_command_default {R} (command : string) (c : Config) (v : Z)
    (w : world) :
  PyStr.split_colon (PyStr.upper command) = None ->
  config (self w) = Some c ->
  default_speed_percent c = Some v ->
  process_command (R := R) command w
  = def_ tt (execute_command (PyStr.upper command) v) w.
Proof.
  intros Hs Hc Hd. unfold process_command, def_, parse_command. cbn.
  rewrite Hs. unfold config_get, attr. cbn. rewrite Hc, Hd. cbn. reflexivity.
Qed.

Lemma execute_movement {R} (name : string) (d : direction) (v : Z)
    (h : controller) (w : world) :
  In (name, d) movement_commands ->
  motor_hal (self w) = Some h ->
  execute_command (R := R) name v w
  = (Next tt, after_hal_call (m_start d (Some v)) h w).
Proof.
  intros Hin Hh. unfold movement_commands in Hin. cbn [In] in Hin.
  repeat (destruct Hin as [Hin|Hin]; [inversion Hin; subst; clear Hin|]);
    [..|destruct Hin];
    unfold execute_command, try_except; cbn [String.eqb Ascii.eqb Bool.eqb orb];
    rewrite (motor_hal_call_ok _ h) by exact Hh; reflexivity.
Qed.

Lemma movement_words (name : string) (d : direction) :
  In (name, d) movement_commands ->
  PyStr.upper name = name /\ PyStr.split_colon name = None /\
  (forall vt, PyStr.split_colon (PyStr.upper (name ++ ":" ++ vt))
              = Some (name, PyStr.upper vt)) /\
  d <> STOPPED.
Proof.
  intros Hin. unfold movement_commands in Hin. cbn [In] in Hin.
  repeat (destruct Hin as [Hin|Hin]; [inversion Hin; subst; clear Hin|]);
    [..|destruct Hin];
    repeat split; try reflexivity; discriminate.
Qed.

(** A start method called without an argument runs at 50. *)
Lemma motor_hal_call_default_arg {R} (d : direction) (w : world) :
  motor_hal_call (R := R) (m_start d None) w
  = motor_hal_call (R := R) (m_start d (Some 50)) w.
Proof.
  unfold motor_hal_call, attr. cbn [bind Monad_Py].
  destruct (motor_hal (self w)) as [h|]; [|reflexivity].
  replace (hal_call (m_start d None) h) with (hal_call (m_start d (Some 50)) h)
    by (destruct d, h; reflexivity).
  reflexivity.
Qed.

(** *** Statements that keep the heartbeat *)

Lemma keeps_ret {R A} (a : A) : keeps_heartbeat (R := R) (ret a).
Proof. intros w. split; reflexivity. Qed.

Lemma keeps_return {R A} (r : R) : keeps_heartbeat (A := A) (return_ r).
Proof. intros w. split; reflexivity. Qed.

Lemma keeps_raise {R A} (e : exn) :
  is_Exception e = true -> keeps_heartbeat (R := R) (A := A) (raise e).
Proof.
  intros He w. split; [reflexivity|].
  destruct e; try reflexivity; discriminate.
Qed.

Lemma keeps_bind {R A B} (m : Py R A) (f : A -> Py R B) :
  keeps_heartbeat m -> (forall a, keeps_heartbeat (f a)) ->
  keeps_heartbeat (bind m f).
Proof.
  intros Hm Hf w. cbn. destruct (Hm w) as [H1 H2].
  destruct (m w) as [[a|r|e] w1]; cbn in *.
  - destruct (Hf a w1) as [H3 H4]. split; [congruence | exact H4].
  - split; [exact H1 | reflexivity].
  - split; [exact H1 | exact H2].
Qed.

Lemma keeps_try_except {R A} (body : Py R A) (handler : exn -> option (Py R A)) :
  keeps_heartbeat body ->
  (forall e h, handler e = Some h -> keeps_heartbeat h) ->
  keeps_heartbeat (try_except body handler).
Proof.
  intros Hb Hh w. unfold try_except. destruct (Hb w) as [H1 H2].
  destruct (body w) as [[a|r|e] w1]; cbn in *;
    try (split; [exact H1 | reflexivity]).
  destruct (handler e) as [h|] eqn:E; [|split; [exact H1 | exact H2]].
  destruct (Hh e h E w1) as [H3 H4]. split; [congruence | exact H4].
Qed.

Lemma keeps_def {R R'} (none : R) (body : Py R unit) :
  keeps_heartbeat body -> keeps_heartbeat (def_ (R' := R') none body).
Proof.
  intros Hb w. unfold def_. destruct (Hb w) as [H1 H2].
  destruct (body w) as [[a|r|e] w1]; cbn in *; split; auto.
Qed.

Lemma keeps_attr {R A} (name : string)
    (get : UniversalMotorController -> option A) :
  keeps_heartbeat (R := R) (attr name get).
Proof.
  intros w. unfold attr. destruct (get (self w)); split; reflexivity.
Qed.

Lemma keeps_config_get {R A} (key : string) (get : Config -> option A) :
  keeps_heartbeat (R := R) (config_get key get).
Proof.
  unfold config_get. apply keeps_bind; [apply keeps_attr|].
  intros c. destruct (get c); [apply keeps_ret | apply keeps_raise; reflexivity].
Qed.

Lemma keeps_emit {R} (e : event) : keeps_heartbeat (R := R) (emit e).
Proof. intros w. split; reflexivity. Qed.

Lemma keeps_emit_hw {R} (l : list hw_event) :
  keeps_heartbeat (R := R) (emit_hw l).
Proof. intros w. split; reflexivity. Qed.

Lemma keeps_time_time {R} : keeps_heartbeat (R := R) time_time.
Proof. intros w. split; reflexivity. Qed.

Lemma keeps_motor_hal_call {R} (m : hal_method) :
  keeps_heartbeat (R := R) (motor_hal_call m).
Proof.
  unfold motor_hal_call. apply keeps_bind; [apply keeps_attr|].
  intros h. destruct (hal_call m h) as [h' l].
  apply keeps_bind; [|intros; apply keeps_emit_hw].
  intros w. split; reflexivity.
Qed.

Lemma keeps_publish_status {R} : keeps_heartbeat (R := R) publish_status.
Proof.
  unfold publish_status. apply keeps_try_except.
  - apply keeps_bind; [apply keeps_attr|]. intros h.
    apply keeps_bind.
    { destruct (hal_get_status h);
        [apply keeps_ret | apply keeps_raise; reflexivity]. }
    intros st. apply keeps_bind; [apply keeps_time_time|]. intros now.
    apply keeps_bind; [apply keeps_config_get|]. intros ty.
    apply keeps_bind; [apply keeps_config_get|]. intros topic.
    apply keeps_bind; [apply keeps_attr|]. intros _. apply keeps_emit.
  - intros e h. destruct (is_Exception e); intros [= <-]. apply keeps_ret.
Qed.

Lemma keeps_execute_command {R} (cmd : string) (value : Z) :
  keeps_heartbeat (R := R) (execute_command cmd value).
Proof.
  unfold execute_command. apply keeps_try_except.
  - repeat match goal with
           | |- keeps_heartbeat (if ?b then _ else _) => destruct b
           end;
      first [ apply keeps_motor_hal_call
            | apply keeps_publish_status
            | apply keeps_ret ].
  - intros e h. destruct (is_Exception e); intros [= <-]. apply keeps_ret.
Qed.

Lemma keeps_parse_command (command : string) :
  keeps_heartbeat (parse_command command).
Proof.
  unfold parse_command.
  destruct (PyStr.split_colon command) as [[cmd value]|].
  - apply keeps_bind; [|intros; apply keeps_ret].
    apply keeps_try_except.
    + destruct (PyStr.int value);
        [apply keeps_ret | apply keeps_raise; reflexivity].
    + intros e h. destruct e; intros [= <-]. apply keeps_return.
  - apply keeps_bind; [apply keeps_config_get | intros; apply keeps_ret].
Qed.

Lemma keeps_process_command {R} (command : string) :
  keeps_heartbeat (R := R) (process_command command).
Proof.
  unfold process_command. apply keeps_def.
  apply keeps_bind; [apply keeps_parse_command|].
  intros [cmd value]. apply keeps_execute_command.
Qed.

Lemma def_never_returns {R R'} (none : R) (body : Py R unit) (w : world)
    (r : R') :
  fst (def_ (R' := R') none body w) <> Return r.
Proof. unfold def_. destruct (body w) as [[a|x|e] w1]; discriminate. Qed.

(** *** The heartbeat monitor *)

Lemma Qgtb_true (a b : Q) : Qgtb a b = true <-> (b < a)%Q.
Proof.
  unfold Qgtb. rewrite negb_true_iff. split.
  - intros H. apply Qnot_le_lt. intros Hle.
    apply Qle_bool_iff in Hle. congruence.
  - intros H. destruct (Qle_bool a b) eqn:E; [|reflexivity].
    apply Qle_bool_iff in E. exfalso. apply (Qlt_not_le _ _ H E).
Qed.

Lemma Qgtb_false (a b : Q) : Qgtb a b = false <-> (a <= b)%Q.
Proof. unfold Qgtb. rewrite negb_false_iff. apply Qle_bool_iff. Qed.

Lemma monitor_pass_late (w : world) (h : controller) (last : Q) (timeout : Z) :
  heartbeat_monitoring (self w) = Some true ->
  last_heartbeat (self w) = Some last ->
  heartbeat_timeout (self w) = Some timeout ->
  motor_hal (self w) = Some h ->
  (inject_Z timeout < clock w (reads w) - last)%Q ->
  heartbeat_monitor_body (R := unit) w = (Next tt, after_timeout h w).
Proof.
  intros Hm Hl Ht Hh Hlate.
  unfold heartbeat_monitor_body. cbn -[motor_hal_call Qgtb].
  unfold attr. rewrite Hm. cbn -[motor_hal_call Qgtb].
  rewrite Hl. cbn -[motor_hal_call Qgtb]. rewrite Ht.
  cbn -[motor_hal_call Qgtb].
  rewrite (proj2 (Qgtb_true _ _) Hlate). cbn -[motor_hal_call].
  rewrite (motor_hal_call_ok m_stop h) by exact Hh.
  unfold after_timeout, time_sleep, emit. cbn.
  rewrite <- app_assoc. reflexivity.
Qed.

Lemma monitor_pass_in_time (w : world) (last : Q) (timeout : Z) :
  heartbeat_monitoring (self w) = Some true ->
  last_heartbeat (self w) = Some last ->
  heartbeat_timeout (self w) = Some timeout ->
  (clock w (reads w) - last <= inject_Z timeout)%Q ->
  heartbeat_monitor_body (R := unit) w = (Next tt, after_quiet_pass w).
Proof.
  intros Hm Hl Ht Hin.
  unfold heartbeat_monitor_body. cbn -[motor_hal_call Qgtb].
  unfold attr. rewrite Hm. cbn -[motor_hal_call Qgtb].
  rewrite Hl. cbn -[motor_hal_call Qgtb]. rewrite Ht.
  cbn -[motor_hal_call Qgtb].
  rewrite (proj2 (Qgtb_false _ _) Hin). reflexivity.
Qed.

(** *** Construction and [run] *)

Lemma instantiate_result {R} (c : controller_class) (w : world) :
  instantiate (R := R) c w =
  (Next (initial c),
   mkWorld (self w)
     (trace w ++ map Hw (match c with
                         | MotoZeroController_class => snd MotoZeroController.__init__
                         | L298Controller_class => snd L298Controller.__init__
                         | CamJamController_class => snd CamJamController.__init__
                         end))
     (clock w) (reads w) (files w) (importable w) (inbox w)).
Proof. destruct c; reflexivity. Qed.

(** [_create_motor_controller] hands back a fresh controller and touches no
    attribute of the object: the statements behind its [return] never run. *)
Lemma create_result {R} (controller_type : string) (w w1 : world)
    (r : option controller) :
  _create_motor_controller (R := R) controller_type w = (Next r, w1) ->
  exists c l, r = Some (initial c) /\ self w1 = self w /\
              trace w1 = trace w ++ map Hw l /\ same_environment w w1.
Proof.
  unfold _create_motor_controller, def_, raise, return_.
  destruct (lookup controller_type controller_map) as [[module_name class_name]|];
    cbn -[instantiate]; [|discriminate].
  unfold try_except, import_, raise.
  destruct (importable w _); cbn -[instantiate].
  - rewrite instantiate_result. cbn. intros H. inversion H; subst; clear H.
    eexists _, _. cbn. repeat split.
  - destruct (importable w _); cbn -[instantiate]; [|discriminate].
    rewrite instantiate_result. cbn. intros H. inversion H; subst; clear H.
    eexists _, _. cbn. repeat split.
Qed.

Lemma load_config_world {R} (config_file : string) (w w1 : world)
    (r : flow R Config) :
  load_config config_file w = (r, w1) -> w1 = w.
Proof.
  unfold load_config, try_except, open_and_load.
  destruct (files w config_file); cbn; intros H; inversion H; reflexivity.
Qed.

Lemma init_result (config_file : string) (w w' : world) :
  self w = new_object ->
  __init__ (R := unit) config_file w = (Next tt, w') ->
  exists c k l,
    self w' = mkUmc (Some c) (Some (initial k)) None None None None None None /\
    trace w' = trace w ++ map Hw l /\
    same_environment w w'.
Proof.
  intros Hnew H.
  unfold __init__ in H. cbn in H.
  destruct (load_config config_file w) as [[c| |] w1] eqn:Hl; try discriminate.
  apply load_config_world in Hl. subst w1.
  unfold config_get, attr, update_self, raise in H. cbn in H.
  destruct (motor_controller_type c) as [ty|]; cbn in H; [|discriminate].
  destruct (_create_motor_controller (PyStr.lower ty) _) as [[r| |] w2] eqn:Hc;
    try discriminate.
  apply create_result in Hc. destruct Hc as [k [l [-> [Hs [Ht He]]]]].
  inversion H; subst; clear H. cbn in *.
  exists c, k, l. rewrite Hs, Hnew. cbn.
  repeat split; try assumption; apply He.
Qed.

Lemma cleanup_fails {R} (w : world) :
  no_client w ->
  exists w', cleanup (R := R) w = (Raise (AttributeError "mqtt_client"), w') /\
             no_client w' /\
             (exists l, trace w' = trace w ++ map Hw l) /\
             inbox w' = inbox w.
Proof.
  intros [[c Hc] [[h Hh] Hm]].
  unfold cleanup. cbn -[motor_hal_call].
  erewrite motor_hal_call_ok by (cbn; exact Hh).
  erewrite motor_hal_call_ok by (cbn; reflexivity).
  unfold attr. cbn. rewrite Hm.
  eexists. split; [reflexivity|]. cbn. repeat split.
  - exists c. exact Hc.
  - eexists. reflexivity.
  - exact Hm.
  - eexists. rewrite <- app_assoc, <- map_app. reflexivity.
Qed.

Lemma run_fails (w : world) :
  no_client w ->
  exists w', run (R := unit) w = (Raise (AttributeError "mqtt_client"), w') /\
             no_client w' /\
             (exists l, trace w' = trace w ++ map Hw l) /\
             inbox w' = inbox w.
Proof.
  intros Hn.
  unfold run, try_finally.
  destruct (try_except _ _ w) as [r w1] eqn:Hbody.
  assert (Hw1 : w1 = w).
  { destruct Hn as [[c Hc] [_ Hm]].
    unfold try_except, config_get, attr, raise in Hbody. cbn in Hbody.
    rewrite Hc in Hbody.
    destruct (mqtt_broker c); cbn in Hbody; [|inversion Hbody; reflexivity].
    rewrite Hc in Hbody.
    destruct (mqtt_port c); cbn in Hbody; rewrite ?Hm in Hbody;
      inversion Hbody; reflexivity. }
  subst w1.
  destruct (cleanup_fails (R := unit) w Hn) as [w' [Hcl Hrest]].
  exists w'. split; [|exact Hrest].
  rewrite Hcl. reflexivity.
Qed.

Lemma run_times_fails (n : nat) : forall w : world,
  no_client w ->
  no_client (run_times n w) /\
  (exists l, trace (run_times n w) = trace w ++ map Hw l) /\
  inbox (run_times n w) = inbox w.
Proof.
  induction n as [|n IH]; intros w Hn; cbn [run_times].
  - split; [exact Hn|]. split; [|reflexivity].
    exists []. cbn. rewrite app_nil_r. reflexivity.
  - destruct (run_fails w Hn) as [w' [Hr [Hn' [[l Hl] Hi]]]].
    rewrite Hr. cbn [snd].
    destruct (IH w' Hn') as [H1 [[l' H2] H3]].
    split; [exact H1|]. split; [|congruence].
    exists (l ++ l'). rewrite H2, Hl, map_app, app_assoc. reflexivity.
Qed.

(** ** Construction and [run] *)

(** C1: An object constructed by [__init__] has none of the attributes
    [mqtt_client], [last_heartbeat], [heartbeat_timeout],
    [heartbeat_monitoring], [status_thread] and [running], because the
    statements that assign them follow the [return] of
    [_create_motor_controller].  Every call of [run()] on it, the first and
    each later one, ends in [AttributeError] on [mqtt_client]; up to then
    only motor hardware was called (no MQTT call is in the trace) and no
    inbound message was taken. *)
Theorem run_never_connects (config_file : string) (w w' : world) :
  self w = new_object ->
  __init__ (R := unit) config_file w = (Next tt, w') ->
  (mqtt_client (self w') = None /\ last_heartbeat (self w') = None /\
   heartbeat_timeout (self w') = None /\ heartbeat_monitoring (self w') = None /\
   status_thread (self w') = None /\ running (self w') = None) /\
  forall n : nat,
    let before := run_times n w' in
    let after := snd (run (R := unit) before) in
    fst (run (R := unit) before) = Raise (AttributeError "mqtt_client") /\
    (exists l, trace after = trace w ++ map Hw l) /\
    inbox after = inbox w.
Proof.
  intros Hnew Hinit.
  destruct (init_result config_file w w' Hnew Hinit) as [c [k [l [Hs [Ht He]]]]].
  split; [rewrite Hs; cbn; repeat split|].
  assert (Hn : no_client w').
  { unfold no_client. rewrite Hs. cbn. repeat split; eexists; reflexivity. }
  intros n before after.
  destruct (run_times_fails n w' Hn) as [Hb [[l1 Hl1] Hi1]].
  fold before in Hb, Hl1, Hi1.
  destruct (run_fails before Hb) as [w2 [Hr [_ [[l2 Hl2] Hi2]]]].
  subst after. rewrite Hr. cbn [fst snd].
  split; [reflexivity|]. split.
  - exists (l ++ l1 ++ l2).
    rewrite Hl2, Hl1, Ht, !map_app, !app_assoc. reflexivity.
  - rewrite Hi2, Hi1. apply He.
Qed.

Lemma run_never_connects_witness :
  self fresh_world = new_object /\
  __init__ (R := unit) "motor_config.json" fresh_world = (Next tt, started_world) /\
  mqtt_client (self started_world) = None /\
  fst (run (R := unit) started_world) = Raise (AttributeError "mqtt_client").
Proof.
  split; [reflexivity|]. split; [reflexivity|].
  pose proof (run_never_connects "motor_config.json" fresh_world started_world
                eq_refl eq_refl) as H.
  split; [exact (proj1 (proj1 H)) | exact (proj1 (proj2 H 0%nat))].
Defined.

(** C10, as the code has it: a config file that holds invalid JSON ends
    construction with [JSONDecodeError] and leaves the object untouched; a
    config file that is missing does not: [load_config] answers with the
    default configuration, and construction goes on to build the MotoZero
    controller. *)
Theorem config_file_at_startup (config_file : string) (w : world) :
  (files w config_file = BadJson ->
   __init__ (R := unit) config_file w = (Raise JSONDecodeError, w)) /\
  (files w config_file = NoFile ->
   load_config (R := unit) config_file w = (Next get_default_config, w) /\
   (importable w "motor.hal.motozero" = true ->
    exists w', __init__ (R := unit) config_file w = (Next tt, w') /\
               config (self w') = Some get_default_config /\
               motor_hal (self w') = Some (initial MotoZeroController_class))).
Proof.
  split; intros Hf.
  - unfold __init__, load_config, try_except, open_and_load. cbn.
    rewrite Hf. reflexivity.
  - assert (Hl : load_config (R := unit) config_file w
                 = (Next get_default_config, w)).
    { unfold load_config, try_except, open_and_load. rewrite Hf. reflexivity. }
    split; [exact Hl|]. intros Hi.
    unfold __init__. cbn -[load_config _create_motor_controller].
    rewrite Hl. cbn -[_create_motor_controller PyStr.lower].
    change (PyStr.lower "motozero") with "motozero".
    unfold _create_motor_controller, def_, try_except, import_. cbn.
    rewrite Hi. cbn. eexists. split; [reflexivity|]. split; reflexivity.
Qed.

Lemma config_file_at_startup_witness :
  files broken_config_world "motor_config.json" = BadJson /\
  fst (__init__ (R := unit) "motor_config.json" broken_config_world)
  = Raise JSONDecodeError /\
  files fresh_world "motor_config.json" = NoFile /\
  load_config (R := unit) "motor_config.json" fresh_world
  = (Next get_default_config, fresh_world).
Proof.
  split; [reflexivity|]. split.
  - rewrite (proj1 (config_file_at_startup "motor_config.json" broken_config_world)
               eq_refl).
    reflexivity.
  - split; [reflexivity|].
    exact (proj1 (proj2 (config_file_at_startup "motor_config.json" fresh_world)
                    eq_refl)).
Defined.

(** C10, as stated, fails for the missing file: with no
    [motor_config.json] on disk, [__init__] completes normally, with the
    default configuration and a MotoZero controller. *)
Lemma missing_config_file_starts_with_defaults :
  files fresh_world "motor_config.json" = NoFile /\
  fst (__init__ (R := unit) "motor_config.json" fresh_world) = Next tt /\
  config (self started_world) = Some get_default_config /\
  motor_hal (self started_world) = Some (initial MotoZeroController_class).
Proof. repeat split. Qed.

(** ** Inbound messages *)

(** C2, as the code has it: [on_message] refreshes [last_heartbeat] with
    the clock reading taken on arrival for every message whose payload
    decodes, before the command is looked at; the call itself never fails.
    A message whose value is no integer therefore refreshes the heartbeat
    too, while it leaves the motor controller and the trace as they were;
    this last part is for ASCII payloads, where [PyStr.int] rejects what
    [int] rejects. *)
Theorem every_message_refreshes_heartbeat (w : world) (s : string) :
  let w' := snd (on_message (R := unit) (Text s) w) in
  fst (on_message (R := unit) (Text s) w) = Next tt /\
  last_heartbeat (self w') = Some (clock w (reads w)) /\
  forall cmd vt,
    PyStr.is_ascii s = true ->
    PyStr.split_colon (PyStr.upper (PyStr.strip s)) = Some (cmd, vt) ->
    PyStr.int vt = None ->
    motor_hal (self w') = motor_hal (self w) /\ trace w' = trace w.
Proof.
  assert (E : on_message (R := unit) (Text s) w =
              try_except (process_command (PyStr.strip s))
                (fun e => if is_Exception e then Some (ret tt) else None)
                (heartbeat_refreshed w)).
  { unfold on_message, try_except. cbn. reflexivity. }
  cbv zeta. rewrite E. unfold try_except.
  pose proof (keeps_process_command (R := unit) (PyStr.strip s)
                (heartbeat_refreshed w)) as [Hk Hn].
  pose proof (def_never_returns tt
                (cv <- parse_command (PyStr.upper (PyStr.strip s)) ;;
                 let '(cmd, value) := cv in execute_command cmd value)
                (heartbeat_refreshed w) tt) as Hr.
  change (def_ tt _ (heartbeat_refreshed w))
    with (process_command (R := unit) (PyStr.strip s) (heartbeat_refreshed w))
    in Hr.
  split; [|split].
  - destruct (process_command _ _) as [[[]|[]|e] w1]; cbn in *; try congruence.
    destruct e; cbn; try reflexivity. discriminate.
  - destruct (process_command _ _) as [[[]|[]|e] w1]; cbn in *; try exact Hk.
    destruct e; cbn; exact Hk.
  - intros cmd vt _ Hs Hi.
    rewrite (process_command_bad_value _ cmd vt) by assumption.
    split; reflexivity.
Qed.

Lemma every_message_refreshes_heartbeat_witness :
  PyStr.is_ascii "speed:abc" = true /\
  PyStr.split_colon (PyStr.upper (PyStr.strip "speed:abc")) = Some ("SPEED", "ABC") /\
  PyStr.int "ABC" = None /\
  motor_hal (self (snd (on_message (R := unit) (Text "speed:abc")
                          (l298_world 50 10 (ticking 5)))))
  = motor_hal (self (l298_world 50 10 (ticking 5))).
Proof.
  split; [reflexivity|]. split; [reflexivity|]. split; [reflexivity|].
  exact (proj1 (proj2 (proj2 (every_message_refreshes_heartbeat
                                (l298_world 50 10 (ticking 5)) "speed:abc"))
                  "SPEED" "ABC" eq_refl eq_refl eq_refl)).
Defined.

(** C2, as stated, fails: ["SPEED:abc"] has a value that is no integer, and
    handling it moves [last_heartbeat] from 0 to the arrival time 5. *)
Lemma unparsed_message_refreshes_heartbeat :
  PyStr.int "ABC" = None /\
  last_heartbeat (self (l298_world 50 10 (ticking 5))) = Some (inject_Z 0) /\
  last_heartbeat (self (snd (on_message (R := unit) (Text "SPEED:abc")
                               (l298_world 50 10 (ticking 5)))))
  = Some (inject_Z 5) /\
  last_heartbeat (self (snd (on_message (R := unit) (Text "SPEED:abc")
                               (l298_world 50 10 (ticking 5)))))
  <> last_heartbeat (self (l298_world 50 10 (ticking 5))).
Proof.
  split; [reflexivity|]. split; [reflexivity|]. split; [reflexivity|].
  vm_compute. discriminate.
Qed.

(** ** Commands *)




(** C5, as the code has it: the legacy commands call the start methods
    without an argument, so they run at the built-in default of 50 whatever
    default speed is configured: ["F"], ["B"], ["L"] and ["R"] do exactly
    what ["START_FORWARD:50"], ["START_BACKWARD:50"], ["START_LEFT:50"] and
    ["START_RIGHT:50"] do, and ["S"] does what ["STOP"] does.  They agree
    with the long form at the configured default speed where that speed
    is 50. *)
Theorem legacy_equivalence (w : world) (c : Config) (d : Z)
    (legacy long : string) :
  config (self w) = Some c ->
  default_speed_percent c = Some d ->
  In (legacy, long) legacy_commands ->
  process_command (R := unit) legacy w = process_command (R := unit) long w.
Proof.
  intros Hc Hd Hin. unfold legacy_commands in Hin. cbn [In] in Hin.
  repeat (destruct Hin as [Hin|Hin]; [inversion Hin; subst; clear Hin|]);
    [..|destruct Hin].
  1-4: rewrite (process_command_default _ c d) by (auto; reflexivity);
       erewrite (process_command_value _ _ "50" 50) by reflexivity;
       match goal with
       | |- context [PyStr.upper ?s] =>
           let s' := eval vm_compute in (PyStr.upper s) in
           change (PyStr.upper s) with s'
       end;
       unfold def_, execute_command, try_except;
       cbn [String.eqb Ascii.eqb Bool.eqb orb];
       first [ rewrite (motor_hal_call_default_arg FORWARD)
             | rewrite (motor_hal_call_default_arg BACKWARD)
             | rewrite (motor_hal_call_default_arg LEFT)
             | rewrite (motor_hal_call_default_arg RIGHT) ];
       reflexivity.
  rewrite !(process_command_default _ c d) by (auto; reflexivity).
  reflexivity.
Qed.

Lemma legacy_equivalence_witness :
  config (self (l298_world 75 10 (ticking 0)))
  = Some (config_with_default_speed 75) /\
  default_speed_percent (config_with_default_speed 75) = Some 75 /\
  In ("F", "START_FORWARD:50") legacy_commands /\
  process_command (R := unit) "F" (l298_world 75 10 (ticking 0))
  = process_command (R := unit) "START_FORWARD:50" (l298_world 75 10 (ticking 0)).
Proof.
  split; [reflexivity|]. split; [reflexivity|]. split; [left; reflexivity|].
  exact (legacy_equivalence (l298_world 75 10 (ticking 0))
           (config_with_default_speed 75) 75 "F" "START_FORWARD:50"
           eq_refl eq_refl (or_introl eq_refl)).
Defined.

(** C5, as stated, fails: with the default speed configured as 75, ["F"]
    leaves the speed at 50 and ["START_FORWARD:75"] leaves it at 75. *)
Lemma legacy_ignores_configured_default :
  default_speed_percent (config_with_default_speed 75) = Some 75 /\
  motion_state (snd (process_command (R := unit) "F"
                       (l298_world 75 10 (ticking 0))))
  = Some (mkStatus 50 FORWARD true []) /\
  motion_state (snd (process_command (R := unit) "START_FORWARD:75"
                       (l298_world 75 10 (ticking 0))))
  = Some (mkStatus 75 FORWARD true []) /\
  motion_state (snd (process_command (R := unit) "F"
                       (l298_world 75 10 (ticking 0))))
  <> motion_state (snd (process_command (R := unit) "START_FORWARD:75"
                          (l298_world 75 10 (ticking 0)))).
Proof.
  split; [reflexivity|]. split; [reflexivity|]. split; [reflexivity|].
  vm_compute. discriminate.
Qed.

(** ** The heartbeat monitor *)

(** C3, as the code has it: a pass of the monitor that finds the heartbeat
    late (monitoring enabled, [now - last_heartbeat > timeout]) calls
    [stop()] exactly once and sets [last_heartbeat] to a fresh clock
    reading.  With no command arriving, the following pass calls nothing
    on the motors as long as the time since that reading does not exceed
    the timeout, and it calls [stop()] exactly once more as soon as it
    does. *)
Theorem one_stop_per_breach (w : world) (h : controller) (last : Q)
    (timeout : Z) :
  heartbeat_monitoring (self w) = Some true ->
  last_heartbeat (self w) = Some last ->
  heartbeat_timeout (self w) = Some timeout ->
  motor_hal (self w) = Some h ->
  let now := clock w (reads w) in
  let reset := clock w (S (reads w)) in
  let next := clock w (S (S (reads w))) in
  let w1 := snd (heartbeat_monitor_body (R := unit) w) in
  let w2 := snd (heartbeat_monitor_body (R := unit) w1) in
  let stopped := fst (hal_call m_stop h) in
  (inject_Z timeout < now - last)%Q ->
  (trace w1 = trace w ++ map Hw (snd (hal_call m_stop h)) ++ [Sleep 1] /\
   motor_hal (self w1) = Some stopped /\
   last_heartbeat (self w1) = Some reset) /\
  ((next - reset <= inject_Z timeout)%Q ->
   trace w2 = trace w1 ++ [Sleep 1] /\
   last_heartbeat (self w2) = Some reset) /\
  ((inject_Z timeout < next - reset)%Q ->
   trace w2 = trace w1 ++ map Hw (snd (hal_call m_stop stopped)) ++ [Sleep 1] /\
   last_heartbeat (self w2) = Some (clock w (S (S (S (reads w)))))).
Proof.
  intros Hm Hl Ht Hh now reset next w1 w2 stopped Hlate.
  assert (E1 : w1 = after_timeout h w).
  { unfold w1. rewrite (monitor_pass_late w h last timeout); auto. }
  split; [rewrite E1; cbn; auto|].
  split; intros Hnext.
  - assert (E2 : w2 = after_quiet_pass w1).
    { unfold w2.
      rewrite (monitor_pass_in_time w1 reset timeout); rewrite ?E1; auto. }
    rewrite E2, E1. cbn. auto.
  - assert (E2 : w2 = after_timeout stopped w1).
    { unfold w2.
      rewrite (monitor_pass_late w1 stopped reset timeout); rewrite ?E1; auto. }
    rewrite E2, E1. cbn. auto.
Qed.

Lemma one_stop_per_breach_witness :
  heartbeat_monitoring (self (l298_world 50 10 (monitor_clock 100))) = Some true /\
  last_heartbeat (self (l298_world 50 10 (monitor_clock 100))) = Some (inject_Z 0) /\
  heartbeat_timeout (self (l298_world 50 10 (monitor_clock 100))) = Some 10 /\
  motor_hal (self (l298_world 50 10 (monitor_clock 100)))
  = Some (initial L298Controller_class) /\
  (inject_Z 10 < monitor_clock 100 0 - inject_Z 0)%Q /\
  trace (snd (heartbeat_monitor_body (R := unit)
                (l298_world 50 10 (monitor_clock 100))))
  = map Hw (snd (hal_call m_stop (initial L298Controller_class))) ++ [Sleep 1].
Proof.
  assert (Hlate : (inject_Z 10 < monitor_clock 100 0 - inject_Z 0)%Q)
    by (vm_compute; reflexivity).
  do 4 (split; [reflexivity|]). split; [exact Hlate|].
  exact (proj1 (proj1 (one_stop_per_breach (l298_world 50 10 (monitor_clock 100))
                         (initial L298Controller_class) (inject_Z 0) 10
                         eq_refl eq_refl eq_refl eq_refl Hlate))).
Defined.

(** C3, as stated, fails where the timeout is shorter than the pause
    between two passes: with a timeout of 0 and passes one second apart,
    the pass that follows a stop finds the heartbeat late again, and the
    two passes call [stop()] twice. *)
Lemma zero_timeout_stops_on_every_pass :
  heartbeat_timeout (self (l298_world 50 0 (monitor_clock 100))) = Some 0 /\
  trace (snd (heartbeat_monitor (R := unit) 2 (l298_world 50 0 (monitor_clock 100))))
  = map Hw (snd (hal_call m_stop (initial L298Controller_class))) ++ [Sleep 1]
    ++ map Hw (snd (hal_call m_stop (initial L298Controller_class))) ++ [Sleep 1].
Proof. split; reflexivity. Qed.

(** ** The motor controllers *)

(** C6 fails on the MotoZero and, by the same code, on the CamJam:
    [start_forward(29)] stores the fraction 0.29, and [get_status] reports
    [int(0.29 * 100)], which is 28. *)
Theorem status_after_start_forward_29 (s : MotoZeroController.t)
    (s' : CamJamController.t) :
  hal_get_status (fst (hal_call (m_start_forward (Some 29)) (MotoZero s)))
  = Some (mkStatus 28 FORWARD true []) /\
  hal_get_status (fst (hal_call (m_start_forward (Some 29)) (CamJam s')))
  = Some (mkStatus 28 FORWARD true
            [ ("left_motor_speed", fraction_of_percent 29);
              ("right_motor_speed", fraction_of_percent 29) ]).
Proof.
  split.
  - etransitivity.
    + apply (start_state FORWARD (Some 29) (MotoZero s)). discriminate.
    + vm_compute. reflexivity.
  - etransitivity.
    + apply (start_state FORWARD (Some 29) (CamJam s')). discriminate.
    + vm_compute. reflexivity.
Qed.

(** C7: [set_speed] clamps the speed to 0..100 (below 0 gives 0, above
    100 gives 100, a value in range is kept) and stores it, and leaves
    direction and [is_moving] as they are.  On a moving controller it
    issues the hardware calls that put the current direction on the motors
    at the clamped new speed; on a controller at rest it issues no hardware
    call. *)
Theorem set_speed_reapplies (h : controller) (percent : Z) :
  let h' := fst (hal_call (m_set_speed percent) h) in
  let calls := snd (hal_call (m_set_speed percent) h) in
  let clamped := Z.max 0 (Z.min 100 percent) in
  0 <= clamp percent <= 100 /\
  clamp percent = clamped /\
  hal_current_speed h' = stored_speed h clamped /\
  hal_direction h' = hal_direction h /\
  hal_is_moving h' = hal_is_moving h /\
  calls = if hal_is_moving h
          then drive_calls h (hal_direction h) clamped
          else [].
Proof.
  cbv zeta. split; [apply clamp_range|]. split; [apply clamp_max_min|].
  rewrite <- clamp_max_min.
  destruct h as [s|s|s]; destruct s as [v d [|]]; try destruct d;
    repeat split; try reflexivity.
Qed.

(** C8: [stop()] can be called in every state, leaves direction [STOPPED],
    [is_moving] false and the speed as it was, and a second [stop()] leaves
    the object exactly as the first one did. *)
Theorem stop_idempotent (h : controller) :
  let h1 := fst (hal_call m_stop h) in
  fst (hal_call m_stop h1) = h1 /\
  hal_direction h1 = STOPPED /\
  hal_is_moving h1 = false /\
  hal_current_speed h1 = hal_current_speed h.
Proof.
  destruct h as [s|s|s]; destruct s; repeat split; reflexivity.
Qed.

(** C9: in every state a controller of any of the three classes can
    reach from its constructor through [set_speed], the four start methods,
    [stop] and [cleanup], [get_status] reports a state with
    [is_moving == (direction != STOPPED)] and [0 <= speed_percent <= 100]. *)
Theorem invariant_reachable (h : controller) : reachable h -> invariant h.
Proof.
  induction 1 as [c | m h Hr IH].
  - apply invariant_initial.
  - apply invariant_preserved, IH.
Qed.

Lemma invariant_reachable_witness :
  reachable (fst (hal_call (m_start_left (Some 150))
                    (initial CamJamController_class))) /\
  invariant (fst (hal_call (m_start_left (Some 150))
                    (initial CamJamController_class))).
Proof.
  split.
  - apply reachable_call, reachable_initial.
  - apply invariant_reachable. apply reachable_call, reachable_initial.
Defined.

(** ** Further properties: the motor controllers *)

(** X1: after a start method, [get_status] reports the direction, moving,
    and the clamped percentage, which the L298 reports exactly and the two
    float-based classes report one lower for 29, 57 and 58 only. *)
Theorem status_after_start (d : direction) (v : option Z) (h : controller) :
  d <> STOPPED ->
  exists extra,
    hal_get_status (fst (hal_call (m_start d v) h))
    = Some (mkStatus (reported_percent (hal_class h) (clamp (default_arg 50 v)))
              d true extra).
Proof.
  intros Hd. rewrite (start_state d v h Hd). cbv zeta.
  pose proof (roundtrip_exact_except _ (clamp_range (default_arg 50 v))) as E.
  destruct h; cbn [hal_class reported_percent]; rewrite ?E; eexists; reflexivity.
Qed.

Lemma status_after_start_witness :
  LEFT <> STOPPED /\
  exists extra,
    hal_get_status (fst (hal_call (m_start_left (Some 57))
                           (initial CamJamController_class)))
    = Some (mkStatus 56 LEFT true extra).
Proof.
  split; [discriminate|].
  exact (status_after_start LEFT (Some 57) (initial CamJamController_class)
           ltac:(discriminate)).
Defined.

(** X2: a start method replaces the state: what it leaves depends on the
    class, the direction and the speed argument only, not on what the
    object held before. *)
Theorem start_replaces_state (d : direction) (v : option Z)
    (h1 h2 : controller) :
  d <> STOPPED ->
  hal_class h1 = hal_class h2 ->
  fst (hal_call (m_start d v) h1) = fst (hal_call (m_start d v) h2).
Proof.
  intros Hd Hc.
  destruct d; try congruence;
    destruct h1 as [s1|s1|s1], h2 as [s2|s2|s2]; try discriminate;
    destruct s1 as [x1 d1 [|]], s2 as [x2 d2 [|]];
    try destruct d1; try destruct d2; reflexivity.
Qed.

Lemma start_replaces_state_witness :
  RIGHT <> STOPPED /\
  fst (hal_call (m_start_right (Some 30))
         (fst (hal_call (m_start_left (Some 80)) (initial L298Controller_class))))
  = fst (hal_call (m_start_right (Some 30)) (initial L298Controller_class)).
Proof.
  split; [discriminate|].
  exact (start_replaces_state RIGHT (Some 30) _ _ ltac:(discriminate) eq_refl).
Defined.

(** X3: a start method on a moving controller is no atomic change of
    direction: [set_speed] runs first and drives the motors in the old
    direction at the new speed, then the new direction is put on the
    motors.  From rest, only the calls of the new direction are made. *)
Theorem start_drives_old_direction_first (d : direction) (v : option Z)
    (h : controller) :
  d <> STOPPED ->
  let p := clamp (default_arg 50 v) in
  snd (hal_call (m_start d v) h)
  = (if hal_is_moving h then drive_calls h (hal_direction h) p else [])
    ++ start_calls h d p.
Proof.
  intros Hd.
  destruct d; try congruence;
    destruct h as [s|s|s]; destruct s as [x d' [|]]; try destruct d';
    reflexivity.
Qed.

Lemma start_drives_old_direction_first_witness :
  FORWARD <> STOPPED /\
  snd (hal_call (m_start_forward (Some 40))
         (fst (hal_call (m_start_backward (Some 90))
                 (initial MotoZeroController_class))))
  = drive_calls (initial MotoZeroController_class) BACKWARD 40
    ++ drive_calls (initial MotoZeroController_class) FORWARD 40.
Proof.
  split; [discriminate|].
  exact (start_drives_old_direction_first FORWARD (Some 40)
           (fst (hal_call (m_start_backward (Some 90))
                   (initial MotoZeroController_class)))
           ltac:(discriminate)).
Defined.

(** X4: of two [set_speed] calls the last one decides the state, and
    [set_speed] after a start leaves what the start would have left with
    that speed. *)
Theorem last_speed_wins (p q : Z) (d : direction) (h : controller) :
  fst (hal_call (m_set_speed q) (fst (hal_call (m_set_speed p) h)))
  = fst (hal_call (m_set_speed q) h) /\
  (d <> STOPPED ->
   fst (hal_call (m_set_speed q) (fst (hal_call (m_start d (Some p)) h)))
   = fst (hal_call (m_start d (Some q)) h)).
Proof.
  split.
  - destruct h as [s|s|s]; destruct s as [x d' [|]]; try destruct d';
      reflexivity.
  - intros Hd.
    destruct d; try congruence;
      destruct h as [s|s|s]; destruct s as [x d' [|]]; try destruct d';
      reflexivity.
Qed.

Lemma last_speed_wins_witness :
  LEFT <> STOPPED /\
  fst (hal_call (m_set_speed 70)
         (fst (hal_call (m_start_left (Some 20)) (initial CamJamController_class))))
  = fst (hal_call (m_start_left (Some 70)) (initial CamJamController_class)).
Proof.
  split; [discriminate|].
  exact (proj2 (last_speed_wins 20 70 LEFT (initial CamJamController_class))
           ltac:(discriminate)).
Defined.

(** X5: the CamJam calibration [set_motor_speeds] does not clamp and does
    not touch speed, direction or [is_moving].  Where both arguments can be
    converted to a float it stores the two fractions; where the left one
    is too large it raises [OverflowError] and changes nothing; where only
    the right one is, the left fraction is already stored when it raises.
    In every case the next [set_speed] (and so the next start) overwrites
    both motor speeds with the common clamped speed: the calibration is
    forgotten. *)
Theorem calibration_is_forgotten (l r p : Z) (s : CamJamController.t) :
  let res := fst (fst (CamJamController.set_motor_speeds l r s)) in
  let s1 := snd (fst (CamJamController.set_motor_speeds l r s)) in
  let s2 := snd (fst (CamJamController.set_speed p s1)) in
  match PyFloat.of_int l, PyFloat.of_int r with
  | Some _, Some _ =>
      res = CamJamController.Calibrated /\
      CamJamController.left_motor_speed s1 = fraction_of_percent l /\
      CamJamController.right_motor_speed s1 = fraction_of_percent r
  | Some _, None =>
      res = CamJamController.OverflowError /\
      CamJamController.left_motor_speed s1 = fraction_of_percent l /\
      CamJamController.right_motor_speed s1 = CamJamController.right_motor_speed s /\
      snd (CamJamController.set_motor_speeds l r s) = []
  | None, _ =>
      CamJamController.set_motor_speeds l r s
      = (CamJamController.OverflowError, s, [])
  end /\
  CamJamController.current_speed s1 = CamJamController.current_speed s /\
  CamJamController.current_direction s1 = CamJamController.current_direction s /\
  CamJamController.is_moving s1 = CamJamController.is_moving s /\
  s2 = snd (fst (CamJamController.set_speed p s)) /\
  CamJamController.left_motor_speed s2
  = fraction_of_percent (Z.max 0 (Z.min 100 p)) /\
  CamJamController.right_motor_speed s2
  = fraction_of_percent (Z.max 0 (Z.min 100 p)).
Proof.
  cbv zeta. rewrite <- clamp_max_min.
  assert (Hof : forall z f, PyFloat.of_int z = Some f -> PyFloat.of_Z z = f).
  { intros z f. unfold PyFloat.of_int.
    destruct (PyFloat.of_Z z); intros H; inversion H; reflexivity. }
  unfold CamJamController.set_motor_speeds.
  destruct (PyFloat.of_int l) as [fl|] eqn:El;
    destruct (PyFloat.of_int r) as [fr|] eqn:Er;
    unfold fraction_of_percent;
    try rewrite (Hof l fl El); try rewrite (Hof r fr Er);
    destruct s as [x d [|] a b]; try destruct d; repeat split; reflexivity.
Qed.

Lemma calibration_is_forgotten_witness :
  PyFloat.of_int (10 ^ 400) = None /\
  CamJamController.set_motor_speeds (10 ^ 400) 90 (fst CamJamController.__init__)
  = (CamJamController.OverflowError, fst CamJamController.__init__, []).
Proof.
  assert (E : PyFloat.of_int (10 ^ 400) = None) by (vm_compute; reflexivity).
  split; [exact E|].
  pose proof (calibration_is_forgotten (10 ^ 400) 90 0
                (fst CamJamController.__init__)) as H.
  cbv zeta in H. destruct H as [H _]. rewrite E in H. exact H.
Defined.



(** What [stop()] leaves. *)
Lemma stop_idempotent_state (h : controller) :
  hal_current_speed (fst (hal_call m_stop h)) = hal_current_speed h /\
  hal_is_moving (fst (hal_call m_stop h)) = false /\
  hal_direction (fst (hal_call m_stop h)) = STOPPED.
Proof. destruct h as [s|s|s]; destruct s; repeat split; reflexivity. Qed.


Lemma stop_calls_fixed (h : controller) :
  snd (hal_call m_stop (fst (hal_call m_stop h))) = snd (hal_call m_stop h).
Proof. destruct h as [s|s|s]; destruct s; reflexivity. Qed.

(** ** Further helper lemmas: statements that keep a view of the object *)

Lemma stable_ret {R A X} (view : UniversalMotorController -> X) (a : A) :
  stable (R := R) view (ret a).
Proof. intros w. split; reflexivity. Qed.

Lemma stable_return {R A X} (view : UniversalMotorController -> X) (r : R) :
  stable (A := A) view (return_ r).
Proof. intros w. split; reflexivity. Qed.

Lemma stable_raise {R A X} (view : UniversalMotorController -> X) (e : exn) :
  is_Exception e = true -> stable (R := R) (A := A) view (raise e).
Proof.
  intros He w. split; [reflexivity|].
  destruct e; try reflexivity; discriminate.
Qed.

Lemma stable_bind {R A B X} (view : UniversalMotorController -> X)
    (m : Py R A) (f : A -> Py R B) :
  stable view m -> (forall a, stable view (f a)) -> stable view (bind m f).
Proof.
  intros Hm Hf w. cbn. destruct (Hm w) as [H1 H2].
  destruct (m w) as [[a|r|e] w1]; cbn in *.
  - destruct (Hf a w1) as [H3 H4]. split; [congruence | exact H4].
  - split; [exact H1 | reflexivity].
  - split; [exact H1 | exact H2].
Qed.

Lemma stable_try_except {R A X} (view : UniversalMotorController -> X)
    (body : Py R A) (handler : exn -> option (Py R A)) :
  stable view body ->
  (forall e h, handler e = Some h -> stable view h) ->
  stable view (try_except body handler).
Proof.
  intros Hb Hh w. unfold try_except. destruct (Hb w) as [H1 H2].
  destruct (body w) as [[a|r|e] w1]; cbn in *;
    try (split; [exact H1 | reflexivity]).
  destruct (handler e) as [h|] eqn:E; [|split; [exact H1 | exact H2]].
  destruct (Hh e h E w1) as [H3 H4]. split; [congruence | exact H4].
Qed.

Lemma stable_def {R R' X} (view : UniversalMotorController -> X) (none : R)
    (body : Py R unit) :
  stable view body -> stable view (def_ (R' := R') none body).
Proof.
  intros Hb w. unfold def_. destruct (Hb w) as [H1 H2].
  destruct (body w) as [[a|r|e] w1]; cbn in *; split; auto.
Qed.

Lemma stable_attr {R A X} (view : UniversalMotorController -> X)
    (name : string) (get : UniversalMotorController -> option A) :
  stable (R := R) view (attr name get).
Proof.
  intros w. unfold attr. destruct (get (self w)); split; reflexivity.
Qed.

Lemma stable_config_get {R A X} (view : UniversalMotorController -> X)
    (key : string) (get : Config -> option A) :
  stable (R := R) view (config_get key get).
Proof.
  unfold config_get. apply stable_bind; [apply stable_attr|].
  intros c. destruct (get c); [apply stable_ret | apply stable_raise; reflexivity].
Qed.

Lemma stable_emit {R X} (view : UniversalMotorController -> X) (e : event) :
  stable (R := R) view (emit e).
Proof. intros w. split; reflexivity. Qed.

Lemma stable_emit_hw {R X} (view : UniversalMotorController -> X)
    (l : list hw_event) :
  stable (R := R) view (emit_hw l).
Proof. intros w. split; reflexivity. Qed.

Lemma stable_time_time {R X} (view : UniversalMotorController -> X) :
  stable (R := R) view time_time.
Proof. intros w. split; reflexivity. Qed.

Lemma stable_update_self {R X} (view : UniversalMotorController -> X)
    (f : UniversalMotorController -> UniversalMotorController) :
  (forall o, view (f o) = view o) -> stable (R := R) view (update_self f).
Proof. intros Hf w. split; [apply Hf | reflexivity]. Qed.

Lemma stable_project {R A X Y} (view : UniversalMotorController -> X)
    (g : X -> Y) (m : Py R A) :
  stable view m -> stable (fun o => g (view o)) m.
Proof. intros H w. destruct (H w) as [H1 H2]. split; [congruence | exact H2]. Qed.

Lemma hal_call_class (m : hal_method) (h : controller) :
  hal_class (fst (hal_call m h)) = hal_class h.
Proof.
  destruct h as [s|s|s]; cbn [hal_call];
    match goal with
    | |- context [lift_hal _ ?r] => destruct r as [[u s'] l]
    end; reflexivity.
Qed.

(** [publish_status] leaves the whole object as it was. *)
Lemma stable_publish_status {R X} (view : UniversalMotorController -> X) :
  stable (R := R) view publish_status.
Proof.
  unfold publish_status. apply stable_try_except.
  - apply stable_bind; [apply stable_attr|]. intros h.
    apply stable_bind.
    { destruct (hal_get_status h);
        [apply stable_ret | apply stable_raise; reflexivity]. }
    intros st. apply stable_bind; [apply stable_time_time|]. intros now.
    apply stable_bind; [apply stable_config_get|]. intros ty.
    apply stable_bind; [apply stable_config_get|]. intros topic.
    apply stable_bind; [apply stable_attr|]. intros _. apply stable_emit.
  - intros e h. destruct (is_Exception e); intros [= <-]. apply stable_ret.
Qed.

Lemma stable_motor_hal_call {R} (m : hal_method) :
  stable (R := R) wiring (motor_hal_call m).
Proof.
  intros w. unfold motor_hal_call, attr. cbn [bind Monad_Py].
  destruct (motor_hal (self w)) as [h|] eqn:Hh; [|split; reflexivity].
  pose proof (hal_call_class m h) as Hc.
  destruct (hal_call m h) as [h' l]. cbn in *.
  split; [|reflexivity].
  unfold wiring. cbn. rewrite Hh. cbn. rewrite Hc. reflexivity.
Qed.

Lemma stable_execute_command {R} (cmd : string) (value : Z) :
  stable (R := R) wiring (execute_command cmd value).
Proof.
  unfold execute_command. apply stable_try_except.
  - repeat match goal with
           | |- stable _ (if ?b then _ else _) => destruct b
           end;
      first [ apply stable_motor_hal_call
            | apply stable_publish_status
            | apply stable_ret ].
  - intros e h. destruct (is_Exception e); intros [= <-]. apply stable_ret.
Qed.

Lemma stable_parse_command {X} (view : UniversalMotorController -> X)
    (command : string) :
  stable view (parse_command command).
Proof.
  unfold parse_command.
  destruct (PyStr.split_colon command) as [[cmd value]|].
  - apply stable_bind; [|intros; apply stable_ret].
    apply stable_try_except.
    + destruct (PyStr.int value);
        [apply stable_ret | apply stable_raise; reflexivity].
    + intros e h. destruct e; intros [= <-]. apply stable_return.
  - apply stable_bind; [apply stable_config_get | intros; apply stable_ret].
Qed.

Lemma stable_process_command {R} (command : string) :
  stable (R := R) wiring (process_command command).
Proof.
  unfold process_command. apply stable_def.
  apply stable_bind; [apply stable_parse_command|].
  intros [cmd value]. apply stable_execute_command.
Qed.

Lemma stable_on_message {R} (msg : payload) :
  stable (R := R) wiring (on_message msg).
Proof.
  unfold on_message. apply stable_try_except.
  - apply stable_bind.
    { destruct msg; [apply stable_ret | apply stable_raise; reflexivity]. }
    intros command. apply stable_bind; [apply stable_time_time|]. intros now.
    apply stable_bind; [apply stable_update_self; reflexivity|]. intros _.
    apply stable_process_command.
  - intros e h. destruct (is_Exception e); intros [= <-]. apply stable_ret.
Qed.

Lemma process_command_never_returns {R} (command : string) (w : world)
    (r : R) :
  fst (process_command (R := R) command w) <> Return r.
Proof. unfold process_command. apply def_never_returns. Qed.

Lemma on_message_text {R} (s : string) (w : world) :
  on_message (R := R) (Text s) w
  = try_except (process_command (PyStr.strip s))
      (fun e => if is_Exception e then Some (ret tt) else None)
      (heartbeat_refreshed w).
Proof. unfold on_message, try_except. cbn. reflexivity. Qed.

Lemma on_message_not_utf8 {R} (w : world) :
  on_message (R := R) NotUtf8 w = (Next tt, w).
Proof. reflexivity. Qed.

(** [on_message] ends normally, whatever arrives. *)
Lemma on_message_returns {R} (msg : payload) (w : world) :
  fst (on_message (R := R) msg w) = Next tt.
Proof.
  destruct msg as [s|]; [|reflexivity].
  rewrite on_message_text. unfold try_except.
  pose proof (stable_process_command (R := R) (PyStr.strip s)
                (heartbeat_refreshed w)) as [_ Hi].
  pose proof (process_command_never_returns (R := R) (PyStr.strip s)
                (heartbeat_refreshed w)) as Hr.
  destruct (process_command _ _) as [[[]|r|e] w1]; cbn in *.
  - reflexivity.
  - exfalso. apply (Hr r). reflexivity.
  - destruct e; cbn; try reflexivity. discriminate.
Qed.

(** The heartbeat after a text message is its arrival time. *)
Lemma on_message_heartbeat {R} (s : string) (w : world) :
  last_heartbeat (self (snd (on_message (R := R) (Text s) w)))
  = Some (clock w (reads w)).
Proof.
  rewrite on_message_text. unfold try_except.
  pose proof (keeps_process_command (R := R) (PyStr.strip s)
                (heartbeat_refreshed w)) as [Hk _].
  destruct (process_command _ _) as [[[]|r|e] w1]; cbn in *; try exact Hk.
  destruct e; cbn; exact Hk.
Qed.

(** ** Further properties: messages and commands *)

(** X7: [on_message] never fails, whatever the payload, and never touches
    the configuration, the MQTT client, the heartbeat settings, the thread
    handle, [running] or the class of the motor controller; a payload that
    is no UTF-8 changes nothing at all, not even the heartbeat. *)
Theorem on_message_frame (msg : payload) (w : world) :
  fst (on_message (R := unit) msg w) = Next tt /\
  wiring (self (snd (on_message (R := unit) msg w))) = wiring (self w) /\
  on_message (R := unit) NotUtf8 w = (Next tt, w).
Proof.
  split; [apply on_message_returns|].
  split; [apply (stable_on_message msg w) | reflexivity].
Qed.

(** X8: on a disconnect with [auto_stop_on_disconnect] set, the motors are
    stopped: the controller is at rest with its speed kept, and the only
    calls made are those of one [stop()].  With the flag cleared nothing
    happens. *)
Theorem disconnect_stops_motors (w : world) (c : Config) (h : controller)
    (flag : bool) :
  config (self w) = Some c ->
  auto_stop_on_disconnect c = Some flag ->
  motor_hal (self w) = Some h ->
  exists w' h',
    on_disconnect (R := unit) w = (Next tt, w') /\
    motor_hal (self w') = Some h' /\
    hal_current_speed h' = hal_current_speed h /\
    (if flag
     then hal_is_moving h' = false /\ hal_direction h' = STOPPED /\
          trace w' = trace w ++ map Hw (snd (hal_call m_stop h))
     else w' = w).
Proof.
  intros Hc Hf Hh.
  unfold on_disconnect, config_get, attr. cbn -[motor_hal_call].
  rewrite Hc. cbn -[motor_hal_call]. rewrite Hf. cbn -[motor_hal_call].
  destruct flag.
  - rewrite (motor_hal_call_ok m_stop h w Hh).
    eexists _, _. split; [reflexivity|]. split; [reflexivity|].
    destruct (stop_idempotent_state h) as [H1 [H2 H3]].
    repeat split; assumption.
  - exists w, h. repeat split; assumption.
Qed.

Lemma disconnect_stops_motors_witness :
  config (self (l298_world 50 10 (ticking 0)))
  = Some (config_with_default_speed 50) /\
  auto_stop_on_disconnect (config_with_default_speed 50) = Some true /\
  motor_hal (self (l298_world 50 10 (ticking 0)))
  = Some (initial L298Controller_class) /\
  exists w' h',
    on_disconnect (R := unit) (l298_world 50 10 (ticking 0)) = (Next tt, w') /\
    motor_hal (self w') = Some h' /\
    hal_current_speed h' = Percent 50 /\
    hal_is_moving h' = false /\ hal_direction h' = STOPPED /\
    trace w' = trace (l298_world 50 10 (ticking 0))
               ++ map Hw (snd (hal_call m_stop (initial L298Controller_class))).
Proof.
  do 3 (split; [reflexivity|]).
  exact (disconnect_stops_motors (l298_world 50 10 (ticking 0))
           (config_with_default_speed 50) (initial L298Controller_class) true
           eq_refl eq_refl eq_refl).
Defined.

(** X9: [publish_status] never fails and never changes the object.  It
    publishes one message, on the status topic, holding the status of the
    motor controller, the clock reading and the configured type, exactly
    when the controller, its status, the two configuration entries and the
    MQTT client are all there; otherwise it publishes nothing and says
    nothing. *)
Theorem publish_status_result (w : world) :
  fst (publish_status (R := unit) w) = Next tt /\
  self (snd (publish_status (R := unit) w)) = self w /\
  trace (snd (publish_status (R := unit) w))
  = trace w ++
    match motor_hal (self w), config (self w), mqtt_client (self w) with
    | Some h, Some c, Some _ =>
        match hal_get_status h, motor_controller_type c, topic_status c with
        | Some st, Some ty, Some topic =>
            [ MqttPublish topic (mkMessage st (clock w (reads w)) ty) ]
        | _, _, _ => []
        end
    | _, _, _ => []
    end.
Proof.
  destruct (motor_hal (self w)) as [h|] eqn:Hh;
    destruct (config (self w)) as [c|] eqn:Hc;
    destruct (mqtt_client (self w)) as [m|] eqn:Hm;
    try destruct (hal_get_status h) as [st|] eqn:Hst;
    try destruct (motor_controller_type c) as [ty|] eqn:Hty;
    try destruct (topic_status c) as [topic|] eqn:Hto;
    unfold publish_status, try_except, config_get, attr, raise;
    repeat (progress (cbn; rewrite ?Hh, ?Hc, ?Hm, ?Hst, ?Hty, ?Hto));
    repeat split; rewrite ?app_nil_r; reflexivity.
Qed.

(** X10: with no [default_speed_percent] in the configuration, a command
    without [:VALUE] is lost before it reaches the motors, ["STOP"] and
    ["EMERGENCY_STOP"] included: [process_command] raises [KeyError],
    [on_message] swallows it, and only the heartbeat has changed. *)
Theorem valueless_command_needs_default (w : world) (c : Config) (s : string) :
  config (self w) = Some c ->
  default_speed_percent c = None ->
  PyStr.split_colon (PyStr.upper (PyStr.strip s)) = None ->
  process_command (R := unit) (PyStr.strip s) w
  = (Raise (KeyError "default_speed_percent"), w) /\
  on_message (R := unit) (Text s) w = (Next tt, heartbeat_refreshed w).
Proof.
  intros Hc Hd Hs.
  assert (E : forall w0, config (self w0) = Some c ->
              process_command (R := unit) (PyStr.strip s) w0
              = (Raise (KeyError "default_speed_percent"), w0)).
  { intros w0 Hc0. unfold process_command, def_, parse_command. cbn.
    rewrite Hs. unfold config_get, attr. cbn. rewrite Hc0. cbn.
    rewrite Hd. reflexivity. }
  split; [apply E, Hc|].
  rewrite on_message_text. unfold try_except.
  rewrite E by exact Hc. reflexivity.
Qed.

(** *** Upper case, colons and command texts *)

Lemma upper_char_colon (c : ascii) :
  Ascii.eqb (PyStr.upper_char c) PyStr.colon = Ascii.eqb c PyStr.colon.
Proof. destruct c as [[] [] [] [] [] [] [] []]; reflexivity. Qed.

Lemma upper_char_idem (c : ascii) :
  PyStr.upper_char (PyStr.upper_char c) = PyStr.upper_char c.
Proof. destruct c as [[] [] [] [] [] [] [] []]; reflexivity. Qed.

Lemma upper_idem (s : string) : PyStr.upper (PyStr.upper s) = PyStr.upper s.
Proof.
  induction s as [|c r IH]; [reflexivity|].
  cbn [PyStr.upper]. rewrite upper_char_idem, IH. reflexivity.
Qed.

Lemma upper_app (a b : string) :
  PyStr.upper (a ++ b) = (PyStr.upper a ++ PyStr.upper b)%string.
Proof.
  induction a as [|c r IH]; [reflexivity|].
  cbn [PyStr.upper String.append]. rewrite IH. reflexivity.
Qed.

Lemma strip_upper (s : string) :
  PyStr.strip (PyStr.upper s) = PyStr.upper (PyStr.strip s).
Proof. unfold PyStr.strip. rewrite lstrip_upper, rstrip_upper. reflexivity. Qed.

Lemma split_colon_upper_none (s : string) :
  PyStr.split_colon s = None -> PyStr.split_colon (PyStr.upper s) = None.
Proof.
  induction s as [|c r IH]; [reflexivity|].
  cbn [PyStr.upper PyStr.split_colon]. rewrite upper_char_colon.
  destruct (Ascii.eqb c PyStr.colon); [discriminate|].
  destruct (PyStr.split_colon r) as [[a b]|]; [discriminate|].
  intros _. rewrite IH; reflexivity.
Qed.

Lemma split_colon_app (name vt : string) :
  PyStr.split_colon name = None ->
  PyStr.split_colon (name ++ ":" ++ vt) = Some (name, vt).
Proof.
  induction name as [|c r IH]; [reflexivity|].
  cbn [String.append PyStr.split_colon] in *.
  destruct (Ascii.eqb c PyStr.colon); [discriminate|].
  destruct (PyStr.split_colon r) as [[a b]|]; [discriminate|].
  intros _. rewrite IH; reflexivity.
Qed.

(** A command text, parsed: the word in upper case and the value. *)
Lemma process_command_text {R} (name : string) (arg : option string) (v : Z)
    (w : world) :
  PyStr.split_colon name = None ->
  command_value w arg = Some v ->
  process_command (R := R) (command_text name arg) w
  = def_ tt (execute_command (PyStr.upper name) v) w.
Proof.
  intros Hn Hv. destruct arg as [vt|]; cbn [command_text command_value] in *.
  - apply (process_command_value _ (PyStr.upper name) (PyStr.upper vt)).
    + rewrite upper_app. change (PyStr.upper (":" ++ vt)) with (":" ++ PyStr.upper vt)%string.
      apply split_colon_app, split_colon_upper_none, Hn.
    + rewrite int_upper. exact Hv.
  - destruct (config (self w)) as [c|] eqn:Hc; [|discriminate].
    apply (process_command_default _ c v); auto.
    apply split_colon_upper_none, Hn.
Qed.

(** A command text whose value is no integer changes nothing. *)
Lemma process_command_text_bad_value {R} (name vt : string) (w : world) :
  PyStr.split_colon name = None ->
  PyStr.int vt = None ->
  process_command (R := R) (name ++ ":" ++ vt) w = (Next tt, w).
Proof.
  intros Hn Hv.
  apply (process_command_bad_value _ (PyStr.upper name) (PyStr.upper vt)).
  - rewrite upper_app. change (PyStr.upper (":" ++ vt)) with (":" ++ PyStr.upper vt)%string.
    apply split_colon_app, split_colon_upper_none, Hn.
  - rewrite int_upper. exact Hv.
Qed.

Lemma execute_unknown {R} (cmd : string) (v : Z) (w : world) :
  ~ In cmd known_words ->
  execute_command (R := R) cmd v w = (Next tt, w).
Proof.
  intros Hk. unfold execute_command, try_except.
  repeat match goal with
         | |- context [String.eqb cmd ?s] =>
             destruct (String.eqb_spec cmd s) as [E|E];
             [exfalso; apply Hk; rewrite E; cbn; tauto | clear E]
         end.
  reflexivity.
Qed.

Lemma execute_stop {R} (cmd : string) (v : Z) (h : controller) (w : world) :
  In cmd stop_words ->
  motor_hal (self w) = Some h ->
  execute_command (R := R) cmd v w = (Next tt, after_hal_call m_stop h w).
Proof.
  intros Hin Hh. unfold stop_words in Hin. cbn [In] in Hin.
  repeat (destruct Hin as [Hin|Hin]; [subst cmd|]); [..|destruct Hin];
    unfold execute_command, try_except; cbn [String.eqb Ascii.eqb Bool.eqb orb];
    rewrite (motor_hal_call_ok _ h) by exact Hh; reflexivity.
Qed.

Lemma stop_words_plain (cmd : string) :
  In cmd stop_words ->
  PyStr.upper cmd = cmd /\ PyStr.split_colon cmd = None.
Proof.
  intros Hin. unfold stop_words in Hin. cbn [In] in Hin.
  repeat (destruct Hin as [Hin|Hin]; [subst cmd|]); [..|destruct Hin];
    split; reflexivity.
Qed.

(** ** Further properties: commands *)

(** X11: a command whose word is ASCII text and, in upper case, none of
    the eighteen known words changes nothing, with or without a value and
    whatever the value: no attribute, no hardware call, no message.  With
    a value, or with a default speed configured, it also ends normally. *)
Theorem unknown_command_changes_nothing (w : world) (name : string)
    (arg : option string) :
  PyStr.is_ascii name = true ->
  PyStr.split_colon name = None ->
  ~ In (PyStr.upper name) known_words ->
  snd (process_command (R := unit) (command_text name arg) w) = w /\
  (arg <> None \/ command_value w None <> None ->
   process_command (R := unit) (command_text name arg) w = (Next tt, w)).
Proof.
  intros _ Hn Hk.
  assert (Hgood : forall v, command_value w arg = Some v ->
            process_command (R := unit) (command_text name arg) w = (Next tt, w)).
  { intros v Hv. rewrite (process_command_text name arg v w Hn Hv).
    unfold def_. rewrite (execute_unknown _ v w Hk). reflexivity. }
  destruct arg as [vt|].
  - assert (E : process_command (R := unit) (command_text name (Some vt)) w
                = (Next tt, w)).
    { destruct (PyStr.int vt) as [v|] eqn:Hv.
      - apply (Hgood v). exact Hv.
      - apply process_command_text_bad_value; assumption. }
    rewrite E. split; [reflexivity | intros _; reflexivity].
  - destruct (command_value w None) as [v|] eqn:Hv.
    + rewrite (Hgood v eq_refl). split; [reflexivity | intros _; reflexivity].
    + split; [|intros [H|H]; congruence].
      cbn [command_text command_value] in *.
      unfold process_command, def_, parse_command. cbn [bind Monad_Py].
      rewrite (split_colon_upper_none name Hn).
      unfold config_get, attr. cbn [bind Monad_Py].
      destruct (config (self w)) as [c|]; [|reflexivity].
      cbn. rewrite Hv. reflexivity.
Qed.

Lemma unknown_command_changes_nothing_witness :
  PyStr.is_ascii "q" = true /\
  PyStr.split_colon "q" = None /\
  ~ In (PyStr.upper "q") known_words /\
  command_value (l298_world 50 10 (ticking 0)) None <> None /\
  process_command (R := unit) "q" (l298_world 50 10 (ticking 0))
  = (Next tt, l298_world 50 10 (ticking 0)).
Proof.
  assert (Hk : ~ In (PyStr.upper "q") known_words).
  { cbn. intros H.
    repeat (destruct H as [H|H]; [discriminate H|]). exact H. }
  assert (Hd : command_value (l298_world 50 10 (ticking 0)) None <> None)
    by discriminate.
  split; [reflexivity|]. split; [reflexivity|]. split; [exact Hk|].
  split; [exact Hd|].
  exact (proj2 (unknown_command_changes_nothing (l298_world 50 10 (ticking 0))
                  "q" None eq_refl eq_refl Hk) (or_intror Hd)).
Defined.

(** X12: each of ["STOP"], ["EMERGENCY_STOP"], ["E_STOP"] and ["S"] calls
    [stop()] once, with or without a value, and the value is ignored; but
    the value has to be one [int] accepts (within the interpreter's limit
    on digits): with ASCII text that is no integer after the colon the
    command is dropped and nothing is stopped. *)
Theorem stop_commands (w : world) (h : controller) (cmd : string)
    (arg : option string) (v : Z) :
  In cmd stop_words ->
  motor_hal (self w) = Some h ->
  (command_value w arg = Some v ->
   (forall vt, arg = Some vt ->
               (PyStr.digit_count vt <= PyStr.max_str_digits)%nat) ->
   process_command (R := unit) (command_text cmd arg) w
   = (Next tt, after_hal_call m_stop h w)) /\
  (forall vt, PyStr.is_ascii vt = true -> PyStr.int vt = None ->
   process_command (R := unit) (cmd ++ ":" ++ vt) w = (Next tt, w)).
Proof.
  intros Hin Hh. destruct (stop_words_plain cmd Hin) as [Hup Hn].
  split.
  - intros Hv _. rewrite (process_command_text cmd arg v w Hn Hv).
    rewrite Hup. unfold def_. rewrite (execute_stop cmd v h w Hin Hh).
    reflexivity.
  - intros vt _ Hv. apply process_command_text_bad_value; assumption.
Qed.

(** X13: ["SPEED:VALUE"], for a value [int] accepts (within the
    interpreter's limit on digits), is [set_speed]: the speed becomes the
    value clamped to 0..100 (below 0 gives 0, above 100 gives 100),
    direction and [is_moving] stay; a plain ["SPEED"] sets the configured
    default speed. *)
Theorem speed_command (w : world) (h : controller) (arg : option string)
    (v : Z) :
  motor_hal (self w) = Some h ->
  command_value w arg = Some v ->
  (forall vt, arg = Some vt ->
              (PyStr.digit_count vt <= PyStr.max_str_digits)%nat) ->
  process_command (R := unit) (command_text "SPEED" arg) w
  = (Next tt, after_hal_call (m_set_speed v) h w) /\
  hal_current_speed (fst (hal_call (m_set_speed v) h))
  = stored_speed h (Z.max 0 (Z.min 100 v)) /\
  hal_direction (fst (hal_call (m_set_speed v) h)) = hal_direction h /\
  hal_is_moving (fst (hal_call (m_set_speed v) h)) = hal_is_moving h.
Proof.
  intros Hh Hv _. split.
  - rewrite (process_command_text "SPEED" arg v w eq_refl Hv).
    unfold def_, execute_command, try_except.
    change (PyStr.upper "SPEED") with "SPEED".
    cbn [String.eqb Ascii.eqb Bool.eqb orb].
    rewrite (motor_hal_call_ok _ h) by exact Hh. reflexivity.
  - rewrite <- clamp_max_min.
    destruct h as [s|s|s]; destruct s as [x d [|]]; try destruct d;
      repeat split; reflexivity.
Qed.

(** X14: commands are read without regard to case: a message and the same
    message in upper case are handled alike. *)
Theorem commands_ignore_case (s : string) (w : world) :
  on_message (R := unit) (Text (PyStr.upper s)) w
  = on_message (R := unit) (Text s) w.
Proof.
  rewrite !on_message_text. rewrite strip_upper.
  unfold try_except, process_command. rewrite upper_idem. reflexivity.
Qed.

(** ** Further properties: construction, monitor, publisher, shutdown *)

(** X15: how construction ends.  Invalid JSON ends it with the decode
    error before anything is assigned.  Otherwise the configuration read
    (the default one for a missing file) decides: no ["type"] entry gives
    [KeyError]; a type that is, in lower case, none of [motozero], [l298],
    [camjam] gives [ValueError]; a module that can be imported neither as
    [motor.hal.X] nor as [hal.X] gives [ImportError]; in all three cases
    the object has its configuration but its [motor_hal] is as before.
    Else construction succeeds with a new controller of the named class. *)
Theorem construction_outcomes (config_file : string) (w : world) :
  match files w config_file with
  | BadJson => __init__ (R := unit) config_file w = (Raise JSONDecodeError, w)
  | found =>
      let c := match found with Json c => c | _ => get_default_config end in
      let w' := snd (__init__ (R := unit) config_file w) in
      config (self w') = Some c /\
      match construction w c with
      | inl e => fst (__init__ (R := unit) config_file w) = Raise e /\
                 motor_hal (self w') = motor_hal (self w)
      | inr class_name =>
          fst (__init__ (R := unit) config_file w) = Next tt /\
          motor_hal (self w') = Some (initial class_name)
      end
  end.
Proof.
  assert (G : forall c, load_config (R := unit) config_file w = (Next c, w) ->
    let w' := snd (__init__ (R := unit) config_file w) in
    config (self w') = Some c /\
    match construction w c with
    | inl e => fst (__init__ (R := unit) config_file w) = Raise e /\
               motor_hal (self w') = motor_hal (self w)
    | inr class_name =>
        fst (__init__ (R := unit) config_file w) = Next tt /\
        motor_hal (self w') = Some (initial class_name)
    end).
  { intros c Hl. unfold __init__, construction.
    cbn -[load_config _create_motor_controller PyStr.lower lookup].
    rewrite Hl. unfold config_get, attr, update_self, raise.
    cbn -[_create_motor_controller PyStr.lower lookup].
    destruct (motor_controller_type c) as [ty|];
      cbn -[_create_motor_controller PyStr.lower lookup]; [|repeat split].
    unfold _create_motor_controller, def_, raise, return_.
    destruct (lookup (PyStr.lower ty) controller_map)
      as [[module_name class_name]|];
      cbn -[instantiate PyStr.lower lookup]; [|repeat split].
    unfold try_except, import_, raise. cbn -[instantiate PyStr.lower lookup].
    destruct (importable w _); cbn -[instantiate PyStr.lower lookup].
    - rewrite instantiate_result. cbn. repeat split.
    - destruct (importable w _); cbn -[instantiate PyStr.lower lookup];
        [|repeat split].
      rewrite instantiate_result. cbn. repeat split. }
  destruct (files w config_file) as [| |c] eqn:Hf.
  - apply G. unfold load_config, try_except, open_and_load. rewrite Hf. reflexivity.
  - unfold __init__, load_config, try_except, open_and_load. cbn.
    rewrite Hf. reflexivity.
  - apply G. unfold load_config, try_except, open_and_load. rewrite Hf. reflexivity.
Qed.

(** *** The monitor loop *)


Lemma wiring_fields (o o' : UniversalMotorController) :
  wiring o' = wiring o ->
  heartbeat_monitoring o' = heartbeat_monitoring o /\
  heartbeat_timeout o' = heartbeat_timeout o /\
  running o' = running o /\
  mqtt_client o' = mqtt_client o /\
  config o' = config o.
Proof. unfold wiring. intros H. inversion H. repeat split; assumption. Qed.






(** X20: a message keeps the monitor quiet: on a pass that reads the
    clock no more than the timeout after a text message arrived, the
    monitor calls nothing on the motors. *)
Theorem message_keeps_monitor_quiet (w : world) (s : string) (t : Z) :
  heartbeat_monitoring (self w) = Some true ->
  heartbeat_timeout (self w) = Some t ->
  let w1 := snd (on_message (R := unit) (Text s) w) in
  (clock w1 (reads w1) - clock w (reads w) <= inject_Z t)%Q ->
  heartbeat_monitor_body (R := unit) w1 = (Next tt, after_quiet_pass w1).
Proof.
  intros Hb Ht w1 Hin.
  destruct (wiring_fields _ _ (proj1 (stable_on_message (R := unit) (Text s) w)))
    as [Hb1 [Ht1 _]].
  apply (monitor_pass_in_time w1 (clock w (reads w)) t).
  - unfold w1. rewrite Hb1. exact Hb.
  - apply on_message_heartbeat.
  - unfold w1. rewrite Ht1. exact Ht.
  - exact Hin.
Qed.

(** *** Shutdown *)

Lemma deliver_result (msgs : list payload) : forall w : world,
  fst (deliver (R := unit) msgs w) = Next tt /\
  wiring (self (snd (deliver (R := unit) msgs w))) = wiring (self w).
Proof.
  induction msgs as [|m r IH]; intros w; [split; reflexivity|].
  cbn [deliver bind Monad_Py].
  pose proof (on_message_returns (R := unit) m w) as H1.
  pose proof (proj1 (stable_on_message (R := unit) m w)) as H2.
  destruct (on_message m w) as [f w1]. cbn in H1, H2. subst f.
  destruct (IH w1) as [H3 H4]. split; [exact H3 | congruence].
Qed.

(** The class of the controller and the client survive the body of
    [run], which ends normally under its two [except] clauses however
    [connect] and [loop_forever] end. *)
Lemma run_until_body_result (connect loop : call_end) (w : world)
    (body : Py unit unit) :
  body = (broker <- config_get "broker" mqtt_broker ;;
          port <- config_get "port" mqtt_port ;;
          _ <- attr "mqtt_client" mqtt_client ;;
          emit (MqttConnect broker port 60) ;;
          end_call connect ;;
          update_self (set_running true) ;;
          start_status_publisher ;;
          start_heartbeat_monitor ;;
          loop_forever_until loop) ->
  exists w1,
    try_except body
      (fun e => match e with
                | KeyboardInterrupt => Some (ret tt)
                | _ => Some (ret tt)
                end) w = (Next tt, w1) /\
    mqtt_client (self w1) = mqtt_client (self w) /\
    option_map hal_class (motor_hal (self w1))
    = option_map hal_class (motor_hal (self w)).
Proof.
  intros ->.
  unfold start_status_publisher, start_heartbeat_monitor, loop_forever_until,
    take_inbox, end_call.
  unfold try_except, config_get, update_self, emit.
  unfold attr, raise.
  cbn -[deliver].
  destruct (config (self w)) as [c|] eqn:Hc; cbn -[deliver];
    [|eexists; split; [reflexivity|]; split; reflexivity].
  destruct (mqtt_broker c) as [broker|]; cbn -[deliver];
    [|eexists; split; [reflexivity|]; split; reflexivity].
  rewrite ?Hc. cbn -[deliver].
  destruct (mqtt_port c) as [port|]; cbn -[deliver];
    [|eexists; split; [reflexivity|]; split; reflexivity].
  destruct (mqtt_client (self w)) as [m|] eqn:Hm; cbn -[deliver];
    [|eexists; split; [reflexivity|]; split; [exact Hm | reflexivity]].
  destruct connect as [|ce]; cbn -[deliver];
    [|destruct ce; eexists; (split; [reflexivity|]);
      (split; [exact Hm | reflexivity])].
  destruct (heartbeat_monitoring (self w)) as [[|]|]; cbn -[deliver];
    rewrite ?Hm; cbn -[deliver];
    try (eexists; split; [reflexivity|]; split; [exact Hm | reflexivity]).
  - match goal with |- context [deliver ?i ?w0] =>
      destruct (deliver_result i w0) as [D1 D2];
      destruct (deliver i w0) as [f w1]
    end.
    cbn in D1, D2. subst f. unfold wiring in D2. cbn in D2. inversion D2.
    destruct loop as [|le]; [|destruct le]; cbn;
      (eexists; split; [reflexivity|]; split; congruence).
  - match goal with |- context [deliver ?i ?w0] =>
      destruct (deliver_result i w0) as [D1 D2];
      destruct (deliver i w0) as [f w1]
    end.
    cbn in D1, D2. subst f. unfold wiring in D2. cbn in D2. inversion D2.
    destruct loop as [|le]; [|destruct le]; cbn;
      (eexists; split; [reflexivity|]; split; congruence).
Qed.

(** [run] is the run that connects and is ended by Ctrl-C. *)
Lemma run_is_interrupted_run (w : world) :
  run_until (R := unit) Returns (Raises KeyboardInterrupt) w = run (R := unit) w.
Proof. reflexivity. Qed.

(** What [stop()] followed by [cleanup()] leaves of a controller. *)
Lemma stopped_and_cleaned (h : controller) :
  let h' := fst (hal_call m_cleanup (fst (hal_call m_stop h))) in
  hal_class h' = hal_class h /\
  hal_is_moving h' = false /\
  hal_direction h' = STOPPED /\
  hal_current_speed h' = hal_current_speed h.
Proof. destruct h as [s|s|s]; destruct s; repeat split; reflexivity. Qed.

(** [cleanup] on an object that has a motor controller. *)
Lemma cleanup_result (w : world) (h : controller) :
  motor_hal (self w) = Some h ->
  let w' := snd (cleanup (R := unit) w) in
  let calls := snd (hal_call m_stop h)
               ++ snd (hal_call m_cleanup (fst (hal_call m_stop h))) in
  running (self w') = Some false /\
  motor_hal (self w') = Some (fst (hal_call m_cleanup (fst (hal_call m_stop h)))) /\
  match mqtt_client (self w) with
  | Some _ => fst (cleanup (R := unit) w) = Next tt /\
              trace w' = trace w ++ map Hw calls ++ [MqttDisconnect]
  | None => fst (cleanup (R := unit) w) = Raise (AttributeError "mqtt_client") /\
            trace w' = trace w ++ map Hw calls
  end.
Proof.
  intros Hh. cbv zeta.
  unfold cleanup. cbn -[motor_hal_call].
  erewrite motor_hal_call_ok by (cbn; exact Hh).
  erewrite motor_hal_call_ok by (cbn; reflexivity).
  unfold attr. cbn.
  destruct (mqtt_client (self w)); cbn;
    (split; [reflexivity|]); (split; [reflexivity|]);
    (split; [reflexivity|]);
    rewrite map_app, <- ?app_assoc; reflexivity.
Qed.

(** X19: [cleanup] stops the motors before it touches the MQTT client:
    with a motor controller it always sets [running] to false and issues
    the hardware calls of [stop()] and then those of the controller's
    [cleanup()], which leave the controller at rest; with a client it then
    disconnects and ends normally, and without one it ends in
    [AttributeError] after the same hardware calls. *)
Theorem cleanup_stops_first (w : world) (h : controller) :
  motor_hal (self w) = Some h ->
  let w' := snd (cleanup (R := unit) w) in
  let h' := fst (hal_call m_cleanup (fst (hal_call m_stop h))) in
  let calls := snd (hal_call m_stop h)
               ++ snd (hal_call m_cleanup (fst (hal_call m_stop h))) in
  running (self w') = Some false /\
  motor_hal (self w') = Some h' /\
  hal_class h' = hal_class h /\
  hal_is_moving h' = false /\ hal_direction h' = STOPPED /\
  hal_current_speed h' = hal_current_speed h /\
  calls <> [] /\
  match mqtt_client (self w) with
  | Some _ => fst (cleanup (R := unit) w) = Next tt /\
              trace w' = trace w ++ map Hw calls ++ [MqttDisconnect]
  | None => fst (cleanup (R := unit) w) = Raise (AttributeError "mqtt_client") /\
            trace w' = trace w ++ map Hw calls
  end.
Proof.
  intros Hh. cbv zeta.
  destruct (cleanup_result w h Hh) as [R1 [R2 R3]].
  destruct (stopped_and_cleaned h) as [S0 [S1 [S2 S3]]].
  split; [exact R1|]. split; [exact R2|]. split; [exact S0|].
  split; [exact S1|]. split; [exact S2|]. split; [exact S3|].
  split; [|exact R3].
  destruct h as [s|s|s]; destruct s; discriminate.
Qed.

(** X17: [run()] on an object that has a motor controller and an MQTT
    client ends normally and in [cleanup] whenever its two calls into the
    client end, however they end: [connect] may return or raise, and
    [loop_forever] may return, be interrupted by Ctrl-C or raise, after any
    messages it has delivered, whatever the configuration holds.  Then
    [running] is false, the controller is at rest, and the last calls made
    are those of [stop()], of the controller's [cleanup()] and the
    disconnect. *)
Theorem run_ends_stopped (connect loop : call_end) (w : world)
    (h : controller) (m : MqttClient) :
  motor_hal (self w) = Some h ->
  mqtt_client (self w) = Some m ->
  exists w' h1 before,
    run_until (R := unit) connect loop w = (Next tt, w') /\
    running (self w') = Some false /\
    hal_class h1 = hal_class h /\
    motor_hal (self w')
    = Some (fst (hal_call m_cleanup (fst (hal_call m_stop h1)))) /\
    hal_is_moving (fst (hal_call m_cleanup (fst (hal_call m_stop h1)))) = false /\
    hal_direction (fst (hal_call m_cleanup (fst (hal_call m_stop h1)))) = STOPPED /\
    trace w'
    = before
      ++ map Hw (snd (hal_call m_stop h1)
                 ++ snd (hal_call m_cleanup (fst (hal_call m_stop h1))))
      ++ [MqttDisconnect].
Proof.
  intros Hh Hm. unfold run_until, try_finally.
  destruct (run_until_body_result connect loop w _ eq_refl) as [w1 [E [Hm1 Hc1]]].
  rewrite E. rewrite Hm in Hm1. rewrite Hh in Hc1. cbn in Hc1.
  destruct (motor_hal (self w1)) as [h1|] eqn:Hh1; [|discriminate].
  injection Hc1 as Hc1.
  destruct (cleanup_result w1 h1 Hh1) as [R1 [R2 R3]].
  destruct (stopped_and_cleaned h1) as [_ [S1 [S2 _]]].
  rewrite Hm1 in R3. destruct R3 as [R3 R4].
  destruct (cleanup w1) as [f w2]. cbn in *. subst f.
  exists w2, h1, (trace w1).
  split; [reflexivity|]. split; [exact R1|]. split; [exact Hc1|].
  split; [exact R2|]. split; [exact S1|]. split; [exact S2|]. exact R4.
Qed.

(** *** The status publisher *)

(** What one [publish_status] does. *)
Lemma publish_status_effect (w : world) :
  fst (publish_status (R := unit) w) = Next tt /\
  self (snd (publish_status (R := unit) w)) = self w /\
  trace (snd (publish_status (R := unit) w))
  = trace w ++
    match motor_hal (self w), config (self w), mqtt_client (self w) with
    | Some h, Some c, Some _ =>
        match hal_get_status h, motor_controller_type c, topic_status c with
        | Some st, Some ty, Some topic =>
            [ MqttPublish topic (mkMessage st (clock w (reads w)) ty) ]
        | _, _, _ => []
        end
    | _, _, _ => []
    end.
Proof.
  destruct (motor_hal (self w)) as [h|] eqn:Hh;
    destruct (config (self w)) as [c|] eqn:Hc;
    destruct (mqtt_client (self w)) as [m|] eqn:Hm;
    try destruct (hal_get_status h) as [st|] eqn:Hst;
    try destruct (motor_controller_type c) as [ty|] eqn:Hty;
    try destruct (topic_status c) as [topic|] eqn:Hto;
    unfold publish_status, try_except, config_get, attr, raise;
    repeat (progress (cbn; rewrite ?Hh, ?Hc, ?Hm, ?Hst, ?Hty, ?Hto));
    repeat split; rewrite ?app_nil_r; reflexivity.
Qed.

Lemma publisher_step (n : nat) (w : world) :
  running (self w) = Some true ->
  status_publisher (R := unit) (S n) w
  = status_publisher (R := unit) n
      (snd (time_sleep (R := unit) 2 (snd (publish_status (R := unit) w)))).
Proof.
  intros Hr. cbn [status_publisher]. unfold attr. cbn [bind Monad_Py].
  rewrite Hr.
  pose proof (proj1 (publish_status_effect w)) as H1.
  destruct (publish_status w) as [f w1]. cbn in H1. subst f. reflexivity.
Qed.

Lemma publisher_not_running (n : nat) (w : world) :
  running (self w) = Some false ->
  status_publisher (R := unit) n w = (Next tt, w).
Proof.
  intros Hr. destruct n; [reflexivity|].
  cbn [status_publisher]. unfold attr. cbn [bind Monad_Py].
  rewrite Hr. reflexivity.
Qed.

Lemma publisher_loop (n : nat) : forall (w : world) (r : bool),
  running (self w) = Some r ->
  fst (status_publisher (R := unit) n w) = Next tt /\
  self (snd (status_publisher (R := unit) n w)) = self w /\
  clock (snd (status_publisher (R := unit) n w)) = clock w /\
  forall h c m st ty topic,
    r = true ->
    motor_hal (self w) = Some h -> config (self w) = Some c ->
    mqtt_client (self w) = Some m -> hal_get_status h = Some st ->
    motor_controller_type c = Some ty -> topic_status c = Some topic ->
    trace (snd (status_publisher (R := unit) n w))
    = trace w ++ published topic st ty (clock w) (reads w) n.
Proof.
  induction n as [|n IH]; intros w r Hr.
  - cbn. repeat split. intros. rewrite app_nil_r. reflexivity.
  - destruct r.
    + rewrite (publisher_step n w Hr).
      destruct (publish_status_effect w) as [P1 [P2 P3]].
      set (w1 := snd (time_sleep (R := unit) 2 (snd (publish_status (R := unit) w)))).
      assert (Hs : self w1 = self w) by (unfold w1; cbn; exact P2).
      assert (Hr1 : running (self w1) = Some true) by (rewrite Hs; exact Hr).
      destruct (IH w1 true Hr1) as [F1 [F2 [F3 F4]]].
      split; [exact F1|]. split; [congruence|].
      assert (Hck : clock w1 = clock w /\
                    forall h c m st ty topic,
                      motor_hal (self w) = Some h -> config (self w) = Some c ->
                      mqtt_client (self w) = Some m -> hal_get_status h = Some st ->
                      motor_controller_type c = Some ty -> topic_status c = Some topic ->
                      reads w1 = S (reads w)).
      { unfold w1. unfold publish_status, try_except, config_get, attr, raise.
        destruct (motor_hal (self w)) as [h|] eqn:Hh;
          destruct (config (self w)) as [c|] eqn:Hc;
          destruct (mqtt_client (self w)) as [m|] eqn:Hm;
          try destruct (hal_get_status h) as [st|] eqn:Hst;
          try destruct (motor_controller_type c) as [ty|] eqn:Hty;
          try destruct (topic_status c) as [topic|] eqn:Hto;
          repeat (progress (cbn; rewrite ?Hh, ?Hc, ?Hm, ?Hst, ?Hty, ?Hto));
          split; try reflexivity; intros; congruence. }
      destruct Hck as [Hck Hrd].
      split; [congruence|].
      intros h c m st ty topic _ Hh Hc Hm Hst Hty Hto.
      rewrite (F4 h c m st ty topic eq_refl) by (rewrite ?Hs; assumption).
      rewrite Hck, (Hrd h c m st ty topic) by assumption.
      unfold w1. cbn [published]. cbn. rewrite P3, Hh, Hc, Hm, Hst, Hty, Hto.
      rewrite <- !app_assoc. reflexivity.
    + rewrite (publisher_not_running (S n) w Hr). cbn.
      repeat split. intros. discriminate.
Qed.

(** X18: the status publisher only reports: for any number of passes it
    ends normally and leaves the object exactly as it was, and it does
    nothing at all once [running] is false.  While [running] is true and
    the controller, the configuration entries and the client are there,
    each pass publishes the status once, stamped with the next clock
    reading, and sleeps two seconds. *)
Theorem publisher_only_reports (n : nat) (w : world) (r : bool) :
  running (self w) = Some r ->
  fst (status_publisher (R := unit) n w) = Next tt /\
  self (snd (status_publisher (R := unit) n w)) = self w /\
  (r = false -> snd (status_publisher (R := unit) n w) = w) /\
  forall h c m st ty topic,
    r = true ->
    motor_hal (self w) = Some h -> config (self w) = Some c ->
    mqtt_client (self w) = Some m -> hal_get_status h = Some st ->
    motor_controller_type c = Some ty -> topic_status c = Some topic ->
    trace (snd (status_publisher (R := unit) n w))
    = trace w ++ published topic st ty (clock w) (reads w) n.
Proof.
  intros Hr. destruct (publisher_loop n w r Hr) as [F1 [F2 [_ F4]]].
  split; [exact F1|]. split; [exact F2|]. split; [|exact F4].
  intros ->. rewrite (publisher_not_running n w Hr). reflexivity.
Qed.

(** *** Witnesses *)

Lemma valueless_command_needs_default_witness :
  PyStr.split_colon (PyStr.upper (PyStr.strip "stop")) = None /\
  on_message (R := unit) (Text "stop") no_default_world
  = (Next tt, heartbeat_refreshed no_default_world) /\
  hal_is_moving (fst (hal_call (m_start_forward (Some 60))
                        (initial L298Controller_class))) = true.
Proof.
  split; [reflexivity|]. split; [|reflexivity].
  exact (proj2 (valueless_command_needs_default no_default_world _ "stop"
                  eq_refl eq_refl eq_refl)).
Defined.

Lemma stop_commands_witness :
  In "E_STOP" stop_words /\
  command_value (ready_world []) (Some "0") = Some 0 /\
  (PyStr.digit_count "0" <= PyStr.max_str_digits)%nat /\
  process_command (R := unit) "E_STOP:0" (ready_world [])
  = (Next tt,
     after_hal_call m_stop
       (fst (hal_call (m_start_forward (Some 60)) (initial L298Controller_class)))
       (ready_world [])) /\
  PyStr.is_ascii "now" = true /\ PyStr.int "now" = None /\
  process_command (R := unit) "E_STOP:now" (ready_world [])
  = (Next tt, ready_world []).
Proof.
  assert (Hin : In "E_STOP" stop_words) by (cbn; tauto).
  assert (Hl : (PyStr.digit_count "0" <= PyStr.max_str_digits)%nat)
    by (apply Nat.leb_le; reflexivity).
  pose proof (stop_commands (ready_world []) _ "E_STOP" (Some "0") 0
                Hin eq_refl) as [H1 H2].
  split; [exact Hin|]. split; [reflexivity|]. split; [exact Hl|].
  split.
  - apply (H1 eq_refl). intros vt E. injection E as <-. exact Hl.
  - split; [reflexivity|]. split; [reflexivity|].
    exact (H2 "now" eq_refl eq_refl).
Defined.

Lemma speed_command_witness :
  command_value (ready_world []) (Some "250") = Some 250 /\
  (PyStr.digit_count "250" <= PyStr.max_str_digits)%nat /\
  process_command (R := unit) "SPEED:250" (ready_world [])
  = (Next tt,
     after_hal_call (m_set_speed 250)
       (fst (hal_call (m_start_forward (Some 60)) (initial L298Controller_class)))
       (ready_world [])) /\
  hal_current_speed
    (fst (hal_call (m_set_speed 250)
            (fst (hal_call (m_start_forward (Some 60))
                    (initial L298Controller_class)))))
  = Percent 100.
Proof.
  assert (Hl : (PyStr.digit_count "250" <= PyStr.max_str_digits)%nat)
    by (apply Nat.leb_le; reflexivity).
  split; [reflexivity|]. split; [exact Hl|].
  destruct (speed_command (ready_world []) _ (Some "250") 250 eq_refl eq_refl)
    as [H1 [H2 _]].
  - intros vt E. injection E as <-. exact Hl.
  - split; [exact H1 | exact H2].
Defined.

Lemma message_keeps_monitor_quiet_witness :
  heartbeat_monitoring (self (ready_world [])) = Some true /\
  heartbeat_timeout (self (ready_world [])) = Some 10 /\
  heartbeat_monitor_body (R := unit)
    (snd (on_message (R := unit) (Text "STATUS") (ready_world [])))
  = (Next tt,
     after_quiet_pass (snd (on_message (R := unit) (Text "STATUS") (ready_world [])))).
Proof.
  split; [reflexivity|]. split; [reflexivity|].
  apply (message_keeps_monitor_quiet (ready_world []) "STATUS" 10 eq_refl eq_refl).
  vm_compute. discriminate.
Defined.

Lemma cleanup_stops_first_witness :
  motor_hal (self no_default_world)
  = Some (fst (hal_call (m_start_forward (Some 60)) (initial L298Controller_class))) /\
  mqtt_client (self no_default_world) = None /\
  fst (cleanup (R := unit) no_default_world) = Raise (AttributeError "mqtt_client") /\
  trace (snd (cleanup (R := unit) no_default_world))
  = map Hw
      (snd (hal_call m_stop
              (fst (hal_call (m_start_forward (Some 60))
                      (initial L298Controller_class))))
       ++ snd (hal_call m_cleanup
                 (fst (hal_call m_stop
                         (fst (hal_call (m_start_forward (Some 60))
                                 (initial L298Controller_class))))))).
Proof.
  split; [reflexivity|]. split; [reflexivity|].
  pose proof (cleanup_stops_first no_default_world _ eq_refl) as H.
  cbv zeta in H. destruct H as [_ [_ [_ [_ [_ [_ [_ H]]]]]]].
  change (mqtt_client (self no_default_world)) with (@None MqttClient) in H.
  exact H.
Defined.

Lemma run_ends_stopped_witness :
  motor_hal (self (ready_world [Text "start_left:30"; NotUtf8]))
  = Some (fst (hal_call (m_start_forward (Some 60)) (initial L298Controller_class))) /\
  mqtt_client (self (ready_world [Text "start_left:30"; NotUtf8]))
  = Some (mkClient true true true) /\
  fst (run_until (R := unit) Returns (Raises KeyboardInterrupt)
         (ready_world [Text "start_left:30"; NotUtf8])) = Next tt /\
  fst (run_until (R := unit) (Raises ImportError) Returns
         (ready_world [Text "start_left:30"; NotUtf8])) = Next tt.
Proof.
  split; [reflexivity|]. split; [reflexivity|]. split.
  - destruct (run_ends_stopped Returns (Raises KeyboardInterrupt)
                (ready_world [Text "start_left:30"; NotUtf8]) _ _
                eq_refl eq_refl) as [w' [h' [before [E _]]]].
    rewrite E. reflexivity.
  - destruct (run_ends_stopped (Raises ImportError) Returns
                (ready_world [Text "start_left:30"; NotUtf8]) _ _
                eq_refl eq_refl) as [w' [h' [before [E _]]]].
    rewrite E. reflexivity.
Defined.

Lemma publisher_only_reports_witness :
  running (self reporting_world) = Some true /\
  trace (snd (status_publisher (R := unit) 2 reporting_world))
  = [ MqttPublish "hov/motor/status"
        (mkMessage (mkStatus 60 FORWARD true []) (inject_Z 0) "l298");
      Sleep 2;
      MqttPublish "hov/motor/status"
        (mkMessage (mkStatus 60 FORWARD true []) (inject_Z 1) "l298");
      Sleep 2 ] /\
  running (self (ready_world [])) = Some false /\
  snd (status_publisher (R := unit) 5 (ready_world [])) = ready_world [].
Proof.
  split; [reflexivity|]. split.
  - exact (proj2 (proj2 (proj2 (publisher_only_reports 2 reporting_world true
                                  eq_refl)))
             _ (config_with_default_speed 50) (mkClient true true true)
             (mkStatus 60 FORWARD true []) "l298" "hov/motor/status"
             eq_refl eq_refl eq_refl eq_refl eq_refl eq_refl eq_refl).
  - split; [reflexivity|].
    exact (proj1 (proj2 (proj2 (publisher_only_reports 5 (ready_world []) false
                                  eq_refl))) eq_refl).
Defined.

(** ** The operator's window *)

(** *** Numbers as text *)

Lemma lstrip_no_space s : no_space s = true -> PyStr.lstrip s = s.
Proof.
  destruct s as [|c r]; [reflexivity|]. cbn [no_space PyStr.lstrip].
  destruct (PyStr.is_space c); [discriminate | reflexivity].
Qed.

Lemma rstrip_no_space s : no_space s = true -> PyStr.rstrip s = s.
Proof.
  induction s as [|c r IH]; [reflexivity|]. cbn [no_space PyStr.rstrip].
  destruct (PyStr.is_space c) eqn:E; [discriminate|]. cbn [negb andb].
  intros H. rewrite (IH H). destruct r; reflexivity.
Qed.

Lemma strip_no_space s : no_space s = true -> PyStr.strip s = s.
Proof.
  intros H. unfold PyStr.strip. rewrite (lstrip_no_space s H). apply rstrip_no_space, H.
Qed.

Lemma int_space_is_space (c : ascii) :
  PyStr.is_space c = false -> PyStr.is_int_space c = false.
Proof.
  destruct c as [[] [] [] [] [] [] [] []]; vm_compute; intros H;
    first [reflexivity | discriminate H].
Qed.

Lemma int_strip_no_space s : no_space s = true -> PyStr.int_strip s = s.
Proof.
  intros H. unfold PyStr.int_strip.
  assert (Hl : PyStr.int_lstrip s = s).
  { destruct s as [|c r]; [reflexivity|]. cbn [no_space PyStr.int_lstrip] in *.
    destruct (PyStr.is_space c) eqn:E; [discriminate|].
    rewrite (int_space_is_space c E). reflexivity. }
  rewrite Hl. clear Hl.
  induction s as [|c r IH]; [reflexivity|]. cbn [no_space PyStr.int_rstrip] in *.
  destruct (PyStr.is_space c) eqn:E; [discriminate|]. cbn [negb andb] in H.
  rewrite (IH H), (int_space_is_space c E). destruct r; reflexivity.
Qed.

Lemma uint_no_space d : no_space (NilEmpty.string_of_uint d) = true.
Proof. induction d; cbn [NilEmpty.string_of_uint no_space]; rewrite ?IHd; reflexivity. Qed.

Lemma digits_uint d : forall acc,
  PyStr.digits (NilEmpty.string_of_uint d) acc true = Some (uint_value d acc).
Proof.
  induction d; intros acc; cbn [NilEmpty.string_of_uint PyStr.digits uint_value];
    [reflexivity|..];
    (change (PyStr.digit_of _) with (Some 0) ||
     change (PyStr.digit_of _) with (Some 1) ||
     change (PyStr.digit_of _) with (Some 2) ||
     change (PyStr.digit_of _) with (Some 3) ||
     change (PyStr.digit_of _) with (Some 4) ||
     change (PyStr.digit_of _) with (Some 5) ||
     change (PyStr.digit_of _) with (Some 6) ||
     change (PyStr.digit_of _) with (Some 7) ||
     change (PyStr.digit_of _) with (Some 8) ||
     change (PyStr.digit_of _) with (Some 9));
    cbv iota beta; apply IHd.
Qed.

Lemma uint_value_pos d : forall acc,
  uint_value d (Zpos acc) = Zpos (Pos.of_uint_acc d acc).
Proof.
  induction d; intros acc; cbn [uint_value Pos.of_uint_acc]; [reflexivity|..];
    rewrite <- IHd; f_equal; lia.
Qed.

Lemma uint_value_zero d : uint_value d 0 = Z.of_N (Pos.of_uint d).
Proof.
  induction d; cbn [uint_value Pos.of_uint]; [reflexivity|exact IHd|..];
    change (10 * 0 + _) with (Zpos 1) || change (10 * 0 + _) with (Zpos 2)
    || change (10 * 0 + _) with (Zpos 3) || change (10 * 0 + _) with (Zpos 4)
    || change (10 * 0 + _) with (Zpos 5) || change (10 * 0 + _) with (Zpos 6)
    || change (10 * 0 + _) with (Zpos 7) || change (10 * 0 + _) with (Zpos 8)
    || change (10 * 0 + _) with (Zpos 9);
    rewrite uint_value_pos; reflexivity.
Qed.

(** A non-empty digit string read without the leading-digit flag. *)
Lemma digits_uint_fresh d :
  d <> Decimal.Nil ->
  PyStr.digits (NilEmpty.string_of_uint d) 0 false = Some (uint_value d 0).
Proof.
  destruct d; intros Hd; [congruence|..];
    cbn [NilEmpty.string_of_uint PyStr.digits uint_value];
    (change (PyStr.digit_of _) with (Some 0) ||
     change (PyStr.digit_of _) with (Some 1) ||
     change (PyStr.digit_of _) with (Some 2) ||
     change (PyStr.digit_of _) with (Some 3) ||
     change (PyStr.digit_of _) with (Some 4) ||
     change (PyStr.digit_of _) with (Some 5) ||
     change (PyStr.digit_of _) with (Some 6) ||
     change (PyStr.digit_of _) with (Some 7) ||
     change (PyStr.digit_of _) with (Some 8) ||
     change (PyStr.digit_of _) with (Some 9));
    cbv iota beta; apply digits_uint.
Qed.

Lemma pos_to_uint_nonnil p : Pos.to_uint p <> Decimal.Nil.
Proof.
  intros H. pose proof (DecimalPos.Unsigned.of_to p) as E. rewrite H in E. discriminate.
Qed.

Lemma digits_pos p :
  PyStr.digits (NilEmpty.string_of_uint (Pos.to_uint p)) 0 false = Some (Zpos p).
Proof.
  rewrite (digits_uint_fresh _ (pos_to_uint_nonnil p)), uint_value_zero,
    DecimalPos.Unsigned.of_to. reflexivity.
Qed.

Lemma nilzero_pos p :
  NilZero.string_of_uint (Pos.to_uint p) = NilEmpty.string_of_uint (Pos.to_uint p).
Proof.
  pose proof (pos_to_uint_nonnil p). unfold NilZero.string_of_uint.
  destruct (Pos.to_uint p); [congruence | reflexivity..].
Qed.

(** [int(str(z)) == z] *)
Lemma int_str z : PyStr.int (str_int z) = Some z.
Proof.
  destruct z as [|p|p]; [reflexivity|..]; unfold str_int;
    cbn [Z.to_int NilZero.string_of_int]; rewrite nilzero_pos; unfold PyStr.int.
  - rewrite int_strip_no_space by apply uint_no_space.
    pose proof (digits_pos p) as Hd. pose proof (pos_to_uint_nonnil p) as Hn.
    destruct (Pos.to_uint p) eqn:E; [congruence|..];
      cbn [NilEmpty.string_of_uint] in *;
      match goal with |- context [Ascii.eqb ?c "+"] => change (Ascii.eqb c "+") with false end;
      match goal with |- context [Ascii.eqb ?c "-"] => change (Ascii.eqb c "-") with false end;
      cbv iota; exact Hd.
  - rewrite int_strip_no_space
      by (cbn [no_space]; rewrite uint_no_space; reflexivity).
    change (Ascii.eqb "-" "+") with false. change (Ascii.eqb "-" "-") with true.
    cbv iota. rewrite digits_pos. reflexivity.
Qed.

Lemma str_int_no_space z : no_space (str_int z) = true.
Proof.
  destruct z as [|p|p]; [reflexivity|..]; unfold str_int;
    cbn [Z.to_int NilZero.string_of_int]; rewrite nilzero_pos;
    cbn [no_space]; rewrite uint_no_space; reflexivity.
Qed.

(** *** From the window to the motors *)

Lemma payload_no_space (word : string) (z : Z) :
  no_space word = true -> no_space (word ++ ":" ++ str_int z) = true.
Proof.
  intros H. induction word as [|c r IH]; cbn [String.append no_space] in *.
  - change (PyStr.is_space ":") with false. apply str_int_no_space.
  - destruct (PyStr.is_space c); [discriminate|]. apply IH, H.
Qed.

Lemma refreshed_motor_hal (w : world) :
  motor_hal (self (heartbeat_refreshed w)) = motor_hal (self w).
Proof. reflexivity. Qed.

Lemma refreshed_config (w : world) :
  config (self (heartbeat_refreshed w)) = config (self w).
Proof. reflexivity. Qed.

(** A message that is a command word with a value the motor controller
    understands. *)
Lemma on_message_movement (word : string) (d : direction) (v : Z)
    (h : controller) (w : world) :
  In (word, d) movement_commands ->
  motor_hal (self w) = Some h ->
  on_message (R := unit) (Text (word ++ ":" ++ str_int v)) w
  = (Next tt, after_hal_call (m_start d (Some v)) h (heartbeat_refreshed w)).
Proof.
  intros Hin Hh. destruct (movement_words word d Hin) as [Hup [Hnc _]].
  rewrite on_message_text.
  rewrite strip_no_space.
  2:{ apply payload_no_space. unfold movement_commands in Hin. cbn [In] in Hin.
      repeat (destruct Hin as [Hin|Hin]; [inversion Hin; reflexivity|]).
      destruct Hin. }
  unfold try_except.
  rewrite (process_command_text (R := unit) word (Some (str_int v)) v)
    by (auto; apply int_str).
  unfold def_. rewrite Hup.
  rewrite (execute_movement word d v h (heartbeat_refreshed w) Hin)
    by (rewrite refreshed_motor_hal; exact Hh).
  reflexivity.
Qed.

(** A message that is a word without a value, for a controller whose
    configuration names a default speed. *)
Lemma on_message_word (word : string) (w : world) :
  no_space word = true ->
  PyStr.split_colon word = None ->
  has_default_speed w ->
  exists v,
    on_message (R := unit) (Text word) w
    = try_except (def_ tt (execute_command (PyStr.upper word) v))
        (fun e => if is_Exception e then Some (ret tt) else None)
        (heartbeat_refreshed w).
Proof.
  intros Hs Hc [c [v [Hcfg Hv]]]. exists v.
  rewrite on_message_text, (strip_no_space word Hs). unfold try_except.
  rewrite (process_command_text (R := unit) word None v)
    by (auto; cbn [command_value]; rewrite refreshed_config, Hcfg; exact Hv).
  reflexivity.
Qed.

Lemma on_message_stop_word (word : string) (h : controller) (w : world) :
  no_space word = true ->
  PyStr.split_colon word = None ->
  In (PyStr.upper word) stop_words ->
  has_default_speed w ->
  motor_hal (self w) = Some h ->
  on_message (R := unit) (Text word) w
  = (Next tt, after_hal_call m_stop h (heartbeat_refreshed w)).
Proof.
  intros Hs Hc Hin Hd Hh. destruct (on_message_word word w Hs Hc Hd) as [v ->].
  unfold try_except, def_.
  rewrite (execute_stop (R := unit) (PyStr.upper word) v h (heartbeat_refreshed w) Hin)
    by (rewrite refreshed_motor_hal; exact Hh).
  reflexivity.
Qed.

Lemma on_message_unknown_word (word : string) (w : world) :
  no_space word = true ->
  PyStr.split_colon word = None ->
  ~ In (PyStr.upper word) known_words ->
  has_default_speed w ->
  on_message (R := unit) (Text word) w = (Next tt, heartbeat_refreshed w).
Proof.
  intros Hs Hc Hin Hd. destruct (on_message_word word w Hs Hc Hd) as [v ->].
  unfold try_except, def_.
  rewrite (execute_unknown (R := unit) (PyStr.upper word) v (heartbeat_refreshed w) Hin).
  reflexivity.
Qed.

(** A legacy letter starts its direction at the built-in speed. *)
Lemma on_message_letter (x : gui_direction) (h : controller) (w : world) :
  In x gui_directions ->
  has_default_speed w ->
  motor_hal (self w) = Some h ->
  on_message (R := unit) (Text (letter x)) w
  = (Next tt, after_hal_call (m_start (heading x) (Some 50)) h
                (heartbeat_refreshed w)).
Proof.
  intros Hin Hd Hh.
  assert (Hm : motor_hal (self (heartbeat_refreshed w)) = Some h)
    by (rewrite refreshed_motor_hal; exact Hh).
  assert (Hcall : forall R, motor_hal_call (R := R) (m_start (heading x) None)
                               (heartbeat_refreshed w)
                  = (Next tt, after_hal_call (m_start (heading x) (Some 50)) h
                                (heartbeat_refreshed w)))
    by (intros R; rewrite motor_hal_call_default_arg; apply motor_hal_call_ok, Hm).
  unfold gui_directions in Hin. cbn [In] in Hin.
  repeat (destruct Hin as [Hin|Hin]; [subst x|]); [..|destruct Hin];
    cbn [letter heading] in *;
    (match goal with
     | |- on_message (Text ?l) _ = _ =>
         destruct (on_message_word l w eq_refl eq_refl Hd) as [v ->]
     end);
    unfold def_, execute_command, try_except;
    cbn [PyStr.upper];
    repeat match goal with
           | |- context [PyStr.upper_char ?c] =>
               let c' := eval vm_compute in (PyStr.upper_char c) in
               change (PyStr.upper_char c) with c'
           end;
    cbn [String.eqb Ascii.eqb Bool.eqb orb];
    cbn [m_start] in Hcall; rewrite Hcall; reflexivity.
Qed.

Lemma gui_words (x : gui_direction) :
  In x gui_directions ->
  In (word x, heading x) movement_commands /\ heading x <> STOPPED.
Proof.
  intros Hin. unfold gui_directions in Hin. cbn [In] in Hin.
  repeat (destruct Hin as [Hin|Hin]; [subst x|]); [..|destruct Hin];
    (split; [cbn; tauto | discriminate]).
Qed.

(** *** What the callbacks publish *)

Lemma send_enhanced_connected (command : string) (g : MQTTRobotController.t) :
  MQTTRobotController.mqtt_client g = true ->
  MQTTRobotController.connected g = true ->
  MQTTRobotController.send_enhanced_command command g
  = (Ok tt, g,
     [ GuiPublish (MQTTRobotController.enhanced_command_topic g) command;
       GuiLog ("Enhanced command sent: " ++ command) ]).
Proof.
  intros Hc Hn. unfold MQTTRobotController.send_enhanced_command.
  cbn. rewrite Hc, Hn. reflexivity.
Qed.

Lemma send_legacy_connected (command : string) (g : MQTTRobotController.t) :
  MQTTRobotController.mqtt_client g = true ->
  MQTTRobotController.connected g = true ->
  MQTTRobotController.send_legacy_command command g
  = (Ok tt, g,
     [ GuiPublish (MQTTRobotController.command_topic g) command;
       GuiLog ("Legacy command sent: " ++ command) ]).
Proof.
  intros Hc Hn. unfold MQTTRobotController.send_legacy_command.
  cbn. rewrite Hc, Hn. reflexivity.
Qed.

Lemma send_enhanced_silent (command : string) (g : MQTTRobotController.t) :
  MQTTRobotController.mqtt_client g && MQTTRobotController.connected g = false ->
  MQTTRobotController.send_enhanced_command command g = (Ok tt, g, []).
Proof.
  intros H. unfold MQTTRobotController.send_enhanced_command.
  cbn. rewrite H. reflexivity.
Qed.

Lemma send_legacy_silent (command : string) (g : MQTTRobotController.t) :
  MQTTRobotController.mqtt_client g && MQTTRobotController.connected g = false ->
  MQTTRobotController.send_legacy_command command g = (Ok tt, g, []).
Proof.
  intros H. unfold MQTTRobotController.send_legacy_command.
  cbn. rewrite H. reflexivity.
Qed.

Lemma send_custom_connected (command : string) (g : MQTTRobotController.t) :
  MQTTRobotController.mqtt_client g = true ->
  MQTTRobotController.connected g = true ->
  exists line,
    MQTTRobotController.send_custom_command command g
    = (Ok tt, g, [ GuiPublish (mode_topic g) command; GuiLog line ]).
Proof.
  intros Hc Hn. unfold MQTTRobotController.send_custom_command, mode_topic.
  cbn [bind MQTTRobotController.Monad_Gui MQTTRobotController.get].
  destruct (MQTTRobotController.use_enhanced_commands g).
  - rewrite (send_enhanced_connected command g Hc Hn). eexists; reflexivity.
  - rewrite (send_legacy_connected command g Hc Hn). eexists; reflexivity.
Qed.

Lemma send_custom_silent (command : string) (g : MQTTRobotController.t) :
  MQTTRobotController.mqtt_client g && MQTTRobotController.connected g = false ->
  MQTTRobotController.send_custom_command command g = (Ok tt, g, []).
Proof.
  intros H. unfold MQTTRobotController.send_custom_command.
  cbn [bind MQTTRobotController.Monad_Gui MQTTRobotController.get].
  destruct (MQTTRobotController.use_enhanced_commands g).
  - rewrite (send_enhanced_silent command g H). reflexivity.
  - rewrite (send_legacy_silent command g H). reflexivity.
Qed.

(** A movement button of a connected window in the enhanced mode. *)
Lemma send_movement_enhanced (x : gui_direction) (g : MQTTRobotController.t) :
  In x gui_directions ->
  MQTTRobotController.mqtt_client g = true ->
  MQTTRobotController.connected g = true ->
  MQTTRobotController.use_enhanced_commands g = true ->
  let payload := (word x ++ ":" ++ str_int (MQTTRobotController.current_speed g))%string in
  MQTTRobotController.send_movement_command (button x) g
  = (Ok tt, g,
     [ GuiPublish (MQTTRobotController.enhanced_command_topic g) payload;
       GuiLog ("Enhanced command sent: " ++ payload) ]).
Proof.
  intros Hin Hc Hn He payload. subst payload.
  unfold gui_directions in Hin. cbn [In] in Hin.
  repeat (destruct Hin as [Hin|Hin]; [subst x|]); [..|destruct Hin];
    unfold MQTTRobotController.send_movement_command;
    repeat (progress (cbn [bind ret MQTTRobotController.Monad_Gui
                             MQTTRobotController.get button word negb
                             String.eqb Ascii.eqb Bool.eqb];
                      rewrite ?Hn, ?He));
    rewrite send_enhanced_connected by assumption; reflexivity.
Qed.

Lemma send_movement_legacy (x : gui_direction) (g : MQTTRobotController.t) :
  In x gui_directions ->
  MQTTRobotController.mqtt_client g = true ->
  MQTTRobotController.connected g = true ->
  MQTTRobotController.use_enhanced_commands g = false ->
  MQTTRobotController.send_movement_command (button x) g
  = (Ok tt, g,
     [ GuiPublish (MQTTRobotController.command_topic g) (letter x);
       GuiLog ("Legacy command sent: " ++ letter x) ]).
Proof.
  intros Hin Hc Hn He.
  unfold gui_directions in Hin. cbn [In] in Hin.
  repeat (destruct Hin as [Hin|Hin]; [subst x|]); [..|destruct Hin];
    unfold MQTTRobotController.send_movement_command;
    repeat (progress (cbn [bind ret MQTTRobotController.Monad_Gui
                             MQTTRobotController.get button letter negb lookup
                             MQTTRobotController.legacy_map
                             String.eqb Ascii.eqb Bool.eqb];
                      rewrite ?Hn, ?He));
    rewrite send_legacy_connected by assumption; reflexivity.
Qed.

(** The key of a movement button does what the button does, in either
    case of the letter. *)
Lemma key_is_button (x : gui_direction) (g : MQTTRobotController.t) :
  In x gui_directions ->
  MQTTRobotController.on_key_press (key x) g
  = MQTTRobotController.send_movement_command (button x) g /\
  MQTTRobotController.on_key_press (PyStr.upper (key x)) g
  = MQTTRobotController.send_movement_command (button x) g.
Proof.
  intros Hin. unfold gui_directions in Hin. cbn [In] in Hin.
  repeat (destruct Hin as [Hin|Hin]; [subst x|]); [..|destruct Hin];
    split; reflexivity.
Qed.

Lemma send_movement_silent (direction : string) (g : MQTTRobotController.t) :
  MQTTRobotController.mqtt_client g && MQTTRobotController.connected g = false ->
  published_messages (snd (MQTTRobotController.send_movement_command direction g)) = [].
Proof.
  intros H. unfold MQTTRobotController.send_movement_command.
  cbn [bind MQTTRobotController.Monad_Gui MQTTRobotController.get].
  destruct (MQTTRobotController.connected g) eqn:Hn; cbn [negb]; [|reflexivity].
  destruct (MQTTRobotController.use_enhanced_commands g).
  - cbn [bind MQTTRobotController.Monad_Gui MQTTRobotController.get].
    repeat match goal with
           | |- context [if String.eqb ?a ?b then _ else _] =>
               destruct (String.eqb a b)
           end;
      cbn [ret MQTTRobotController.Monad_Gui MQTTRobotController.unbound];
      rewrite ?send_enhanced_silent by (rewrite Hn; exact H); reflexivity.
  - destruct (lookup direction MQTTRobotController.legacy_map);
      [rewrite send_legacy_silent by (rewrite Hn; exact H)|]; reflexivity.
Qed.

Lemma send_enhanced_returns (command : string) (g : MQTTRobotController.t) :
  fst (fst (MQTTRobotController.send_enhanced_command command g)) = Ok tt.
Proof.
  unfold MQTTRobotController.send_enhanced_command. cbn.
  destruct (MQTTRobotController.mqtt_client g && MQTTRobotController.connected g);
    reflexivity.
Qed.

Lemma send_legacy_returns (command : string) (g : MQTTRobotController.t) :
  fst (fst (MQTTRobotController.send_legacy_command command g)) = Ok tt.
Proof.
  unfold MQTTRobotController.send_legacy_command. cbn.
  destruct (MQTTRobotController.mqtt_client g && MQTTRobotController.connected g);
    reflexivity.
Qed.

(** A callback that ends with a call known to return. *)
Ltac ends_with call lemma :=
  match goal with
  | |- context [call ?c ?g] =>
      let H := fresh "H" in
      pose proof (lemma c g) as H;
      destruct (call c g) as [[? ?] ?]; cbn in H |- *; rewrite ?H; reflexivity
  end.

Lemma send_custom_returns (command : string) (g : MQTTRobotController.t) :
  fst (fst (MQTTRobotController.send_custom_command command g)) = Ok tt.
Proof.
  unfold MQTTRobotController.send_custom_command.
  cbn [bind MQTTRobotController.Monad_Gui MQTTRobotController.get].
  destruct (MQTTRobotController.use_enhanced_commands g).
  - ends_with MQTTRobotController.send_enhanced_command send_enhanced_returns.
  - ends_with MQTTRobotController.send_legacy_command send_legacy_returns.
Qed.

Lemma send_movement_returns (direction : string) (g : MQTTRobotController.t) :
  In direction ["forward"; "backward"; "left"; "right"; "stop"] ->
  fst (fst (MQTTRobotController.send_movement_command direction g)) = Ok tt.
Proof.
  intros Hin. unfold MQTTRobotController.send_movement_command.
  cbn [bind MQTTRobotController.Monad_Gui MQTTRobotController.get].
  destruct (MQTTRobotController.connected g); cbn [negb]; [|reflexivity].
  destruct (MQTTRobotController.use_enhanced_commands g).
  - cbn [In] in Hin.
    repeat (destruct Hin as [Hin|Hin]; [subst direction|]); [..|destruct Hin];
      cbn [bind ret MQTTRobotController.Monad_Gui MQTTRobotController.get
           String.eqb Ascii.eqb Bool.eqb];
      ends_with MQTTRobotController.send_enhanced_command send_enhanced_returns.
  - destruct (lookup direction MQTTRobotController.legacy_map) as [c|];
      [|reflexivity].
    ends_with MQTTRobotController.send_legacy_command send_legacy_returns.
Qed.

Lemma key_commands_directions (k direction : string) :
  lookup k MQTTRobotController.key_commands = Some direction ->
  In direction ["forward"; "backward"; "left"; "right"; "stop"].
Proof.
  unfold MQTTRobotController.key_commands. cbn [lookup].
  repeat match goal with
         | |- context [if String.eqb ?a ?b then _ else _] =>
             destruct (String.eqb a b)
         end;
    intros H; inversion H; subst; cbn; tauto.
Qed.

(** *** Properties of the window *)

(** X21: In the enhanced mode a movement button of a connected window, and
    its key in either case, publish the command word with the speed of the
    slider on the enhanced topic; a motor controller that receives this
    message starts that direction, at the slider's speed clamped to
    0..100. *)
Theorem window_movement_reaches_motors (x : gui_direction)
    (g : MQTTRobotController.t) (w : world) (h : controller) :
  In x gui_directions ->
  MQTTRobotController.mqtt_client g = true ->
  MQTTRobotController.connected g = true ->
  MQTTRobotController.use_enhanced_commands g = true ->
  motor_hal (self w) = Some h ->
  let v := MQTTRobotController.current_speed g in
  let payload := (word x ++ ":" ++ str_int v)%string in
  let h' := fst (hal_call (m_start (heading x) (Some v)) h) in
  MQTTRobotController.send_movement_command (button x) g
  = (Ok tt, g,
     [ GuiPublish (MQTTRobotController.enhanced_command_topic g) payload;
       GuiLog ("Enhanced command sent: " ++ payload) ]) /\
  MQTTRobotController.on_key_press (key x) g
  = MQTTRobotController.send_movement_command (button x) g /\
  MQTTRobotController.on_key_press (PyStr.upper (key x)) g
  = MQTTRobotController.send_movement_command (button x) g /\
  on_message (R := unit) (Text payload) w
  = (Next tt, after_hal_call (m_start (heading x) (Some v)) h
                (heartbeat_refreshed w)) /\
  hal_current_speed h' = stored_speed h (clamp v) /\
  hal_direction h' = heading x /\ hal_is_moving h' = true.
Proof.
  intros Hin Hc Hn He Hh v payload h'.
  destruct (gui_words x Hin) as [Hw Hd].
  split; [exact (send_movement_enhanced x g Hin Hc Hn He)|].
  split; [exact (proj1 (key_is_button x g Hin))|].
  split; [exact (proj2 (key_is_button x g Hin))|].
  split; [exact (on_message_movement (word x) (heading x) v h w Hw Hh)|].
  exact (start_speed (heading x) (Some v) h Hd).
Qed.

Lemma window_movement_reaches_motors_witness :
  In (mkGuiDirection "left" "a" "START_LEFT" "L" LEFT) gui_directions /\
  MQTTRobotController.send_movement_command "left" (connected_window true 250)
  = (Ok tt, connected_window true 250,
     [ GuiPublish "hov/motor/command" "START_LEFT:250";
       GuiLog "Enhanced command sent: START_LEFT:250" ]) /\
  on_message (R := unit) (Text "START_LEFT:250") (ready_world [])
  = (Next tt,
     after_hal_call (m_start_left (Some 250))
       (fst (hal_call (m_start_forward (Some 60)) (initial L298Controller_class)))
       (heartbeat_refreshed (ready_world []))).
Proof.
  assert (Hin : In (mkGuiDirection "left" "a" "START_LEFT" "L" LEFT) gui_directions)
    by (cbn; tauto).
  pose proof (window_movement_reaches_motors _ (connected_window true 250)
                (ready_world []) _ Hin eq_refl eq_refl eq_refl eq_refl) as H.
  split; [exact Hin|]. split; [exact (proj1 H)|].
  exact (proj1 (proj2 (proj2 (proj2 H)))).
Defined.

(** X22: In the legacy mode the speed of the window never reaches the
    robot: a movement button publishes its one letter on the legacy topic,
    a motor controller that receives the letter starts the direction at the
    built-in speed 50 whatever the slider shows, and a speed preset
    publishes nothing. *)
Theorem window_legacy_mode_has_no_speed (x : gui_direction)
    (g : MQTTRobotController.t) (w : world) (h : controller) :
  In x gui_directions ->
  MQTTRobotController.mqtt_client g = true ->
  MQTTRobotController.connected g = true ->
  MQTTRobotController.use_enhanced_commands g = false ->
  has_default_speed w ->
  motor_hal (self w) = Some h ->
  MQTTRobotController.send_movement_command (button x) g
  = (Ok tt, g,
     [ GuiPublish (MQTTRobotController.command_topic g) (letter x);
       GuiLog ("Legacy command sent: " ++ letter x) ]) /\
  on_message (R := unit) (Text (letter x)) w
  = (Next tt, after_hal_call (m_start (heading x) (Some 50)) h
                (heartbeat_refreshed w)) /\
  forall speed,
    MQTTRobotController.set_speed_preset speed g
    = (Ok tt, MQTTRobotController.with_current_speed speed g, []).
Proof.
  intros Hin Hc Hn He Hd Hh.
  split; [exact (send_movement_legacy x g Hin Hc Hn He)|].
  split; [exact (on_message_letter x h w Hin Hd Hh)|].
  intros speed. unfold MQTTRobotController.set_speed_preset.
  cbn. rewrite He. reflexivity.
Qed.

Lemma window_legacy_mode_has_no_speed_witness :
  In (mkGuiDirection "forward" "w" "START_FORWARD" "F" FORWARD) gui_directions /\
  has_default_speed (l298_world 75 10 (ticking 0)) /\
  MQTTRobotController.send_movement_command "forward" (connected_window false 90)
  = (Ok tt, connected_window false 90,
     [ GuiPublish "CommandChannel" "F"; GuiLog "Legacy command sent: F" ]) /\
  on_message (R := unit) (Text "F") (l298_world 75 10 (ticking 0))
  = (Next tt,
     after_hal_call (m_start_forward (Some 50)) (initial L298Controller_class)
       (heartbeat_refreshed (l298_world 75 10 (ticking 0)))).
Proof.
  assert (Hin : In (mkGuiDirection "forward" "w" "START_FORWARD" "F" FORWARD)
                   gui_directions) by (cbn; tauto).
  assert (Hd : has_default_speed (l298_world 75 10 (ticking 0)))
    by (exists (config_with_default_speed 75), 75; split; reflexivity).
  pose proof (window_legacy_mode_has_no_speed _ (connected_window false 90)
                (l298_world 75 10 (ticking 0)) _ Hin eq_refl eq_refl eq_refl
                Hd eq_refl) as H.
  split; [exact Hin|]. split; [exact Hd|]. split; [exact (proj1 H)|].
  exact (proj1 (proj2 H)).
Defined.

(** X23: Every stop control of a connected window (the STOP button, the
    Emergency Stop button, the keys s, S and space) publishes one message,
    and a motor controller that receives it, and whose configuration names
    a default speed, stops the motors. *)
Theorem window_stop_controls_stop (a : gui_action)
    (g : MQTTRobotController.t) (w : world) (h : controller) :
  In a stop_controls ->
  MQTTRobotController.mqtt_client g = true ->
  MQTTRobotController.connected g = true ->
  has_default_speed w ->
  motor_hal (self w) = Some h ->
  exists topic payload line,
    gui_callback a g = (Ok tt, g, [ GuiPublish topic payload; GuiLog line ]) /\
    on_message (R := unit) (Text payload) w
    = (Next tt, after_hal_call m_stop h (heartbeat_refreshed w)).
Proof.
  intros Hin Hc Hn Hd Hh.
  destruct g as [c n bh bp ct ect st tt' e cs cc]. cbn in Hc, Hn. subst c n.
  unfold stop_controls in Hin. cbn [In] in Hin.
  repeat (destruct Hin as [Hin|Hin]; [subst a|]); [..|destruct Hin];
    destruct e;
    do 3 eexists; (split; [vm_compute; reflexivity|]);
    (apply on_message_stop_word;
     [reflexivity | reflexivity | vm_compute; tauto | exact Hd | exact Hh]).
Qed.

Lemma window_stop_controls_stop_witness :
  In (KeyPress " ") stop_controls /\
  has_default_speed (ready_world []) /\
  exists topic payload line,
    gui_callback (KeyPress " ") (connected_window false 90)
    = (Ok tt, connected_window false 90,
       [ GuiPublish topic payload; GuiLog line ]) /\
    on_message (R := unit) (Text payload) (ready_world [])
    = (Next tt,
       after_hal_call m_stop
         (fst (hal_call (m_start_forward (Some 60)) (initial L298Controller_class)))
         (heartbeat_refreshed (ready_world []))).
Proof.
  assert (Hin : In (KeyPress " ") stop_controls) by (cbn; tauto).
  assert (Hd : has_default_speed (ready_world []))
    by (exists (config_with_default_speed 50), 50; split; reflexivity).
  split; [exact Hin|]. split; [exact Hd|].
  exact (window_stop_controls_stop _ (connected_window false 90) (ready_world [])
           _ Hin eq_refl eq_refl Hd eq_refl).
Defined.

(** X24: The rotate controls (the Rotate Left and Rotate Right buttons, the
    keys q and e) publish [q] or [e] on the topic of the current mode, and
    a motor controller that receives one, and whose configuration names a
    default speed, only refreshes its heartbeat: the motor controller and
    the hardware are left as they were. *)
Theorem window_rotate_controls_move_nothing (a : gui_action)
    (g : MQTTRobotController.t) (w : world) :
  In a rotate_controls ->
  MQTTRobotController.mqtt_client g = true ->
  MQTTRobotController.connected g = true ->
  has_default_speed w ->
  exists payload line,
    gui_callback a g
    = (Ok tt, g, [ GuiPublish (mode_topic g) payload; GuiLog line ]) /\
    on_message (R := unit) (Text payload) w = (Next tt, heartbeat_refreshed w).
Proof.
  intros Hin Hc Hn Hd.
  destruct g as [c n bh bp ct ect st tt' e cs cc]. cbn in Hc, Hn. subst c n.
  unfold rotate_controls in Hin. cbn [In] in Hin.
  repeat (destruct Hin as [Hin|Hin]; [subst a|]); [..|destruct Hin];
    destruct e;
    do 2 eexists; (split; [vm_compute; reflexivity|]);
    (apply on_message_unknown_word;
     [reflexivity | reflexivity | vm_compute; intuition discriminate | exact Hd]).
Qed.

Lemma window_rotate_controls_move_nothing_witness :
  In (RotateButton "q") rotate_controls /\
  has_default_speed (ready_world []) /\
  exists payload line,
    gui_callback (RotateButton "q") (connected_window true 50)
    = (Ok tt, connected_window true 50,
       [ GuiPublish "hov/motor/command" payload; GuiLog line ]) /\
    on_message (R := unit) (Text payload) (ready_world [])
    = (Next tt, heartbeat_refreshed (ready_world [])).
Proof.
  assert (Hin : In (RotateButton "q") rotate_controls) by (cbn; tauto).
  assert (Hd : has_default_speed (ready_world []))
    by (exists (config_with_default_speed 50), 50; split; reflexivity).
  split; [exact Hin|]. split; [exact Hd|].
  exact (window_rotate_controls_move_nothing _ (connected_window true 50)
           (ready_world []) Hin eq_refl eq_refl Hd).
Defined.

(** X25: Without a client, or while not connected, no control of the
    window publishes anything, whatever the mode, the key or the text of
    the entry line. *)
Theorem window_publishes_only_when_connected (a : gui_action)
    (g : MQTTRobotController.t) :
  MQTTRobotController.mqtt_client g && MQTTRobotController.connected g = false ->
  published_messages (snd (gui_callback a g)) = [].
Proof.
  intros H. destruct a as [d|c| | |v| | |k]; cbn [gui_callback].
  - apply send_movement_silent, H.
  - rewrite send_custom_silent by exact H. reflexivity.
  - rewrite send_enhanced_silent by exact H. reflexivity.
  - rewrite send_enhanced_silent by exact H. reflexivity.
  - unfold MQTTRobotController.set_speed_preset.
    cbn [bind MQTTRobotController.Monad_Gui MQTTRobotController.get
         MQTTRobotController.update].
    destruct (MQTTRobotController.use_enhanced_commands _); [|reflexivity].
    rewrite send_enhanced_silent by exact H. reflexivity.
  - reflexivity.
  - unfold MQTTRobotController.send_custom_command_from_entry.
    cbn [bind MQTTRobotController.Monad_Gui MQTTRobotController.get].
    destruct (PyStr.strip (MQTTRobotController.custom_cmd g)); [reflexivity|].
    cbn [bind MQTTRobotController.Monad_Gui].
    rewrite send_custom_silent by exact H. reflexivity.
  - unfold MQTTRobotController.on_key_press.
    destruct (lookup _ MQTTRobotController.key_commands).
    + apply send_movement_silent, H.
    + repeat match goal with
             | |- context [if String.eqb ?a ?b then _ else _] =>
                 destruct (String.eqb a b)
             end;
        rewrite ?send_custom_silent by exact H; reflexivity.
Qed.

Lemma window_publishes_only_when_connected_witness :
  published_messages
    (snd (gui_callback (KeyPress "w") MQTTRobotController.__init__)) = [].
Proof.
  exact (window_publishes_only_when_connected (KeyPress "w")
           MQTTRobotController.__init__ eq_refl).
Defined.

(** X26: Every control the window offers returns, for every state of the
    window and every key. *)
Theorem window_controls_return (a : gui_action) (g : MQTTRobotController.t) :
  offered a ->
  fst (fst (gui_callback a g)) = Ok tt.
Proof.
  intros Ho. destruct a as [d|c| | |v| | |k]; cbn [gui_callback offered] in *.
  - apply send_movement_returns, Ho.
  - apply send_custom_returns.
  - apply send_enhanced_returns.
  - apply send_enhanced_returns.
  - unfold MQTTRobotController.set_speed_preset.
    cbn [bind MQTTRobotController.Monad_Gui MQTTRobotController.get
         MQTTRobotController.update].
    destruct (MQTTRobotController.use_enhanced_commands _); [|reflexivity].
    ends_with MQTTRobotController.send_enhanced_command send_enhanced_returns.
  - reflexivity.
  - unfold MQTTRobotController.send_custom_command_from_entry.
    cbn [bind MQTTRobotController.Monad_Gui MQTTRobotController.get].
    destruct (PyStr.strip (MQTTRobotController.custom_cmd g)); [reflexivity|].
    cbn [bind MQTTRobotController.Monad_Gui].
    ends_with MQTTRobotController.send_custom_command send_custom_returns.
  - unfold MQTTRobotController.on_key_press.
    destruct (lookup _ MQTTRobotController.key_commands) as [d|] eqn:Hk.
    + apply send_movement_returns, (key_commands_directions _ _ Hk).
    + repeat match goal with
             | |- context [if String.eqb ?a ?b then _ else _] =>
                 destruct (String.eqb a b)
             end;
        try apply send_custom_returns; reflexivity.
Qed.

Lemma window_controls_return_witness :
  offered (MoveButton "stop") /\
  fst (fst (gui_callback (MoveButton "stop") (connected_window true 50))) = Ok tt.
Proof.
  assert (Ho : offered (MoveButton "stop")) by (cbn; tauto).
  split; [exact Ho|].
  exact (window_controls_return (MoveButton "stop") (connected_window true 50) Ho).
Defined.

(** X27: In the enhanced mode of a connected window,
    [send_movement_command] with a direction other than the five the
    buttons use reads the local variable [command] before any branch has
    assigned it: it ends in UnboundLocalError and publishes nothing. *)
Theorem unknown_direction_is_unbound (direction : string)
    (g : MQTTRobotController.t) :
  MQTTRobotController.connected g = true ->
  MQTTRobotController.use_enhanced_commands g = true ->
  ~ In direction ["forward"; "backward"; "left"; "right"; "stop"] ->
  MQTTRobotController.send_movement_command direction g
  = (UnboundLocalError "command", g, []).
Proof.
  intros Hn He Hin. unfold MQTTRobotController.send_movement_command.
  cbn [bind MQTTRobotController.Monad_Gui MQTTRobotController.get].
  rewrite Hn. cbn [negb]. rewrite He.
  cbn [bind MQTTRobotController.Monad_Gui MQTTRobotController.get].
  repeat match goal with
         | |- context [if String.eqb ?a ?b then _ else _] =>
             let E := fresh "E" in
             destruct (String.eqb_spec a b) as [E|E];
             [exfalso; apply Hin; rewrite E; cbn; tauto|]
         end.
  reflexivity.
Qed.

Lemma unknown_direction_is_unbound_witness :
  ~ In "up" ["forward"; "backward"; "left"; "right"; "stop"] /\
  MQTTRobotController.send_movement_command "up" (connected_window true 50)
  = (UnboundLocalError "command", connected_window true 50, []).
Proof.
  assert (Hin : ~ In "up" ["forward"; "backward"; "left"; "right"; "stop"])
    by (cbn; intuition discriminate).
  split; [exact Hin|].
  exact (unknown_direction_is_unbound "up" (connected_window true 50)
           eq_refl eq_refl Hin).
Defined.

(** ** The test script *)

Lemma call_continues (m : hal_method) (motor : controller) :
  TestMotor.call m motor
  = TestMotor.Continue (fst (hal_call m motor)) (snd (hal_call m motor)).
Proof. unfold TestMotor.call. destruct (hal_call m motor). reflexivity. Qed.

(** A pass that goes on has called at most one method of the motor. *)
Lemma command_continue (cmd : list string) (motor motor' : controller)
    (calls : list hw_event) :
  TestMotor.command cmd motor = TestMotor.Continue motor' calls ->
  (motor' = motor /\ calls = []) \/
  exists m, motor' = fst (hal_call m motor) /\ calls = snd (hal_call m motor).
Proof.
  unfold TestMotor.command. destruct cmd as [|c args].
  - intros H; inversion H; left; split; reflexivity.
  - repeat match goal with
           | |- context [if String.eqb ?a ?b then _ else _] =>
               destruct (String.eqb a b)
           end;
      try discriminate;
      repeat match goal with
             | |- context [match ?x with _ => _ end] =>
                 match x with
                 | TestMotor.call _ _ => fail 1
                 | _ => destruct x
                 end
             end;
      rewrite ?call_continues; try discriminate;
      intros H; inversion H; subst;
      solve [left; split; reflexivity | right; eexists; split; reflexivity].
Qed.

Lemma command_break (cmd : list string) (motor : controller) :
  TestMotor.command cmd motor = TestMotor.Break <->
  match cmd with c :: _ => String.eqb c "q" = true | [] => False end.
Proof.
  unfold TestMotor.command. destruct cmd as [|c args].
  - split; [discriminate | intros []].
  - destruct (String.eqb c "q"); [split; reflexivity|].
    split; [|discriminate].
    repeat match goal with
           | |- context [if String.eqb ?a ?b then _ else _] =>
               destruct (String.eqb a b)
           end;
      repeat match goal with
             | |- context [match ?x with _ => _ end] =>
                 match x with
                 | TestMotor.call _ _ => fail 1
                 | _ => destruct x
                 end
             end;
      rewrite ?call_continues; discriminate.
Qed.

Lemma command_escape (cmd : list string) (motor : controller) (e : TestMotor.uncaught) :
  TestMotor.command cmd motor = TestMotor.Escape e -> hal_get_status motor = None.
Proof.
  unfold TestMotor.command. destruct cmd as [|c args]; [discriminate|].
  repeat match goal with
         | |- context [if String.eqb ?a ?b then _ else _] =>
             destruct (String.eqb a b)
         end;
    try discriminate;
    repeat match goal with
           | |- context [match ?x with _ => _ end] =>
               match x with
               | TestMotor.call _ _ => fail 1
               | hal_get_status _ => fail 1
               | _ => destruct x
               end
           end;
    rewrite ?call_continues; try discriminate;
    (destruct (hal_get_status motor); [discriminate | intros _; reflexivity]).
Qed.

Lemma command_keeps_invariant (cmd : list string) (motor motor' : controller)
    (calls : list hw_event) :
  invariant motor ->
  TestMotor.command cmd motor = TestMotor.Continue motor' calls ->
  invariant motor'.
Proof.
  intros Hi H. destruct (command_continue _ _ _ _ H) as [[-> _]|[m [-> _]]].
  - exact Hi.
  - apply invariant_preserved, Hi.
Qed.

Lemma after_loop_result (motor : controller) :
  TestMotor.after_loop motor
  = (TestMotor.Completed, fst (hal_call m_stop motor), snd (hal_call m_stop motor)).
Proof. unfold TestMotor.after_loop. destruct (hal_call m_stop motor). reflexivity. Qed.

(** X28: When the interactive mode of the test script completes, the last
    thing it did was [motor.stop()]: the motor is not moving, its direction
    is STOPPED, and the hardware calls end with those of a stop. *)
Theorem interactive_test_ends_stopped (inputs : list TestMotor.console)
    (motor motor' : controller) (calls : list hw_event) :
  TestMotor.interactive_test inputs motor = (TestMotor.Completed, motor', calls) ->
  hal_is_moving motor' = false /\ hal_direction motor' = STOPPED /\
  exists before earlier,
    motor' = fst (hal_call m_stop before) /\
    calls = earlier ++ snd (hal_call m_stop before).
Proof.
  revert motor calls.
  induction inputs as [|i rest IH]; intros motor calls H; [discriminate|].
  assert (Hstop : TestMotor.after_loop motor = (TestMotor.Completed, motor', calls) ->
    hal_is_moving motor' = false /\ hal_direction motor' = STOPPED /\
    exists before earlier,
      motor' = fst (hal_call m_stop before) /\
      calls = earlier ++ snd (hal_call m_stop before)).
  { rewrite after_loop_result. intros E. inversion E; subst.
    destruct (stop_idempotent_state motor) as [_ [Hm Hd]].
    split; [exact Hm|]. split; [exact Hd|].
    exists motor, []. split; reflexivity. }
  destruct i as [text|]; cbn [TestMotor.interactive_test] in H; [|exact (Hstop H)].
  destruct (TestMotor.command _ motor) as [m1 l1| |e]; [|exact (Hstop H)|discriminate].
  destruct (TestMotor.interactive_test rest m1) as [[e m2] l2] eqn:Hr.
  inversion H; subst.
  destruct (IH m1 l2 Hr) as [Hm [Hd [before [earlier [E1 E2]]]]].
  split; [exact Hm|]. split; [exact Hd|].
  exists before, (l1 ++ earlier). split; [exact E1|].
  rewrite E2. apply app_assoc.
Qed.

Lemma interactive_test_ends_stopped_witness :
  TestMotor.interactive_test
    [TestMotor.Line "f 80"; TestMotor.Line "speed fast"; TestMotor.Line " Q "]
    (initial MotoZeroController_class)
  = (TestMotor.Completed,
     fst (hal_call m_stop
            (fst (hal_call (m_start_forward (Some 80))
                    (initial MotoZeroController_class)))),
     snd (hal_call (m_start_forward (Some 80)) (initial MotoZeroController_class))
     ++ snd (hal_call m_stop
               (fst (hal_call (m_start_forward (Some 80))
                       (initial MotoZeroController_class))))) /\
  hal_is_moving
    (fst (hal_call m_stop
            (fst (hal_call (m_start_forward (Some 80))
                    (initial MotoZeroController_class))))) = false.
Proof.
  assert (H : TestMotor.interactive_test
    [TestMotor.Line "f 80"; TestMotor.Line "speed fast"; TestMotor.Line " Q "]
    (initial MotoZeroController_class)
  = (TestMotor.Completed,
     fst (hal_call m_stop
            (fst (hal_call (m_start_forward (Some 80))
                    (initial MotoZeroController_class)))),
     snd (hal_call (m_start_forward (Some 80)) (initial MotoZeroController_class))
     ++ snd (hal_call m_stop
               (fst (hal_call (m_start_forward (Some 80))
                       (initial MotoZeroController_class))))))
    by (vm_compute; reflexivity).
  split; [exact H|].
  exact (proj1 (interactive_test_ends_stopped _ _ _ _ H)).
Defined.

(** A session that no line ends. *)
Lemma interactive_test_without_quit (inputs : list TestMotor.console)
    (motor : controller) :
  invariant motor ->
  existsb TestMotor.is_quit inputs = false ->
  exists motor' calls,
    TestMotor.interactive_test inputs motor
    = (TestMotor.Uncaught TestMotor.EOFError, motor', calls) /\
    TestMotor.interactive_test (inputs ++ [TestMotor.CtrlC]) motor
    = (TestMotor.Completed, fst (hal_call m_stop motor'),
       calls ++ snd (hal_call m_stop motor')).
Proof.
  revert motor. induction inputs as [|i rest IH]; intros motor Hi Hq.
  - exists motor, []. split; [reflexivity|].
    cbn [app TestMotor.interactive_test]. apply after_loop_result.
  - cbn [existsb] in Hq. apply orb_false_iff in Hq. destruct Hq as [Hq Hrest].
    destruct i as [text|]; [|discriminate].
    cbn [TestMotor.is_quit] in Hq.
    pose proof (command_break (TestMotor.split (PyStr.lower (PyStr.strip text)))
                  motor) as Hb.
    cbn [app TestMotor.interactive_test].
    destruct (TestMotor.command _ motor) as [m1 l1| |e] eqn:Hc.
    + destruct (IH m1 (command_keeps_invariant _ _ _ _ Hi Hc) Hrest)
        as [m2 [l2 [E1 E2]]].
      exists m2, (l1 ++ l2). rewrite E1, E2. split; [reflexivity|].
      rewrite app_assoc. reflexivity.
    + destruct Hb as [Hb _]. specialize (Hb eq_refl).
      destruct (TestMotor.split _) as [|c args]; [destruct Hb|].
      rewrite Hb in Hq. discriminate.
    + destruct Hi as [st [Hst _]]. rewrite (command_escape _ _ _ Hc) in Hst.
      discriminate.
Qed.

(** X29: on a motor controller that satisfies the invariant, and for
    lines of ASCII text, the interactive mode completes exactly when some
    line asks to quit (its first word, in any case, is [q]) or Ctrl-C
    arrives; otherwise the end of the input ends it with EOFError, and then
    the final [motor.stop()] is missing: the motor and the hardware calls
    are those of the same session closed by Ctrl-C, without the stop. *)
Theorem interactive_test_needs_quit (inputs : list TestMotor.console)
    (motor : controller) :
  invariant motor ->
  forallb TestMotor.plain inputs = true ->
  fst (fst (TestMotor.interactive_test inputs motor))
  = (if existsb TestMotor.is_quit inputs then TestMotor.Completed
     else TestMotor.Uncaught TestMotor.EOFError) /\
  (existsb TestMotor.is_quit inputs = false ->
   exists motor' calls,
     TestMotor.interactive_test inputs motor
     = (TestMotor.Uncaught TestMotor.EOFError, motor', calls) /\
     TestMotor.interactive_test (inputs ++ [TestMotor.CtrlC]) motor
     = (TestMotor.Completed, fst (hal_call m_stop motor'),
        calls ++ snd (hal_call m_stop motor'))).
Proof.
  intros Hi _. split; [|exact (interactive_test_without_quit inputs motor Hi)].
  revert motor Hi.
  induction inputs as [|i rest IH]; intros motor Hi; [reflexivity|].
  cbn [existsb TestMotor.interactive_test].
  destruct i as [text|]; cbn [TestMotor.is_quit orb];
    [|rewrite after_loop_result; reflexivity].
  pose proof (command_break (TestMotor.split (PyStr.lower (PyStr.strip text))) motor)
    as Hb.
  destruct (TestMotor.command _ motor) as [m1 l1| |e] eqn:Hc.
  - assert (Hq : match TestMotor.split (PyStr.lower (PyStr.strip text)) with
                 | c :: _ => String.eqb c "q"
                 | [] => false
                 end = false).
    { destruct (TestMotor.split _) as [|c args]; [reflexivity|].
      destruct (String.eqb c "q"); [|reflexivity].
      destruct Hb as [_ Hb]. specialize (Hb eq_refl). discriminate. }
    rewrite Hq. cbn [orb].
    pose proof (IH m1 (command_keeps_invariant _ _ _ _ Hi Hc)) as Hrest.
    destruct (TestMotor.interactive_test rest m1) as [[e m2] l2].
    exact Hrest.
  - destruct Hb as [Hb _]. specialize (Hb eq_refl).
    destruct (TestMotor.split _) as [|c args]; [destruct Hb|].
    rewrite Hb. cbn [orb]. rewrite after_loop_result. reflexivity.
  - destruct Hi as [st [Hst _]]. rewrite (command_escape _ _ _ Hc) in Hst.
    discriminate.
Qed.

Lemma interactive_test_needs_quit_witness :
  invariant (initial CamJamController_class) /\
  forallb TestMotor.plain [TestMotor.Line "f 80"; TestMotor.Line "status"] = true /\
  TestMotor.interactive_test [TestMotor.Line "f 80"; TestMotor.Line "status"]
    (initial CamJamController_class)
  = (TestMotor.Uncaught TestMotor.EOFError,
     fst (hal_call (m_start_forward (Some 80)) (initial CamJamController_class)),
     snd (hal_call (m_start_forward (Some 80)) (initial CamJamController_class))) /\
  hal_is_moving
    (fst (hal_call (m_start_forward (Some 80)) (initial CamJamController_class)))
  = true.
Proof.
  assert (Hp : forallb TestMotor.plain
                 [TestMotor.Line "f 80"; TestMotor.Line "status"] = true)
    by (vm_compute; reflexivity).
  split; [exact (invariant_initial CamJamController_class)|].
  split; [exact Hp|].
  pose proof (proj1 (interactive_test_needs_quit
                [TestMotor.Line "f 80"; TestMotor.Line "status"]
                (initial CamJamController_class)
                (invariant_initial CamJamController_class) Hp)) as H.
  split; [|reflexivity].
  destruct (TestMotor.interactive_test _ _) as [[e m] l] eqn:E.
  cbn in H. subst e. vm_compute in E. inversion E. vm_compute. reflexivity.
Defined.

(** X30: The controller factory of the test script never raises: a type
    that is, in lower case, none of [motozero], [l298], [camjam] is
    replaced by [motozero]; the module is imported as [hal.X] only; where
    that import fails the script exits with code 1, otherwise the factory
    returns a new controller of the class after the constructor's hardware
    calls. *)
Theorem test_factory_outcomes (controller_type : string) (w : world) :
  let '(module_name, class_name) :=
    match lookup (PyStr.lower controller_type) controller_map with
    | Some entry => entry
    | None => ("motozero", MotoZeroController_class)
    end in
  if importable w ("hal." ++ module_name)
  then fst (TestMotor.create_motor_controller (R := unit) controller_type w)
       = Next (TestMotor.Created (initial class_name)) /\
       self (snd (TestMotor.create_motor_controller (R := unit) controller_type w))
       = self w
  else TestMotor.create_motor_controller (R := unit) controller_type w
       = (Next (TestMotor.SystemExit 1), w).
Proof.
  unfold TestMotor.create_motor_controller.
  destruct (lookup (PyStr.lower controller_type) controller_map)
    as [[module_name class_name]|] eqn:Hl.
  - rewrite Hl. unfold try_except, import_.
    cbn [bind Monad_Py].
    destruct (importable w ("hal." ++ module_name)); [|reflexivity].
    destruct class_name; split; reflexivity.
  - change (lookup "motozero" controller_map)
      with (Some ("motozero", MotoZeroController_class)).
    unfold try_except, import_. cbn [bind Monad_Py].
    destruct (importable w ("hal." ++ "motozero")); [|reflexivity].
    split; reflexivity.
Qed.
